(** * GridWrinkl: the grid layout engine of [gridwrinkl_cli.py]

    A shallow embedding of the classifier ([_analyze_file]), the fresh
    build ([_create_initial_grid_layout], [_scan_and_organize_files]),
    the zone placer ([_place_blocks_in_zone]), the reorganisation
    ([_reorganize_blocks], [grid_reorganize]) and of the part of the file
    system these functions touch.

    Conventions.
    - Python [int]s are [Z]; a [datetime] is a number of microseconds.
    - A Python [dict] used as a record (a block, a zone, the grid size,
      the statistics) is a [Record]; a key that may be absent is an
      [option] field.  The [zones] dictionary, only ever looked up by
      name, is a [gmap string Zone].  Dictionaries whose iteration order
      is observable ([categorized_blocks], the counters of the
      statistics) are association lists in insertion order.
    - Code that may raise returns a [result]; code that also reads or
      writes files, or prints, runs in the monad [IO] over a [World]. *)

From Stdlib Require Import ZArith String Ascii List Bool Lia.
From stdpp Require Import base option list gmap strings pretty.

Import ListNotations.
Local Open Scope string_scope.
Local Open Scope Z_scope.

(** ** Strings *)

Module Str.

(** [s.startswith(p)] *)
Definition startswith (s p : string) : bool := String.prefix p s.

(** [s.endswith(p)] *)
Definition endswith (s p : string) : bool :=
  let n := String.length s in
  let k := String.length p in
  if (k <=? n)%nat then String.eqb (String.substring (n - k) k s) p else false.

(** [p in s] for strings: [p] occurs in [s] as a substring. *)
Fixpoint contains (p s : string) : bool :=
  String.prefix p s ||
  match s with
  | EmptyString => false
  | String _ s' => contains p s'
  end.

(** [x in l] for a list of strings. *)
Definition mem (x : string) (l : list string) : bool :=
  existsb (String.eqb x) l.

End Str.

(** ** The classifier: [_analyze_file] *)

(** What [_analyze_file] reads from a [Path] and its [stat()]:
    [name] is [file_path.name], [ext] is [file_path.suffix.lower()],
    [rel_path] is [str(file_path.relative_to(project_path))], [str_path]
    is [str(file_path)], [st_mtime] is the modification time in
    microseconds and [mtime_iso] its [isoformat()]. *)
Record FileEntry := {
  str_path : string;
  rel_path : string;
  fname : string;
  ext : string;
  st_size : Z;
  st_mtime : Z;
  mtime_iso : string
}.

(** The dictionary returned by [_analyze_file]. *)
Record FileInfo := {
  fi_type : string;
  fi_category : string;
  fi_size : Z;
  fi_modified : string
}.

Definition usec_per_day : Z := 86400 * 1000000.

(** [(a - b).days] of a [timedelta]: the normalised day count, rounded
    towards minus infinity. *)
Definition timedelta_days (a b : Z) : Z := (a - b) / usec_per_day.

Definition file_type_of (e : string) : string :=
  if Str.mem e [".py"; ".js"; ".ts"; ".java"; ".c"; ".cpp"; ".go"; ".rs"] then "code"
  else if Str.mem e [".md"; ".txt"; ".doc"; ".docx"; ".pdf"] then "document"
  else if Str.mem e [".json"; ".yaml"; ".yml"; ".toml"; ".ini"; ".config"] then "config"
  else if Str.mem e [".jpg"; ".png"; ".gif"; ".svg"; ".webp"] then "image"
  else if Str.mem e [".html"; ".css"; ".scss"; ".sass"] then "web"
  else if Str.mem e [".sql"; ".db"] then "database"
  else if Str.mem e [".zip"; ".tar"; ".gz"; ".rar"] then "archive"
  else "unknown".

Definition category_by_age (days_since_modified : Z) : string :=
  if days_since_modified <? 7 then "active"
  else if days_since_modified <? 30 then "pending"
  else "archive".

Definition special_category (nm category : string) : string :=
  if Str.startswith nm "README" then "resources"
  else if Str.mem nm ["requirements.txt"; "package.json"; "setup.py"] then "resources"
  else if Str.startswith nm "test_" || Str.endswith nm "_test.py" then "resources"
  else category.

(** [now] is the value of [datetime.datetime.now()], in microseconds. *)
Definition _analyze_file (now : Z) (f : FileEntry) : FileInfo :=
  let file_type := file_type_of (ext f) in
  let days_since_modified := timedelta_days now (st_mtime f) in
  let category := category_by_age days_since_modified in
  let category := special_category (fname f) category in
  {| fi_type := file_type;
     fi_category := category;
     fi_size := st_size f;
     fi_modified := mtime_iso f |}.

(** ** The data model *)

(** The value of a block's ["position"] key: [{"x": x, "y": y}]. *)
Record Position := { pos_x : Z; pos_y : Z }.

(** A block: the dictionary built by [_create_initial_grid_layout],
    with the ["position"] key that placement adds.  The blocks of a
    layout file are taken to carry the seven keys this program writes,
    so that [block["category"]] and [block["type"]] do not raise and
    [block.get("placed", False)] is the value of ["placed"]; only
    ["position"] may be absent. *)
Record Block := {
  b_path : string;
  b_name : string;
  b_type : string;
  b_category : string;
  b_size : Z;
  b_modified : string;
  b_placed : bool;
  b_position : option Position
}.

(** A zone [{"x", "y", "width", "height"}] with its four integer keys;
    the fields carry the names of the locals of [_place_blocks_in_zone].
    The coordinates may be negative or outside the grid. *)
Record Zone := { zone_x : Z; zone_y : Z; zone_w : Z; zone_h : Z }.

Record GridSize := { grid_width : Z; grid_height : Z }.

(** A counter dictionary ([category_counts], [type_counts]), in
    insertion order. *)
Abbreviation Counts := (list (string * Z)).

Record Stats := {
  total_files : Z;
  placed_files : Z;
  by_category : Counts;
  by_type : Counts
}.

(** The layout dictionary built in memory by the fresh build and by the
    reorganisation. *)
Record Layout := {
  version : string;
  timestamp : string;
  grid_size : GridSize;
  zones : gmap string Zone;
  blocks : list Block;
  stats : Stats
}.

(** A JSON object as [json.load] returns it from a layout file: every
    top-level key may be missing. *)
Record Doc := {
  doc_version : option string;
  doc_timestamp : option string;
  doc_grid_size : option GridSize;
  doc_zones : option (gmap string Zone);
  doc_blocks : option (list Block);
  doc_stats : option Stats
}.

(** What [json.dump] writes for a layout: all six keys. *)
Definition doc_of_layout (l : Layout) : Doc :=
  {| doc_version := Some (version l);
     doc_timestamp := Some (timestamp l);
     doc_grid_size := Some (grid_size l);
     doc_zones := Some (zones l);
     doc_blocks := Some (blocks l);
     doc_stats := Some (stats l) |}.

Record Config := { cfg_grid_size : GridSize; cfg_zones : gmap string Zone }.

Definition default_grid_size : GridSize := {| grid_width := 12; grid_height := 8 |}.

Definition default_zones : gmap string Zone :=
  list_to_map
    [ ("active", {| zone_x := 0; zone_y := 0; zone_w := 6; zone_h := 4 |});
      ("resources", {| zone_x := 6; zone_y := 0; zone_w := 6; zone_h := 4 |});
      ("archive", {| zone_x := 0; zone_y := 4; zone_w := 12; zone_h := 4 |}) ].

(** The ["grid_size"] and ["zones"] of the dictionary of [_create_config]. *)
Definition default_config : Config :=
  {| cfg_grid_size := default_grid_size; cfg_zones := default_zones |}.

(** [self.category_to_zone] *)
Definition category_to_zone : gmap string string :=
  list_to_map
    [ ("active", "active"); ("pending", "active");
      ("archive", "archive"); ("completed", "archive");
      ("resources", "resources"); ("reference", "resources") ].

(** [d.get(k, dflt)] *)
Definition dict_get {V} (d : gmap string V) (k : string) (dflt : V) : V :=
  default dflt (d !! k).

(** ** Exceptions *)

Inductive exn :=
| IndexError
| FileNotFoundError
| IsADirectoryError
| SameFileError
| JSONDecodeError.

Inductive result (A : Type) :=
| Ok (a : A)
| Raise (e : exn).

Arguments Ok {A} a.
Arguments Raise {A} e.

#[global] Instance result_ret : MRet result := fun _ a => Ok a.
#[global] Instance result_bind : MBind result := fun _ _ f m =>
  match m with
  | Ok a => f a
  | Raise e => Raise e
  end.
#[global] Instance result_fmap : FMap result := fun _ _ f m =>
  match m with
  | Ok a => Ok (f a)
  | Raise e => Raise e
  end.

Definition is_ok {A} (r : result A) : bool :=
  match r with Ok _ => true | Raise _ => false end.

(** ** Python lists *)

(** [len(l)] *)
Definition len {A} (l : list A) : Z := Z.of_nat (length l).

(** The offset addressed by index [i] in a list of length [n]: a
    negative index counts from the end. *)
Definition norm_index (n i : Z) : option nat :=
  let j := if i <? 0 then i + n else i in
  if (0 <=? j) && (j <? n) then Some (Z.to_nat j) else None.

(** [l[i]] *)
Definition getitem {A} (l : list A) (i : Z) : result A :=
  match norm_index (len l) i with
  | Some j => match l !! j with Some a => Ok a | None => Raise IndexError end
  | None => Raise IndexError
  end.

(** [l[i] = a] *)
Definition setitem {A} (l : list A) (i : Z) (a : A) : result (list A) :=
  match norm_index (len l) i with
  | Some j => Ok (<[j := a]> l)
  | None => Raise IndexError
  end.

(** [range(a, b)] *)
Definition range (a b : Z) : list Z := seqZ a (b - a).

(** ** The occupancy grid and the zone placer *)

(** [grid[y][x]], a list of [height] rows of [width] cells. *)
Abbreviation Grid := (list (list bool)).

(** [[[False for _ in range(width)] for _ in range(height)]] *)
Definition new_grid (gs : GridSize) : Grid :=
  (fun _ => (fun _ => false) <$> range 0 (grid_width gs)) <$> range 0 (grid_height gs).

(** The cells visited by the two nested [for] loops, in visiting order:
    [y] outer, [x] inner. *)
Definition zone_cells (zone : Zone) : list (Z * Z) :=
  y ← range (zone_y zone) (zone_y zone + zone_h zone);
  x ← range (zone_x zone) (zone_x zone + zone_w zone);
  [(x, y)].

(** The two assignments made to the block taken by [blocks.pop(0)]. *)
Definition place_at (block : Block) (x y : Z) : Block :=
  {| b_path := b_path block;
     b_name := b_name block;
     b_type := b_type block;
     b_category := b_category block;
     b_size := b_size block;
     b_modified := b_modified block;
     b_placed := true;
     b_position := Some {| pos_x := x; pos_y := y |} |}.

(** The body of the loops of [_place_blocks_in_zone] over the remaining
    cells.  The state is the pair of the two mutated arguments: the list
    [blocks] and the [grid].  The block removed by [pop(0)] is updated
    and then no longer referenced by anything. *)
Fixpoint place_loop (cells : list (Z * Z)) (blocks : list Block) (grid : Grid)
  : result (list Block * Grid) :=
  match cells with
  | [] => Ok (blocks, grid)
  | (x, y) :: cells' =>
    if len grid <=? y then place_loop cells' blocks grid else
    row0 ← getitem grid 0;
    if len row0 <=? x then place_loop cells' blocks grid else
    row ← getitem grid y;
    occupied ← getitem row x;
    if occupied : bool then place_loop cells' blocks grid else
    match blocks with
    | [] => Ok (blocks, grid)
    | block :: blocks' =>
      let _block := place_at block x y in
      row' ← setitem row x true;
      grid' ← setitem grid y row';
      place_loop cells' blocks' grid'
    end
  end.

Definition _place_blocks_in_zone (blocks : list Block) (zone : Zone) (grid : Grid)
  : result (list Block * Grid) :=
  place_loop (zone_cells zone) blocks grid.

(** ** [_reorganize_blocks] *)

(** [categorized_blocks]: category to list of blocks, in insertion order. *)
Abbreviation Groups := (list (string * list Block)).

(** [if category not in cb: cb[category] = []] followed by
    [cb[category].append(block)]. *)
Fixpoint group_append (cb : Groups) (category : string) (block : Block) : Groups :=
  match cb with
  | [] => [(category, [block])]
  | (c, l) :: cb' =>
    if String.eqb c category then (c, (l ++ [block])%list) :: cb'
    else (c, l) :: group_append cb' category block
  end.

(** The first loop; [block.copy()] of a block is the block. *)
Definition categorize (blocks : list Block) : Groups :=
  fold_left (fun cb block => group_append cb (b_category block) block) blocks [].

(** [block["placed"] = False] and [del block["position"]] when present. *)
Definition unplace (block : Block) : Block :=
  {| b_path := b_path block;
     b_name := b_name block;
     b_type := b_type block;
     b_category := b_category block;
     b_size := b_size block;
     b_modified := b_modified block;
     b_placed := false;
     b_position := None |}.

(** The second loop. *)
Definition unplace_all (cb : Groups) : Groups :=
  (fun g : string * list Block => (g.1, unplace <$> g.2)) <$> cb.

(** One iteration of the third loop, on the entry [(category, blocks_list)]. *)
Definition place_group (zones : gmap string Zone) (category : string)
    (blocks_list : list Block) (grid : Grid) : result (list Block * Grid) :=
  let zone_name := dict_get category_to_zone category "archive" in
  match zones !! zone_name with
  | Some zone => _place_blocks_in_zone blocks_list zone grid
  | None => Ok (blocks_list, grid)
  end.

(** The third loop: the entries keep their place in the dictionary, the
    lists and the grid are updated in place. *)
Fixpoint place_groups (zones : gmap string Zone) (cb : Groups) (grid : Grid)
  : result (Groups * Grid) :=
  match cb with
  | [] => Ok ([], grid)
  | (category, blocks_list) :: cb' =>
    r ← place_group zones category blocks_list grid;
    r' ← place_groups zones cb' r.2;
    Ok ((category, r.1) :: r'.1, r'.2)
  end.

(** The last loop: [result_blocks.extend(blocks_list)] for every value. *)
Definition merge_groups (cb : Groups) : list Block :=
  concat (snd <$> cb).

Definition _reorganize_blocks (blocks : list Block) (zones : gmap string Zone)
    (grid_size : GridSize) : result (list Block) :=
  let grid := new_grid grid_size in
  let categorized_blocks := categorize blocks in
  let categorized_blocks := unplace_all categorized_blocks in
  r ← place_groups zones categorized_blocks grid;
  Ok (merge_groups r.1).

(** ** Statistics *)

(** [if k in counts: counts[k] += 1 else: counts[k] = 1] *)
Fixpoint count_incr (counts : Counts) (k : string) : Counts :=
  match counts with
  | [] => [(k, 1)]
  | (k', n) :: counts' =>
    if String.eqb k' k then (k', n + 1) :: counts'
    else (k', n) :: count_incr counts' k
  end.

Definition count_by (key : Block → string) (blocks : list Block) : Counts :=
  fold_left (fun counts block => count_incr counts (key block)) blocks [].

(** [sum(1 for block in blocks if block.get("placed", False))] *)
Definition count_placed (blocks : list Block) : Z :=
  len (filter (fun block => b_placed block = true) blocks).

(** ** The fresh build: [_create_initial_grid_layout] *)

(** The dictionary appended to [file_blocks] for one file. *)
Definition block_of_file (now : Z) (file_path : FileEntry) : Block :=
  let file_info := _analyze_file now file_path in
  {| b_path := rel_path file_path;
     b_name := fname file_path;
     b_type := fi_type file_info;
     b_category := fi_category file_info;
     b_size := fi_size file_info;
     b_modified := fi_modified file_info;
     b_placed := false;
     b_position := None |}.

(** [clock i] is the value of [datetime.datetime.now()] read by
    [_analyze_file] on the [i]-th file; [now_iso] is the [isoformat()] of
    the reading taken for the ["timestamp"]. *)
Definition _create_initial_grid_layout (config : Config) (clock : nat → Z)
    (now_iso : string) (files : list FileEntry) : Layout :=
  let file_blocks := imap (fun i file_path => block_of_file (clock i) file_path) files in
  {| version := "1.0.0";
     timestamp := now_iso;
     grid_size := cfg_grid_size config;
     zones := cfg_zones config;
     blocks := file_blocks;
     stats :=
       {| total_files := len file_blocks;
          placed_files := 0;
          by_category := count_by b_category file_blocks;
          by_type := count_by b_type file_blocks |} |}.

Definition ignore_patterns : list string :=
  [".git"; "__pycache__"; ".venv"; "node_modules";
   ".ai"; ".gridfile"; ".tmp"; "dist"; "build"].

Definition _should_ignore_file (file_path : FileEntry) : bool :=
  existsb (fun pattern => Str.contains pattern (str_path file_path)) ignore_patterns.

(** ** The file system and the console *)

(** A path below [self.project_path], as its list of components. *)
Abbreviation Path := (list string).

(** The content of a regular file: a JSON object, or anything else. *)
Inductive content :=
| Json (d : Doc)
| Other.

Inductive node :=
| Dir
| File (c : content).

(** The messages printed by the functions modelled here:
    - [MsgNotInitialized]: "GridWrinkl이 초기화되지 않았습니다. ..."
    - [MsgReorganizing]: "그리드 레이아웃을 재구성합니다..."
    - [MsgLayoutNotFound]: "그리드 레이아웃 파일을 찾을 수 없습니다."
    - [MsgPlacing]: "블록을 재배치하여 그리드 효율성을 개선합니다..."
    - [MsgImproved]: "그리드 효율성이 {old}%에서 {new}%로 개선되었습니다.",
      kept as the three integers the two percentages are computed from
    - [MsgReorganized]: "그리드 레이아웃이 재구성되었습니다."
    - [MsgScanning]: "프로젝트 파일을 스캔하고 분석합니다..."
    - [MsgFound n]: "{n}개의 파일을 발견했습니다."
    - [MsgInitialSaved]: "초기 그리드 레이아웃 저장: {layout_path}" *)
Inductive message :=
| MsgNotInitialized
| MsgReorganizing
| MsgLayoutNotFound
| MsgPlacing
| MsgImproved (old_placed new_placed total : Z)
| MsgReorganized
| MsgScanning
| MsgFound (n : Z)
| MsgInitialSaved.

Inductive level := Debug | Info | Success | Error.

(** What a run does to the outside, in order: a line printed, a file
    read, a file copied, a file written.  An event is recorded when the
    operation has completed. *)
Inductive event :=
| Print (l : level) (m : message)
| Load (p : Path)
| Copy (src dst : Path)
| Dump (p : Path).

Record World := {
  fs : gmap (list string) node;
  trace : list event
}.

Definition IO (A : Type) : Type := World → result A * World.

Definition io_ret {A} (a : A) : IO A := fun w => (Ok a, w).

Definition io_bind {A B} (m : IO A) (f : A → IO B) : IO B := fun w =>
  match m w with
  | (Ok a, w') => f a w'
  | (Raise e, w') => (Raise e, w')
  end.

Notation "'let*' x := m 'in' k" := (io_bind m (fun x => k))
  (at level 10, x name, m at level 200, k at level 200).
Notation "m ;; k" := (io_bind m (fun _ => k))
  (at level 100, k at level 200, right associativity).

Definition io_raise {A} (e : exn) : IO A := fun w => (Raise e, w).

(** A pure computation that may raise. *)
Definition io_lift {A} (r : result A) : IO A := fun w => (r, w).

Definition emit (e : event) : IO unit := fun w =>
  (Ok tt, {| fs := fs w; trace := (trace w ++ [e])%list |}).

Definition get_fs : IO (gmap (list string) node) := fun w => (Ok (fs w), w).

Definition put_fs (m : gmap (list string) node) : IO unit := fun w =>
  (Ok tt, {| fs := m; trace := trace w |}).

(** [_log_debug] prints only in debug mode. *)
Definition _log_debug (debug_mode : bool) (m : message) : IO unit :=
  if debug_mode then emit (Print Debug m) else io_ret tt.
Definition _log_info (m : message) : IO unit := emit (Print Info m).
Definition _log_success (m : message) : IO unit := emit (Print Success m).
Definition _log_error (m : message) : IO unit := emit (Print Error m).

(** [p.exists()] *)
Definition exists_in (m : gmap (list string) node) (p : Path) : bool :=
  match m !! p with
  | Some _ => true
  | None => false
  end.

Definition path_exists (p : Path) : IO bool :=
  let* m := get_fs in io_ret (exists_in m p).

(** [p.parent] *)
Definition parent (p : Path) : Path := removelast p.

(** [open(p, "w")]: the directory of [p] must exist and [p] must not be
    a directory. *)
Definition check_writable (m : gmap (list string) node) (p : Path) : result unit :=
  match m !! parent p with
  | Some Dir =>
    match m !! p with
    | Some Dir => Raise IsADirectoryError
    | _ => Ok tt
    end
  | _ => Raise FileNotFoundError
  end.

(** [with open(p, "r") as f: json.load(f)] *)
Definition json_load (p : Path) : IO Doc :=
  let* m := get_fs in
  match m !! p with
  | None => io_raise FileNotFoundError
  | Some Dir => io_raise IsADirectoryError
  | Some (File Other) => io_raise JSONDecodeError
  | Some (File (Json d)) => emit (Load p) ;; io_ret d
  end.

(** [with open(p, "w") as f: json.dump(layout, f)] *)
Definition json_dump (layout : Layout) (p : Path) : IO unit :=
  let* m := get_fs in
  io_lift (check_writable m p) ;;
  put_fs (<[p := File (Json (doc_of_layout layout))]> m) ;;
  emit (Dump p).

(** [shutil.copy2(src, dst)] first resolves its destination: a
    destination that is a directory receives the file under the name of
    the source. *)
Definition copy_target (m : gmap (list string) node) (src dst : Path) : Path :=
  match m !! dst with
  | Some Dir => (dst ++ [List.last src ""])%list
  | _ => dst
  end.

(** [shutil.copy2(src, dst)] *)
Definition copy2 (src dst : Path) : IO unit :=
  let* m := get_fs in
  match m !! src with
  | None => io_raise FileNotFoundError
  | Some Dir => io_raise IsADirectoryError
  | Some (File c) =>
    let dst := copy_target m src dst in
    if bool_decide (src = dst) then io_raise SameFileError else
    io_lift (check_writable m dst) ;;
    put_fs (<[dst := File c]> m) ;;
    emit (Copy src dst)
  end.

(** The paths of the instance. *)
Definition gridfile_dir : Path := [".gridfile"].
Definition ai_dir : Path := [".ai"].
Definition config_path : Path := [".gridfile"; "config.json"].
Definition current_layout_path : Path := [".gridfile"; "layouts"; "current.json"].
Definition initial_layout_path : Path := [".gridfile"; "layouts"; "initial.json"].

(** [now_stamp] is [datetime.datetime.now().strftime('%Y%m%d-%H%M%S')]. *)
Definition backup_path (now_stamp : string) : Path :=
  [".gridfile"; "backups"; "layout-" ++ now_stamp ++ ".json"].

Definition is_initialized : IO bool :=
  let* m := get_fs in
  io_ret (exists_in m gridfile_dir && exists_in m ai_dir && exists_in m config_path).

(** [globbed] is the list of the regular files that
    [self.project_path.glob("**/*")] yields. *)
Definition _scan_and_organize_files (debug_mode : bool) (config : Config)
    (clock : nat → Z) (now_iso : string) (globbed : list FileEntry) : IO unit :=
  _log_info MsgScanning ;;
  let files := List.filter (fun file_path => negb (_should_ignore_file file_path)) globbed in
  _log_info (MsgFound (len files)) ;;
  let grid_layout := _create_initial_grid_layout config clock now_iso files in
  json_dump grid_layout initial_layout_path ;;
  _log_debug debug_mode MsgInitialSaved.

(** ** [grid_reorganize] *)

(** The dictionary [new_layout], with its statistics filled in. *)
Definition new_layout_of (now_iso : string) (grid_size : GridSize)
    (zones : gmap string Zone) (new_blocks : list Block) : Layout :=
  {| version := "1.0.0";
     timestamp := now_iso;
     grid_size := grid_size;
     zones := zones;
     blocks := new_blocks;
     stats :=
       {| total_files := len new_blocks;
          placed_files := count_placed new_blocks;
          by_category := count_by b_category new_blocks;
          by_type := count_by b_type new_blocks |} |}.

(** [layout.get("grid_size", {"width": 12, "height": 8})] *)
Definition get_grid_size (layout : Doc) : GridSize :=
  default default_grid_size (doc_grid_size layout).

(** [layout.get("zones", {...})], the default being the three zones of
    the default configuration. *)
Definition get_zones (layout : Doc) : gmap string Zone :=
  default default_zones (doc_zones layout).

(** [layout.get("blocks", [])] *)
Definition get_blocks (layout : Doc) : list Block :=
  default [] (doc_blocks layout).

(** The message of the final [if len(blocks) > 0: ... else: ...]; the
    two percentages printed are [old_placed / total * 100] and
    [new_placed / total * 100]. *)
Definition improvement (old_placed new_placed total : Z) : message :=
  if 0 <? total then MsgImproved old_placed new_placed total else MsgReorganized.

(** [now_iso] and [now_stamp] are the two readings of the clock, as
    formatted for the ["timestamp"] and for the name of the backup. *)
Definition grid_reorganize (now_iso now_stamp : string) : IO bool :=
  let* initialized := is_initialized in
  if negb initialized then
    _log_error MsgNotInitialized ;;
    io_ret false
  else
  _log_info MsgReorganizing ;;
  let* current_exists := path_exists current_layout_path in
  let layout_path :=
    if current_exists then current_layout_path else initial_layout_path in
  let* layout_exists := path_exists layout_path in
  if negb layout_exists then
    _log_error MsgLayoutNotFound ;;
    io_ret false
  else
  let* layout := json_load layout_path in
  let grid_size := get_grid_size layout in
  let zones := get_zones layout in
  let blocks := get_blocks layout in
  let old_placed := count_placed blocks in
  _log_info MsgPlacing ;;
  let* new_blocks := io_lift (_reorganize_blocks blocks zones grid_size) in
  let new_layout := new_layout_of now_iso grid_size zones new_blocks in
  let* still_exists := path_exists layout_path in
  (if still_exists then copy2 layout_path (backup_path now_stamp) else io_ret tt) ;;
  json_dump new_layout current_layout_path ;;
  let new_placed := count_placed new_blocks in
  _log_success (improvement old_placed new_placed (len blocks)) ;;
  io_ret true.

(** ** Predicates used in the statements *)

(** Every row of the grid has [w] cells. *)
Definition rect (w : nat) (grid : Grid) : Prop :=
  Forall (fun row => length row = w) grid.

(** A zone whose origin is not negative: no cell of it is addressed
    with a negative index. *)
Definition zone_nonneg (zone : Zone) : Prop :=
  0 ≤ zone_x zone ∧ 0 ≤ zone_y zone.

(** Every block of a group carries the key of the group. *)
Definition keyed (cb : Groups) : Prop :=
  Forall (fun g : string * list Block => Forall (fun b => b_category b = g.1) g.2) cb.

(** The statistics of a layout agree with its list of blocks. *)
Definition conserved (l : Layout) : Prop :=
  total_files (stats l) = len (blocks l)
  ∧ placed_files (stats l) = count_placed (blocks l).

(** The ["stats"] of the current layout file, when there is one. *)
Definition current_stats (m : gmap (list string) node) : option Stats :=
  match m !! current_layout_path with
  | Some (File (Json d)) => doc_stats d
  | _ => None
  end.

(** The paths of the files read by a run, in order. *)
Definition loads (evs : list event) : list Path :=
  omap (fun e => match e with Load p => Some p | _ => None end) evs.

(** The paths of the files written by a run, in order. *)
Definition dumps (evs : list event) : list Path :=
  omap (fun e => match e with Dump p => Some p | _ => None end) evs.

(** The copies made by a run, in order. *)
Definition copies (evs : list event) : list (Path * Path) :=
  omap (fun e => match e with Copy s d => Some (s, d) | _ => None end) evs.

(** The world in which a run starts: a file system and an empty console. *)
Definition start (m : gmap (list string) node) : World :=
  {| fs := m; trace := [] |}.

(** [is_initialized()] on a file system. *)
Definition initialized (m : gmap (list string) node) : bool :=
  exists_in m gridfile_dir && exists_in m ai_dir && exists_in m config_path.

(** The file chosen by [grid_reorganize] as [layout_path]. *)
Definition layout_path_of (m : gmap (list string) node) : Path :=
  if exists_in m current_layout_path then current_layout_path else initial_layout_path.

(** ** The runs of [grid_reorganize]

    [outcome now_iso now_stamp m r w] lists, case by case, the result [r]
    and the final world [w] of a run started on the file system [m] with
    an empty console. *)

(** The events of a run up to the placement. *)
Definition before_backup (p : Path) : list event :=
  [Print Info MsgReorganizing; Load p; Print Info MsgPlacing].

Inductive outcome (now_iso now_stamp : string) (m : gmap (list string) node)
  : result bool → World → Prop :=
| NotInitialized
    (Hinit : initialized m = false) :
    outcome now_iso now_stamp m (Ok false)
      {| fs := m; trace := [Print Error MsgNotInitialized] |}
| LayoutNotFound
    (Hinit : initialized m = true)
    (Hpath : m !! layout_path_of m = None) :
    outcome now_iso now_stamp m (Ok false)
      {| fs := m;
         trace := [Print Info MsgReorganizing; Print Error MsgLayoutNotFound] |}
| LoadFailed e
    (Hinit : initialized m = true)
    (Hpath : m !! layout_path_of m = Some Dir
             ∨ m !! layout_path_of m = Some (File Other)) :
    outcome now_iso now_stamp m (Raise e)
      {| fs := m; trace := [Print Info MsgReorganizing] |}
| PlacementFailed d e
    (Hinit : initialized m = true)
    (Hpath : m !! layout_path_of m = Some (File (Json d)))
    (Hplace : _reorganize_blocks (get_blocks d) (get_zones d) (get_grid_size d)
              = Raise e) :
    outcome now_iso now_stamp m (Raise e)
      {| fs := m; trace := before_backup (layout_path_of m) |}
| BackupFailed d new_blocks e
    (Hinit : initialized m = true)
    (Hpath : m !! layout_path_of m = Some (File (Json d)))
    (Hplace : _reorganize_blocks (get_blocks d) (get_zones d) (get_grid_size d)
              = Ok new_blocks)
    (Hcopy : (copy2 (layout_path_of m) (backup_path now_stamp) (start m)).1
             = Raise e) :
    outcome now_iso now_stamp m (Raise e)
      {| fs := m; trace := before_backup (layout_path_of m) |}
| SaveFailed d new_blocks e
    (Hinit : initialized m = true)
    (Hpath : m !! layout_path_of m = Some (File (Json d)))
    (Hplace : _reorganize_blocks (get_blocks d) (get_zones d) (get_grid_size d)
              = Ok new_blocks)
    (Hcopy : (copy2 (layout_path_of m) (backup_path now_stamp) (start m)).1
             = Ok tt)
    (Hsave : check_writable
               (<[copy_target m (layout_path_of m) (backup_path now_stamp)
                  := File (Json d)]> m)
               current_layout_path = Raise e) :
    outcome now_iso now_stamp m (Raise e)
      {| fs := <[copy_target m (layout_path_of m) (backup_path now_stamp)
                 := File (Json d)]> m;
         trace :=
           (before_backup (layout_path_of m) ++
            [Copy (layout_path_of m)
               (copy_target m (layout_path_of m) (backup_path now_stamp))])%list |}
| Reorganized d new_blocks
    (Hinit : initialized m = true)
    (Hpath : m !! layout_path_of m = Some (File (Json d)))
    (Hplace : _reorganize_blocks (get_blocks d) (get_zones d) (get_grid_size d)
              = Ok new_blocks)
    (Hcopy : (copy2 (layout_path_of m) (backup_path now_stamp) (start m)).1
             = Ok tt)
    (Hsave : check_writable
               (<[copy_target m (layout_path_of m) (backup_path now_stamp)
                  := File (Json d)]> m)
               current_layout_path = Ok tt) :
    outcome now_iso now_stamp m (Ok true)
      {| fs :=
           <[current_layout_path :=
               File (Json (doc_of_layout
                 (new_layout_of now_iso (get_grid_size d) (get_zones d) new_blocks)))]>
             (<[copy_target m (layout_path_of m) (backup_path now_stamp)
                := File (Json d)]> m);
         trace :=
           (before_backup (layout_path_of m) ++
            [Copy (layout_path_of m)
               (copy_target m (layout_path_of m) (backup_path now_stamp));
             Dump current_layout_path;
             Print Success
               (improvement (count_placed (get_blocks d)) (count_placed new_blocks)
                  (len (get_blocks d)))])%list |}.

(** ** Sample inputs *)

Definition sample_block (p c : string) : Block :=
  {| b_path := p; b_name := p; b_type := "code"; b_category := c;
     b_size := 0; b_modified := "2024-01-01T00:00:00";
     b_placed := false; b_position := None |}.

(** The zones of the default configuration without the zone [active]. *)
Definition zones_without_active : gmap string Zone := delete "active" default_zones.

(** The thirty blocks of category [active] of the scenario. *)
Definition thirty_active : list Block :=
  (fun n : nat => sample_block ("file" ++ pretty n ++ ".py") "active") <$> seq 0 30.

(** The zone [active] alone. *)
Definition active_zone_only : gmap string Zone :=
  {[ "active" := {| zone_x := 0; zone_y := 0; zone_w := 6; zone_h := 4 |} ]}.

(** A layout document with the given blocks and nothing else. *)
Definition doc_with_blocks (bs : list Block) : Doc :=
  {| doc_version := Some "1.0.0"; doc_timestamp := Some "2024-01-01T00:00:00";
     doc_grid_size := Some default_grid_size; doc_zones := Some active_zone_only;
     doc_blocks := Some bs; doc_stats := None |}.

(** A JSON object without any of the keys of a layout. *)
Definition empty_doc : Doc :=
  {| doc_version := None; doc_timestamp := None; doc_grid_size := None;
     doc_zones := None; doc_blocks := None; doc_stats := None |}.

(** An initialised project without layout files. *)
Definition project_fs : gmap (list string) node :=
  list_to_map
    [ (gridfile_dir, Dir); (ai_dir, Dir); (config_path, File Other);
      ([".gridfile"; "layouts"], Dir); ([".gridfile"; "backups"], Dir) ].

(** An initialised project whose current layout is [d]. *)
Definition project_with_current (d : Doc) : gmap (list string) node :=
  <[current_layout_path := File (Json d)]> project_fs.

(** The same project after its directory of backups has been removed. *)
Definition project_without_backups (d : Doc) : gmap (list string) node :=
  delete [".gridfile"; "backups"] (project_with_current d).

(** A file modified at time [0]. *)
Definition sample_file (nm e : string) : FileEntry :=
  {| str_path := "/home/user/project/" ++ nm; rel_path := nm; fname := nm; ext := e;
     st_size := 100; st_mtime := 0; mtime_iso := "1970-01-01T00:00:00" |}.

(** * Further definitions *)

(** ** Cells of the grid *)

(** The cell [(x, y)] lies inside the grid and is not occupied. *)
Definition cell_free (grid : Grid) (c : Z * Z) : bool :=
  (0 <=? c.1) && (0 <=? c.2) &&
  match grid !! Z.to_nat c.2 with
  | Some row =>
    match row !! Z.to_nat c.1 with
    | Some occupied => negb occupied
    | None => false
    end
  | None => false
  end.

(** [grid[y][x] = True] for a cell with non-negative coordinates. *)
Definition mark (grid : Grid) (c : Z * Z) : Grid :=
  match grid !! Z.to_nat c.2 with
  | Some row => <[Z.to_nat c.2 := <[Z.to_nat c.1 := true]> row]> grid
  | None => grid
  end.

(** The zone lies inside a grid of the given size. *)
Definition zone_inside (zone : Zone) (gs : GridSize) : Prop :=
  0 ≤ zone_x zone ∧ 0 ≤ zone_y zone ∧ 0 ≤ zone_w zone ∧ 0 ≤ zone_h zone
  ∧ zone_x zone + zone_w zone ≤ grid_width gs
  ∧ zone_y zone + zone_h zone ≤ grid_height gs.

(** ** Counters *)

(** [counts.get(k, 0)] *)
Fixpoint count_of (counts : Counts) (k : string) : Z :=
  match counts with
  | [] => 0
  | (k', n) :: counts' => if String.eqb k' k then n else count_of counts' k
  end.

(** The sum of the values of a counter dictionary. *)
Definition count_total (counts : Counts) : Z :=
  foldr (fun p acc => p.2 + acc) 0 counts.

(** * The user service: [user_authentication/models.py] and [services.py] *)

Module Auth.

(** The dataclass [User]. *)
Record User := {
  username : string;
  email : string;
  hashed_password : string;
  is_active : bool;
  id : string
}.

(** [_users_db], a dictionary from the id of a user to the user, in
    insertion order. *)
Abbreviation Db := (list (string * User)).

(** [db[k] = v]: the value under an existing key is replaced where it
    stands, a new key is added at the end. *)
Fixpoint dict_setitem (db : Db) (k : string) (v : User) : Db :=
  match db with
  | [] => [(k, v)]
  | (k', v') :: db' =>
    if String.eqb k' k then (k', v) :: db' else (k', v') :: dict_setitem db' k v
  end.

(** [db.values()] *)
Definition values (db : Db) : list User := db.*2.

(** The text of the [ValueError] of [create_user]:
    "이미 사용 중인 이메일입니다." *)
Inductive error_text := EmailInUse.

Inductive raised (A : Type) :=
| Return (a : A)
| ValueError (m : error_text).

Arguments Return {A} a.
Arguments ValueError {A} m.

Definition _hash_password (password : string) : string := "hashed_" ++ password.

(** [uuid] is the value of [str(uuid.uuid4())] drawn for the new user. *)
Definition create_user (uuid : string) (username email password : string) (db : Db)
  : raised User * Db :=
  if Str.mem email (Auth.email <$> values db) then (ValueError EmailInUse, db) else
  let hashed_password := _hash_password password in
  let new_user :=
    {| username := username; email := email; hashed_password := hashed_password;
       is_active := true; id := uuid |} in
  (Return new_user, dict_setitem db (id new_user) new_user).

Fixpoint find_email (email : string) (users : list User) : option User :=
  match users with
  | [] => None
  | user :: users' =>
    if String.eqb (Auth.email user) email then Some user else find_email email users'
  end.

Definition get_user_by_email (email : string) (db : Db) : option User :=
  find_email email (values db).

Definition verify_password (password hashed_password : string) : bool :=
  String.eqb (_hash_password password) hashed_password.

End Auth.

(** * The web front end: [app.py] *)

Module App.

(** The messages passed to [flash]:
    - [Registered]: "회원가입이 성공적으로 완료되었습니다. 로그인해주세요."
    - [Failed m]: [str(e)] for the [ValueError] caught
    - [Welcome username]: "로그인 성공! {username}님 환영합니다."
    - [BadCredentials]: "이메일 또는 비밀번호가 올바르지 않습니다."
    - [NoLayout]: "Grid layout 파일을 찾을 수 없습니다." *)
Inductive flash_text :=
| Registered
| Failed (m : Auth.error_text)
| Welcome (username : string)
| BadCredentials
| NoLayout.

Inductive category := success | error.

(** What a view returns: [redirect(url_for(endpoint))],
    [render_template(name)] with the layout passed to [grid.html], or
    the response 400 that Flask makes of a missing form field. *)
Inductive response :=
| Redirect (endpoint : string)
| RenderTemplate (name : string) (layout_json : option Doc)
| BadRequest.

Inductive http_method := GET | POST.

Record Request := { method : http_method; form : gmap string string }.

(** The state of the application: the users and the messages flashed. *)
Record State := { db : Auth.Db; flashed : list (flash_text * category) }.

Definition flash (m : flash_text) (c : category) (st : State) : State :=
  {| db := db st; flashed := (flashed st ++ [(m, c)])%list |}.

Definition index : response := Redirect "login".

(** [uuid] is the id drawn if a user is created. *)
Definition register (uuid : string) (request : Request) (st : State)
  : response * State :=
  match method request with
  | POST =>
    match form request !! "username" with
    | None => (BadRequest, st)
    | Some username =>
      match form request !! "email" with
      | None => (BadRequest, st)
      | Some email =>
        match form request !! "password" with
        | None => (BadRequest, st)
        | Some password =>
          match Auth.create_user uuid username email password (db st) with
          | (Auth.Return _, db') =>
            (Redirect "login",
             flash Registered success {| db := db'; flashed := flashed st |})
          | (Auth.ValueError e, db') =>
            (Redirect "register",
             flash (Failed e) error {| db := db'; flashed := flashed st |})
          end
        end
      end
    end
  | GET => (RenderTemplate "register.html" None, st)
  end.

Definition login (request : Request) (st : State) : response * State :=
  match method request with
  | POST =>
    match form request !! "email" with
    | None => (BadRequest, st)
    | Some email =>
      match form request !! "password" with
      | None => (BadRequest, st)
      | Some password =>
        match Auth.get_user_by_email email (db st) with
        | Some user =>
          if Auth.verify_password password (Auth.hashed_password user)
          then (Redirect "login", flash (Welcome (Auth.username user)) success st)
          else (Redirect "login", flash BadCredentials error st)
        | None => (Redirect "login", flash BadCredentials error st)
        end
      end
    end
  | GET => (RenderTemplate "login.html" None, st)
  end.

(** [grid_view], for an application that lies in the directory [src] of
    the project: its two paths are the current and the initial layout of
    the project.  The document read is passed on as it is. *)
Definition grid_view (st : State) : IO (response * State) :=
  let* current_exists := path_exists current_layout_path in
  let layout_path :=
    if current_exists then current_layout_path else initial_layout_path in
  let* layout_exists := path_exists layout_path in
  if layout_exists then
    let* layout_data := json_load layout_path in
    io_ret (RenderTemplate "grid.html" (Some layout_data), st)
  else
    io_ret (Redirect "login", flash NoLayout error st).

End App.

(** * The feature ledgers: [create_feature], [list_features],
      [archive_feature], [_update_active_dashboard]

    The ledgers are text files, read and written as text; this part has
    its own picture of the file system, with the text of each file and
    with paths resolved component by component.  A feature name is
    taken to be a single path component (without a slash):
    [ai_dir / "ledgers" / "active" / f"{feature_name}.md"] is then a
    direct child of the directory of the active ledgers. *)

Module Ledger.

Inductive entry :=
| Folder
| Text (text : string).

Inductive oserror :=
| FileNotFoundError
| NotADirectoryError
| IsADirectoryError.

Inductive answer (A : Type) :=
| Returns (a : A)
| Raises (e : oserror).

Arguments Returns {A} a.
Arguments Raises {A} e.

(** The lines printed:
    - [NotInitialized]: "GridWrinkl이 초기화되지 않았습니다. ..."
    - [AlreadyExists]: "'{feature_name}' 기능의 원장 파일이 이미 존재합니다."
    - [Starting]: "'{feature_name}' 기능의 개발을 시작합니다..."
    - [Created]: "'{feature_name}' 기능 원장이 생성되었습니다: {ledger_path}"
    - [DashboardUpdated]: "활성 기능 대시보드 업데이트 완료"
    - [FeatureNotFound]: "'{feature_name}' 기능을 찾을 수 없습니다."
    - [Archiving]: "'{feature_name}' 기능을 아카이브합니다..."
    - [Archived]: "'{feature_name}' 기능이 아카이브되었습니다." *)
Inductive line :=
| NotInitialized
| AlreadyExists (feature_name : string)
| Starting (feature_name : string)
| Created (feature_name : string) (ledger_path : Path)
| DashboardUpdated
| FeatureNotFound (feature_name : string)
| Archiving (feature_name : string)
| Archived (feature_name : string).

Inductive severity := debug | info | success | warning | error.

Record Disk := {
  files : gmap (list string) entry;
  console : list (severity * line)
}.

Definition start (m : gmap (list string) entry) : Disk :=
  {| files := m; console := [] |}.

Definition Run (A : Type) : Type := Disk → answer A * Disk.

Definition ret {A} (a : A) : Run A := fun d => (Returns a, d).

Definition bind {A B} (m : Run A) (f : A → Run B) : Run B := fun d =>
  match m d with
  | (Returns a, d') => f a d'
  | (Raises e, d') => (Raises e, d')
  end.

Notation "'let+' x := m 'in' k" := (bind m (fun x => k))
  (at level 10, x name, m at level 200, k at level 200).
Notation "m >> k" := (bind m (fun _ => k))
  (at level 100, k at level 200, right associativity).

Definition raise {A} (e : oserror) : Run A := fun d => (Raises e, d).

Definition log (s : severity) (l : line) : Run unit := fun d =>
  (Returns tt, {| files := files d; console := (console d ++ [(s, l)])%list |}).

(** [_log_debug] prints only in debug mode. *)
Definition _log_debug (debug_mode : bool) (l : line) : Run unit :=
  if debug_mode then log debug l else ret tt.

Definition get_files : Run (gmap (list string) entry) := fun d =>
  (Returns (files d), d).

Definition put_files (m : gmap (list string) entry) : Run unit := fun d =>
  (Returns tt, {| files := m; console := console d |}).

(** Going down from the directory [dir] through the components [rest]:
    each of them must be a directory. *)
Fixpoint walk (m : gmap (list string) entry) (dir rest : Path) : answer unit :=
  match rest with
  | [] => Returns tt
  | c :: rest' =>
    match m !! (dir ++ [c])%list with
    | Some Folder => walk m (dir ++ [c])%list rest'
    | Some (Text _) => Raises NotADirectoryError
    | None => Raises FileNotFoundError
    end
  end.

(** What lies at the path [p] below the project. *)
Definition stat (m : gmap (list string) entry) (p : Path) : answer entry :=
  match walk m [] (parent p) with
  | Returns _ =>
    match m !! p with
    | Some e => Returns e
    | None => Raises FileNotFoundError
    end
  | Raises e => Raises e
  end.

(** [p.exists()] *)
Definition present (m : gmap (list string) entry) (p : Path) : bool :=
  match stat m p with
  | Returns _ => true
  | Raises _ => false
  end.

Definition path_exists (p : Path) : Run bool :=
  let+ m := get_files in ret (present m p).

Definition initialized (m : gmap (list string) entry) : bool :=
  present m gridfile_dir && present m ai_dir && present m config_path.

Definition is_initialized : Run bool :=
  let+ m := get_files in ret (initialized m).

(** [with open(p, "w") as f: f.write(text)] *)
Definition write_text (p : Path) (text : string) : Run unit :=
  let+ m := get_files in
  match walk m [] (parent p) with
  | Returns _ =>
    match m !! p with
    | Some Folder => raise IsADirectoryError
    | _ => put_files (<[p := Text text]> m)
    end
  | Raises e => raise e
  end.

(** [with open(p, "r") as f: f.read()] *)
Definition read_text (p : Path) : Run string :=
  let+ m := get_files in
  match stat m p with
  | Returns (Text text) => ret text
  | Returns Folder => raise IsADirectoryError
  | Raises e => raise e
  end.

(** [p.unlink()] *)
Definition unlink (p : Path) : Run unit :=
  let+ m := get_files in
  match stat m p with
  | Returns (Text _) => put_files (delete p m)
  | Returns Folder => raise IsADirectoryError
  | Raises e => raise e
  end.

(** The name of [k] when [k] is a direct child of [dir]. *)
Definition child_of (dir k : Path) : option string :=
  match last k with
  | Some name => if bool_decide (k = (dir ++ [name])%list) then Some name else None
  | None => None
  end.

(** The names of the paths yielded by [dir.glob("*.md")]: the entries
    of the directory [dir] whose name ends with [.md], and nothing when
    [dir] is not a directory.  The order in which a directory is listed
    is not fixed by the source; the one taken here is that of the map. *)
Definition glob_md (m : gmap (list string) entry) (dir : Path) : list string :=
  match walk m [] dir with
  | Returns _ =>
    omap (fun kv : list string * entry =>
            match child_of dir kv.1 with
            | Some name => if Str.endswith name ".md" then Some name else None
            | None => None
            end)
         (map_to_list m)
  | Raises _ => []
  end.

(** [ledger.stem] for a name that matches [*.md]: the name without its
    suffix [.md], except for the name [.md] itself, which has no suffix.
    (From Python 3.14 on a name like [..md], with nothing but dots
    before the suffix, is its own stem as well; such names are read
    here as the earlier versions do.) *)
Definition md_stem (name : string) : string :=
  if String.eqb name ".md" then name
  else String.substring 0 (String.length name - 3) name.

(** [feature_name.replace("-", "_")] *)
Fixpoint replace_dash (s : string) : string :=
  match s with
  | EmptyString => EmptyString
  | String c s' =>
    String (if Ascii.eqb c "-" then "_"%char else c) (replace_dash s')
  end.

Definition active_dir : Path := [".ai"; "ledgers"; "active"].
Definition archived_dir : Path := [".ai"; "ledgers"; "archived"].
Definition dashboard_path : Path := [".ai"; "ledgers"; "_active.md"].

(** [dir / f"{feature_name}.md"] *)
Definition ledger_in (dir : Path) (feature_name : string) : Path :=
  (dir ++ [(feature_name ++ ".md")%string])%list.

(** An entry of the list returned by [list_features]. *)
Record Feature := {
  f_name : string;
  f_status : string;
  f_path : Path
}.

(** The list [active_features] that [_update_active_dashboard] builds:
    the stems of the ledgers found, leaving out [_active.md]. *)
Definition active_features (m : gmap (list string) entry) : list string :=
  md_stem <$> List.filter (fun name => negb (String.eqb name "_active.md"))
                (glob_md m active_dir).

(** The list [features] that [list_features] builds: an entry for each
    active ledger but [_active.md], then, if asked for, one for each
    archived ledger. *)
Definition features_of (m : gmap (list string) entry) (include_archived : bool)
  : list Feature :=
  let active :=
    (fun name => {| f_name := md_stem name; f_status := "active";
                    f_path := (active_dir ++ [name])%list |})
      <$> List.filter (fun name => negb (String.eqb name "_active.md"))
            (glob_md m active_dir) in
  let archived :=
    if include_archived then
      (fun name => {| f_name := md_stem name; f_status := "archived";
                      f_path := (archived_dir ++ [name])%list |})
        <$> glob_md m archived_dir
    else [] in
  (active ++ archived)%list.

(** A feature name that is a single component of a path. *)
Definition single_component (feature_name : string) : Prop :=
  Str.contains "/" feature_name = false.

(** The project as [init] leaves it, as far as the ledgers go: it is
    initialised, the directories of the active and of the archived
    ledgers are there, and the dashboard is not a directory. *)
Definition ready (m : gmap (list string) entry) : Prop :=
  initialized m = true
  ∧ walk m [] active_dir = Returns tt
  ∧ walk m [] archived_dir = Returns tt
  ∧ m !! dashboard_path ≠ Some Folder.

Section Templates.

(** The three texts, as functions of what their f-strings insert: the
    name and the description with two readings of the clock; the names
    of the active features with two readings of the clock; one reading
    of the clock. *)
Variable ledger_content : string → string → Z → Z → string.
Variable dashboard_content : list string → Z → Z → string.
Variable archive_info : Z → string.

Definition _update_active_dashboard (debug_mode : bool) (t1 t2 : Z) : Run unit :=
  let+ m := get_files in
  write_text dashboard_path (dashboard_content (active_features m) t1 t2) >>
  _log_debug debug_mode DashboardUpdated.

(** The result is [None] for the empty string returned when the project
    is not initialised, and otherwise the path of the ledger. *)
Definition create_feature (debug_mode : bool) (t1 t2 t3 t4 : Z)
    (feature_name description : string) (skip_dash_conversion : bool)
  : Run (option Path) :=
  let+ is_init := is_initialized in
  if negb is_init then
    log error NotInitialized >>
    ret None
  else
  let feature_name :=
    if negb skip_dash_conversion then replace_dash feature_name else feature_name in
  let ledger_path := ledger_in active_dir feature_name in
  let+ there := path_exists ledger_path in
  if there then
    log warning (AlreadyExists feature_name) >>
    ret (Some ledger_path)
  else
  log info (Starting feature_name) >>
  write_text ledger_path (ledger_content feature_name description t1 t2) >>
  _update_active_dashboard debug_mode t3 t4 >>
  log success (Created feature_name ledger_path) >>
  ret (Some ledger_path).

Definition list_features (include_archived : bool) : Run (list Feature) :=
  let+ is_init := is_initialized in
  if negb is_init then
    log error NotInitialized >>
    ret []
  else
  let+ m := get_files in
  ret (features_of m include_archived).

Definition archive_feature (debug_mode : bool) (t1 t2 t3 : Z) (feature_name : string)
  : Run bool :=
  let+ is_init := is_initialized in
  if negb is_init then
    log error NotInitialized >>
    ret false
  else
  let feature_name := replace_dash feature_name in
  let active_path := ledger_in active_dir feature_name in
  let archived_path := ledger_in archived_dir feature_name in
  let+ there := path_exists active_path in
  if negb there then
    log error (FeatureNotFound feature_name) >>
    ret false
  else
  log info (Archiving feature_name) >>
  let+ content := read_text active_path in
  write_text archived_path (content ++ archive_info t1) >>
  unlink active_path >>
  _update_active_dashboard debug_mode t2 t3 >>
  log success (Archived feature_name) >>
  ret true.

End Templates.

(** Sample inputs: an initialised project without ledgers, and texts
    that keep what is inserted into them. *)
Definition fresh_project : gmap (list string) entry :=
  list_to_map
    [([".gridfile"], Folder); ([".gridfile"; "config.json"], Text "{}");
     ([".ai"], Folder); ([".ai"; "ledgers"], Folder);
     ([".ai"; "ledgers"; "active"], Folder);
     ([".ai"; "ledgers"; "archived"], Folder)].

Definition sample_ledger (feature_name description : string) (t1 t2 : Z) : string :=
  "# " ++ feature_name ++ ": " ++ description.

Definition sample_dashboard (features : list string) (t1 t2 : Z) : string :=
  String.concat ", " features.

Definition sample_archive_info (t : Z) : string := " (archived)".

End Ledger.

(** * Properties *)

(** ** The classifier *)

Lemma usec_per_day_pos : 0 < usec_per_day.
Proof. unfold usec_per_day. lia. Qed.

(** The day count of a [timedelta] is below [k] exactly when the elapsed
    time is below [k] days. *)
Lemma timedelta_days_lt (now mtime k : Z) :
  (timedelta_days now mtime <? k) = (now - mtime <? k * usec_per_day).
Proof.
  unfold timedelta_days.
  pose proof usec_per_day_pos as Hd.
  destruct (Z.ltb_spec (now - mtime) (k * usec_per_day)) as [Hlt | Hge].
  - apply Z.ltb_lt. apply Z.div_lt_upper_bound; lia.
  - apply Z.ltb_ge. apply Z.div_le_lower_bound; lia.
Qed.

(** C4. For every file, the category assigned by the classifier is
    [resources] when the name starts with README, is one of
    requirements.txt, package.json, setup.py, starts with test_ or ends
    with _test.py; otherwise it is [active] when less than 7 days have
    elapsed since the modification, [pending] when less than 30 days
    have, and [archive] otherwise.  In particular a file named README.md
    modified 200 days ago is classified [resources]. *)
Theorem analyze_file_category :
  (∀ (now : Z) (f : FileEntry),
     let elapsed := now - st_mtime f in
     let nm := fname f in
     fi_category (_analyze_file now f) =
       if Str.startswith nm "README"
          || Str.mem nm ["requirements.txt"; "package.json"; "setup.py"]
          || Str.startswith nm "test_"
          || Str.endswith nm "_test.py"
       then "resources"
       else if elapsed <? 7 * usec_per_day then "active"
       else if elapsed <? 30 * usec_per_day then "pending"
       else "archive")
  ∧ (∀ (now : Z) (sp rp e iso : string) (sz : Z),
       fi_category (_analyze_file now
         {| str_path := sp; rel_path := rp; fname := "README.md"; ext := e;
            st_size := sz; st_mtime := now - 200 * usec_per_day;
            mtime_iso := iso |}) = "resources").
Proof.
  split.
  - intros now f elapsed nm. subst elapsed nm.
    unfold _analyze_file, special_category, category_by_age. cbn [fi_category].
    rewrite !timedelta_days_lt.
    destruct (Str.startswith (fname f) "README"); [reflexivity |].
    destruct (Str.mem (fname f) _); [reflexivity |].
    destruct (Str.startswith (fname f) "test_"); [reflexivity |].
    destruct (Str.endswith (fname f) "_test.py"); reflexivity.
  - intros. reflexivity.
Qed.


(** ** Python lists *)

Lemma norm_index_nonneg (n i : Z) :
  0 ≤ i → i < n → norm_index n i = Some (Z.to_nat i).
Proof.
  intros H0 Hn. unfold norm_index.
  destruct (Z.ltb_spec i 0); [lia |].
  destruct (Z.leb_spec 0 i); [| lia].
  destruct (Z.ltb_spec i n); [| lia].
  reflexivity.
Qed.

Lemma getitem_nonneg {A} (l : list A) (i : Z) :
  0 ≤ i → i < len l → ∃ a, getitem l i = Ok a ∧ l !! Z.to_nat i = Some a.
Proof.
  intros H0 Hn. unfold getitem. rewrite norm_index_nonneg by assumption.
  destruct (l !! Z.to_nat i) as [a |] eqn:Hl.
  - exists a. split; reflexivity.
  - apply lookup_ge_None in Hl. unfold len in Hn. lia.
Qed.

Lemma setitem_nonneg {A} (l : list A) (i : Z) (a : A) :
  0 ≤ i → i < len l → setitem l i a = Ok (<[Z.to_nat i := a]> l).
Proof.
  intros H0 Hn. unfold setitem. rewrite norm_index_nonneg by assumption. reflexivity.
Qed.

Lemma elem_of_range (a b k : Z) : k ∈ range a b → a ≤ k < b.
Proof. unfold range. rewrite elem_of_seqZ. lia. Qed.

Lemma elem_of_zone_cells (zone : Zone) (x y : Z) :
  (x, y) ∈ zone_cells zone →
  zone_x zone ≤ x < zone_x zone + zone_w zone ∧
  zone_y zone ≤ y < zone_y zone + zone_h zone.
Proof.
  unfold zone_cells. intros H.
  apply list_elem_of_bind in H as (y' & H & Hy).
  apply list_elem_of_bind in H as (x' & H & Hx).
  apply list_elem_of_singleton in H. inversion H; subst.
  apply elem_of_range in Hx, Hy. lia.
Qed.

(** ** The zone placer *)

(** The placer only ever removes blocks from the front of its list. *)
Lemma place_loop_suffix cells : ∀ blocks grid blocks' grid',
  place_loop cells blocks grid = Ok (blocks', grid') → blocks' `suffix_of` blocks.
Proof.
  induction cells as [| [x y] cells IH]; intros blocks grid blocks' grid' H; simpl in H.
  - inversion H. reflexivity.
  - destruct (len grid <=? y); [eauto |].
    destruct (getitem grid 0) as [row0 |]; simpl in H; [| discriminate].
    destruct (len row0 <=? x); [eauto |].
    destruct (getitem grid y) as [row |]; simpl in H; [| discriminate].
    destruct (getitem row x) as [occupied |]; simpl in H; [| discriminate].
    destruct occupied; [eauto |].
    destruct blocks as [| block blocks0]; [inversion H; reflexivity |].
    destruct (setitem row x true) as [row' |]; simpl in H; [| discriminate].
    destruct (setitem grid y row') as [grid1 |]; simpl in H; [| discriminate].
    apply suffix_cons_r. eauto.
Qed.

(** On a rectangular grid, cells with non-negative coordinates never
    raise: the loop returns, and the grid keeps its shape. *)
Lemma place_loop_total (w : nat) cells : ∀ blocks grid,
  rect w grid →
  Forall (fun c : Z * Z => 0 ≤ c.1 ∧ 0 ≤ c.2) cells →
  ∃ blocks' grid', place_loop cells blocks grid = Ok (blocks', grid') ∧ rect w grid'.
Proof.
  induction cells as [| [x y] cells IH]; intros blocks grid Hrect Hcells; simpl.
  - eauto.
  - apply Forall_cons in Hcells as [[Hx Hy] Hcells]. simpl in Hx, Hy.
    destruct (Z.leb_spec (len grid) y) as [| Hylt]; [eauto |].
    destruct (getitem_nonneg grid 0) as (row0 & -> & Hrow0); [lia | lia |]. simpl.
    destruct (Z.leb_spec (len row0) x) as [| Hxlt]; [eauto |].
    destruct (getitem_nonneg grid y) as (row & -> & Hrow); [lia | lia |]. simpl.
    assert (Hlen0 : length row0 = w).
    { eapply (Forall_lookup_1 _ _ _ _ Hrect Hrow0). }
    assert (Hlen : length row = w).
    { eapply (Forall_lookup_1 _ _ _ _ Hrect Hrow). }
    assert (Hxrow : x < len row) by (unfold len in *; lia).
    destruct (getitem_nonneg row x) as (occupied & -> & _); [lia | lia |]. simpl.
    destruct occupied; [eauto |].
    destruct blocks as [| block blocks0]; [eauto |].
    rewrite setitem_nonneg by lia. simpl.
    rewrite setitem_nonneg by lia. simpl.
    apply IH; [| assumption].
    apply Forall_insert; [assumption |].
    rewrite length_insert. assumption.
Qed.

Lemma new_grid_rect (gs : GridSize) :
  rect (length (range 0 (grid_width gs))) (new_grid gs).
Proof.
  unfold rect, new_grid. apply Forall_fmap, Forall_forall. intros ? _. simpl.
  apply length_fmap.
Qed.

Lemma place_blocks_in_zone_total (w : nat) blocks zone grid :
  rect w grid → zone_nonneg zone →
  ∃ blocks' grid', _place_blocks_in_zone blocks zone grid = Ok (blocks', grid') ∧ rect w grid'.
Proof.
  intros Hrect [Hx Hy]. apply place_loop_total; [assumption |].
  apply Forall_forall. intros [x y] Hc. apply elem_of_zone_cells in Hc. simpl. lia.
Qed.

(** ** The groups of [_reorganize_blocks] *)

Lemma filter_all {A} (P : A → Prop) `{!∀ x, Decision (P x)} (l : list A) :
  Forall P l → filter P l = l.
Proof.
  induction 1 as [| a l Ha _ IH]; [reflexivity |].
  rewrite filter_cons_True by assumption. by rewrite IH.
Qed.

Lemma filter_none {A} (P : A → Prop) `{!∀ x, Decision (P x)} (l : list A) :
  Forall (fun a => ¬ P a) l → filter P l = [].
Proof.
  induction 1 as [| a l Ha _ IH]; [reflexivity |].
  by rewrite filter_cons_False.
Qed.

Lemma merge_groups_cons (g : string * list Block) (cb : Groups) :
  merge_groups (g :: cb) = (g.2 ++ merge_groups cb)%list.
Proof. reflexivity. Qed.

Lemma merge_groups_unplace_all (cb : Groups) :
  merge_groups (unplace_all cb) = unplace <$> merge_groups cb.
Proof.
  induction cb as [| g cb IH]; [reflexivity |].
  change (unplace_all (g :: cb)) with ((g.1, unplace <$> g.2) :: unplace_all cb).
  rewrite !merge_groups_cons, fmap_app, IH. reflexivity.
Qed.

Lemma keyed_unplace_all (cb : Groups) : keyed cb → keyed (unplace_all cb).
Proof.
  unfold keyed, unplace_all. intros H. apply Forall_fmap.
  eapply Forall_impl; [exact H |]. intros [k l] Hl. simpl in *.
  apply Forall_fmap. eapply Forall_impl; [exact Hl |]. intros b Hb. exact Hb.
Qed.

Lemma keyed_group_append (cb : Groups) (b : Block) :
  keyed cb → keyed (group_append cb (b_category b) b).
Proof.
  unfold keyed. induction 1 as [| [c l] cb Hl Hcb IH]; simpl.
  - repeat constructor.
  - destruct (String.eqb_spec c (b_category b)) as [-> | Hne].
    + constructor; [| assumption]. simpl in *. apply Forall_app. split; [assumption |].
      by constructor.
    + constructor; assumption.
Qed.

Lemma keyed_fold (blocks : list Block) : ∀ acc,
  keyed acc →
  keyed (fold_left (fun cb block => group_append cb (b_category block) block) blocks acc).
Proof.
  induction blocks as [| b blocks IH]; intros acc Hacc; simpl; [assumption |].
  apply IH, keyed_group_append, Hacc.
Qed.

Lemma keyed_categorize (blocks : list Block) : keyed (categorize blocks).
Proof. apply keyed_fold. constructor. Qed.

Section Selection.

(** A decidable selection of categories. *)
Context (Q : string → Prop) `{!∀ c, Decision (Q c)}.

Lemma group_append_select (cb : Groups) (k : string) (b : Block) :
  filter (fun g : string * list Block => Q g.1) (group_append cb k b) =
  if decide (Q k)
  then group_append (filter (fun g : string * list Block => Q g.1) cb) k b
  else filter (fun g : string * list Block => Q g.1) cb.
Proof.
  induction cb as [| [c l] cb IH]; simpl.
  - rewrite filter_cons, filter_nil. simpl. destruct (decide (Q k)); reflexivity.
  - destruct (String.eqb_spec c k) as [-> | Hne].
    + rewrite !filter_cons. simpl. destruct (decide (Q k)); [| reflexivity].
      simpl. rewrite String.eqb_refl. reflexivity.
    + rewrite !filter_cons. simpl. rewrite IH.
      destruct (decide (Q c)), (decide (Q k)); simpl; try reflexivity.
      destruct (String.eqb_spec c k); [contradiction | reflexivity].
Qed.

Lemma fold_select (blocks : list Block) : ∀ acc : Groups,
  filter (fun g : string * list Block => Q g.1)
    (fold_left (fun cb block => group_append cb (b_category block) block) blocks acc) =
  fold_left (fun cb block => group_append cb (b_category block) block)
    (filter (fun b => Q (b_category b)) blocks)
    (filter (fun g : string * list Block => Q g.1) acc).
Proof.
  induction blocks as [| b blocks IH]; intros acc; simpl; [reflexivity |].
  rewrite IH, group_append_select, filter_cons.
  destruct (decide (Q (b_category b))); reflexivity.
Qed.

(** Grouping commutes with a selection of categories. *)
Lemma categorize_select (blocks : list Block) :
  filter (fun g : string * list Block => Q g.1) (categorize blocks) =
  categorize (filter (fun b => Q (b_category b)) blocks).
Proof. unfold categorize. rewrite fold_select. reflexivity. Qed.

Lemma unplace_all_select (cb : Groups) :
  filter (fun g : string * list Block => Q g.1) (unplace_all cb) =
  unplace_all (filter (fun g : string * list Block => Q g.1) cb).
Proof.
  induction cb as [| [c l] cb IH]; [reflexivity |].
  change (unplace_all ((c, l) :: cb)) with ((c, unplace <$> l) :: unplace_all cb).
  rewrite !filter_cons. simpl. rewrite IH.
  destruct (decide (Q c)); reflexivity.
Qed.

Lemma merge_groups_select (cb : Groups) :
  keyed cb →
  merge_groups (filter (fun g : string * list Block => Q g.1) cb) =
  filter (fun b => Q (b_category b)) (merge_groups cb).
Proof.
  induction 1 as [| [c l] cb Hl Hcb IH]; [reflexivity |].
  rewrite merge_groups_cons, filter_app, filter_cons. simpl in *.
  destruct (decide (Q c)) as [Hq | Hq].
  - rewrite merge_groups_cons, IH. simpl. f_equal. symmetry. apply filter_all.
    eapply Forall_impl; [exact Hl |]. intros b ->. exact Hq.
  - rewrite IH. rewrite (filter_none _ l); [reflexivity |].
    eapply Forall_impl; [exact Hl |]. intros b ->. exact Hq.
Qed.

End Selection.

(** ** The placement loop over the groups *)

Lemma place_group_suffix zones category blocks_list grid blocks' grid' :
  place_group zones category blocks_list grid = Ok (blocks', grid') →
  blocks' `suffix_of` blocks_list.
Proof.
  unfold place_group, _place_blocks_in_zone.
  destruct (zones !! _) as [zone |]; intros H.
  - eapply place_loop_suffix, H.
  - inversion H. reflexivity.
Qed.

(** A group whose zone is absent is left as it is, and so is the grid. *)
Lemma place_group_missing zones category blocks_list grid :
  zones !! dict_get category_to_zone category "archive" = None →
  place_group zones category blocks_list grid = Ok (blocks_list, grid).
Proof. unfold place_group. intros ->. reflexivity. Qed.

(** The groups keep their keys and their order; each list loses blocks
    from its front only. *)
Lemma place_groups_shape zones (cb : Groups) : ∀ grid cb' grid',
  place_groups zones cb grid = Ok (cb', grid') →
  Forall2 (fun g g' : string * list Block => g'.1 = g.1 ∧ g'.2 `suffix_of` g.2) cb cb'.
Proof.
  induction cb as [| [c l] cb IH]; intros grid cb' grid' H; simpl in H.
  - inversion H. constructor.
  - destruct (place_group zones c l grid) as [[l1 grid1] |] eqn:Hg; simpl in H; [| discriminate].
    destruct (place_groups zones cb grid1) as [[cb1 grid2] |] eqn:Hr; simpl in H; [| discriminate].
    inversion H; subst. constructor.
    + simpl. split; [reflexivity |]. eapply place_group_suffix, Hg.
    + eapply IH, Hr.
Qed.

Lemma suffix_Forall {A} (P : A → Prop) (l1 l2 : list A) :
  l1 `suffix_of` l2 → Forall P l2 → Forall P l1.
Proof. intros [k ->] H. apply Forall_app in H. tauto. Qed.

Lemma place_groups_keyed zones (cb cb' : Groups) grid grid' :
  place_groups zones cb grid = Ok (cb', grid') → keyed cb → keyed cb'.
Proof.
  intros H. apply place_groups_shape in H. unfold keyed.
  induction H as [| [c l] [c' l'] cb cb' [Hc Hl] _ IH]; intros Hk; [constructor |].
  apply Forall_cons in Hk as [Hk1 Hk2]. simpl in *. subst c'.
  constructor; [| auto]. simpl. eapply suffix_Forall; eassumption.
Qed.

Lemma place_groups_Forall (P : Block → Prop) zones (cb cb' : Groups) grid grid' :
  place_groups zones cb grid = Ok (cb', grid') →
  Forall P (merge_groups cb) → Forall P (merge_groups cb').
Proof.
  intros H. apply place_groups_shape in H.
  induction H as [| [c l] [c' l'] cb cb' [Hc Hl] _ IH]; intros HP; [constructor |].
  rewrite merge_groups_cons in *. simpl in *.
  apply Forall_app in HP as [HP1 HP2]. apply Forall_app. split; [| auto].
  eapply suffix_Forall; eassumption.
Qed.

(** When every zone has a non-negative origin no placement raises. *)
Lemma place_groups_total (w : nat) zones (cb : Groups) : ∀ grid,
  map_Forall (fun _ zone => zone_nonneg zone) zones →
  rect w grid →
  ∃ cb' grid', place_groups zones cb grid = Ok (cb', grid') ∧ rect w grid'.
Proof.
  intros grid Hz. revert grid.
  induction cb as [| [c l] cb IH]; intros grid Hrect; simpl; [eauto |].
  assert (∃ l1 grid1, place_group zones c l grid = Ok (l1, grid1) ∧ rect w grid1)
    as (l1 & grid1 & -> & Hrect1).
  { unfold place_group. destruct (zones !! _) as [zone |] eqn:Hzone; [| eauto].
    apply place_blocks_in_zone_total; [assumption |]. eapply Hz, Hzone. }
  simpl. destruct (IH grid1 Hrect1) as (cb1 & grid2 & -> & Hrect2). simpl. eauto.
Qed.

Lemma reorganize_blocks_total blocks zones grid_size :
  map_Forall (fun _ zone => zone_nonneg zone) zones →
  ∃ new_blocks, _reorganize_blocks blocks zones grid_size = Ok new_blocks.
Proof.
  intros Hz. unfold _reorganize_blocks.
  destruct (place_groups_total _ zones (unplace_all (categorize blocks))
              (new_grid grid_size) Hz (new_grid_rect grid_size))
    as (cb' & grid' & -> & _).
  simpl. eauto.
Qed.

Lemma default_zones_nonneg : map_Forall (fun _ zone => zone_nonneg zone) default_zones.
Proof.
  unfold default_zones. simpl.
  repeat (apply map_Forall_insert_2; [unfold zone_nonneg; simpl; lia |]).
  apply map_Forall_empty.
Qed.

(** Without blocks there is nothing to place, whatever the zones. *)
Lemma reorganize_blocks_nil zones grid_size :
  _reorganize_blocks [] zones grid_size = Ok [].
Proof. reflexivity. Qed.

(** Every block returned by [_reorganize_blocks] is unplaced: the blocks
    that received a position were removed from their lists. *)
Lemma reorganize_blocks_unplaced blocks zones grid_size new_blocks :
  _reorganize_blocks blocks zones grid_size = Ok new_blocks →
  Forall (fun b => b_placed b = false ∧ b_position b = None) new_blocks.
Proof.
  unfold _reorganize_blocks. intros H.
  destruct (place_groups _ _ _) as [[cb' grid'] |] eqn:Hp; simpl in H; [| discriminate].
  inversion H; subst. simpl.
  eapply place_groups_Forall; [exact Hp |].
  rewrite merge_groups_unplace_all. apply Forall_fmap, Forall_forall.
  intros b _. split; reflexivity.
Qed.

(** Groups whose categories are outside the selection [Q] and whose
    zones are all absent can be removed before the loop or after it. *)
Lemma place_groups_select (Q : string → Prop) `{!∀ c, Decision (Q c)} zones :
  (∀ c, ¬ Q c → zones !! dict_get category_to_zone c "archive" = None) →
  ∀ (cb : Groups) grid,
  place_groups zones (filter (fun g : string * list Block => Q g.1) cb) grid =
  (fun r : Groups * Grid => (filter (fun g : string * list Block => Q g.1) r.1, r.2))
    <$> place_groups zones cb grid.
Proof.
  intros Hmiss. induction cb as [| [c l] cb IH]; intros grid; [reflexivity |].
  rewrite filter_cons. simpl. destruct (decide (Q c)) as [Hq | Hq].
  - simpl. destruct (place_group zones c l grid) as [[l1 grid1] |]; simpl; [| reflexivity].
    rewrite IH. destruct (place_groups zones cb grid1) as [[cb1 grid2] |]; simpl; [| reflexivity].
    rewrite filter_cons. simpl. destruct (decide (Q c)); [reflexivity | contradiction].
  - rewrite place_group_missing by auto. simpl. rewrite IH.
    destruct (place_groups zones cb grid) as [[cb1 grid2] |]; simpl; [| reflexivity].
    rewrite filter_cons. simpl. destruct (decide (Q c)); [contradiction | reflexivity].
Qed.

(** The groups of a category whose zone is absent come out unchanged. *)
Lemma place_groups_missing zones (c : string) :
  zones !! dict_get category_to_zone c "archive" = None →
  ∀ (cb : Groups) grid cb' grid',
  place_groups zones cb grid = Ok (cb', grid') →
  filter (fun g : string * list Block => g.1 = c) cb' =
  filter (fun g : string * list Block => g.1 = c) cb.
Proof.
  intros Hmiss. induction cb as [| [k l] cb IH]; intros grid cb' grid' H; simpl in H.
  - inversion H. reflexivity.
  - destruct (place_group zones k l grid) as [[l1 grid1] |] eqn:Hg; simpl in H; [| discriminate].
    destruct (place_groups zones cb grid1) as [[cb1 grid2] |] eqn:Hr; simpl in H; [| discriminate].
    inversion H; subst. rewrite !filter_cons. simpl.
    rewrite (IH _ _ _ Hr).
    destruct (decide (k = c)) as [-> |]; [| reflexivity].
    rewrite place_group_missing in Hg by assumption. inversion Hg. reflexivity.
Qed.

(** Grouping a list of blocks of one category and merging gives the list. *)
Lemma fold_one_category (c : string) (blocks : list Block) : ∀ l0,
  Forall (fun b => b_category b = c) blocks →
  fold_left (fun cb block => group_append cb (b_category block) block) blocks [(c, l0)] =
  [(c, (l0 ++ blocks)%list)].
Proof.
  induction blocks as [| b blocks IH]; intros l0 H; simpl.
  - by rewrite app_nil_r.
  - apply Forall_cons in H as [Hb H]. rewrite Hb, String.eqb_refl, IH by assumption.
    by rewrite <- app_assoc.
Qed.

Lemma merge_categorize_one (c : string) (blocks : list Block) :
  Forall (fun b => b_category b = c) blocks →
  merge_groups (categorize blocks) = blocks.
Proof.
  intros H. destruct blocks as [| b blocks]; [reflexivity |].
  apply Forall_cons in H as [Hb H]. unfold categorize. simpl. rewrite Hb.
  rewrite fold_one_category by assumption. unfold merge_groups. simpl.
  by rewrite app_nil_r.
Qed.

(** Rewriting with a selection lemma instantiated at a concrete
    selection, after the instance has been beta-reduced. *)
Ltac rewrite_sel lem :=
  let E := fresh "E" in
  pose proof lem as E; cbv beta in E; rewrite E; clear E.
Ltac rewrite_sel_back lem :=
  let E := fresh "E" in
  pose proof lem as E; cbv beta in E; rewrite <- E; clear E.

(** ** Reorganisation with an absent zone *)

(** C10. When the zone name obtained for a category [c] from the
    category-to-zone table (default [archive]) is not a key of [zones],
    the placement of that group is skipped: the group and the grid are
    left as they are; the reorganisation raises exactly when it raises
    without the blocks of that category, and returns the same other
    blocks; and in every list it returns, the blocks of category [c] are
    the blocks of that category of the input, in order, each with
    [placed = false] and no position. *)
Theorem reorganize_absent_zone (blocks : list Block) (zones : gmap string Zone)
    (grid_size : GridSize) (c : string) :
  zones !! dict_get category_to_zone c "archive" = None →
  (∀ blocks_list grid, place_group zones c blocks_list grid = Ok (blocks_list, grid))
  ∧ _reorganize_blocks (filter (fun b => b_category b ≠ c) blocks) zones grid_size =
      filter (fun b => b_category b ≠ c) <$> _reorganize_blocks blocks zones grid_size
  ∧ (∀ new_blocks,
       _reorganize_blocks blocks zones grid_size = Ok new_blocks →
       filter (fun b => b_category b = c) new_blocks =
         unplace <$> filter (fun b => b_category b = c) blocks
       ∧ Forall (fun b => b_placed b = false ∧ b_position b = None)
           (filter (fun b => b_category b = c) new_blocks)).
Proof.
  intros Hmiss. split; [| split].
  - intros. by apply place_group_missing.
  - unfold _reorganize_blocks. cbv zeta.
    assert (Hsel : ∀ k, ¬ k ≠ c → zones !! dict_get category_to_zone k "archive" = None).
    { intros k Hk. apply dec_stable in Hk. by subst. }
    rewrite_sel_back (categorize_select (fun k => k ≠ c) blocks).
    rewrite_sel_back (unplace_all_select (fun k => k ≠ c) (categorize blocks)).
    rewrite_sel (place_groups_select (fun k => k ≠ c) zones Hsel
                   (unplace_all (categorize blocks)) (new_grid grid_size)).
    destruct (place_groups zones (unplace_all (categorize blocks)) (new_grid grid_size))
      as [[cb' grid'] |] eqn:Hp; simpl; [| reflexivity].
    assert (Hk : keyed cb').
    { eapply place_groups_keyed; [exact Hp |].
      apply keyed_unplace_all, keyed_categorize. }
    rewrite_sel (merge_groups_select (fun k => k ≠ c) cb' Hk). reflexivity.
  - intros new_blocks H.
    assert (Heq : filter (fun b => b_category b = c) new_blocks =
                  unplace <$> filter (fun b => b_category b = c) blocks).
    { unfold _reorganize_blocks in H. cbv zeta in H.
      destruct (place_groups zones (unplace_all (categorize blocks)) (new_grid grid_size))
        as [[cb' grid'] |] eqn:Hp; simpl in H; [| discriminate].
      inversion H; subst new_blocks. simpl.
      assert (Hk : keyed cb').
      { eapply place_groups_keyed; [exact Hp |].
        apply keyed_unplace_all, keyed_categorize. }
      rewrite_sel_back (merge_groups_select (fun k => k = c) cb' Hk).
      rewrite (place_groups_missing zones c Hmiss _ _ _ _ Hp).
      rewrite_sel (unplace_all_select (fun k => k = c) (categorize blocks)).
      rewrite_sel (categorize_select (fun k => k = c) blocks).
      rewrite merge_groups_unplace_all.
      f_equal. apply (merge_categorize_one c).
      apply Forall_forall. intros b Hb. by apply list_elem_of_filter in Hb as [Hb _]. }
    split; [exact Heq |].
    rewrite Heq. apply Forall_fmap, Forall_forall. intros b _. split; reflexivity.
Qed.

Lemma reorganize_absent_zone_witness :
  let blocks :=
    [sample_block "a.py" "pending"; sample_block "b.py" "archive";
     sample_block "c.py" "pending"] in
  zones_without_active !! dict_get category_to_zone "pending" "archive" = None
  ∧ ∀ new_blocks,
      _reorganize_blocks blocks zones_without_active default_grid_size = Ok new_blocks →
      filter (fun b => b_category b = "pending") new_blocks =
        unplace <$> filter (fun b => b_category b = "pending") blocks
      ∧ Forall (fun b => b_placed b = false ∧ b_position b = None)
          (filter (fun b => b_category b = "pending") new_blocks).
Proof.
  intros blocks. split; [reflexivity |].
  exact (proj2 (proj2 (reorganize_absent_zone blocks zones_without_active
                         default_grid_size "pending" eq_refl))).
Defined.

(** ** The runs of [grid_reorganize] *)

Lemma copy2_run (src dst : Path) (w : World) :
  copy2 src dst w =
  match fs w !! src with
  | None => (Raise FileNotFoundError, w)
  | Some Dir => (Raise IsADirectoryError, w)
  | Some (File c) =>
    let t := copy_target (fs w) src dst in
    if bool_decide (src = t) then (Raise SameFileError, w)
    else match check_writable (fs w) t with
         | Raise e => (Raise e, w)
         | Ok _ =>
           (Ok tt, {| fs := <[t := File c]> (fs w);
                      trace := (trace w ++ [Copy src t])%list |})
         end
  end.
Proof.
  unfold copy2, io_bind, get_fs, io_raise, io_lift, put_fs, emit. simpl.
  destruct (fs w !! src) as [[| c] |]; try reflexivity.
  simpl. destruct (bool_decide _); [reflexivity |].
  destruct (check_writable _ _); reflexivity.
Qed.

(** Whether a copy succeeds depends on the file system only. *)
Lemma copy2_result (src dst : Path) (w w' : World) :
  fs w = fs w' → (copy2 src dst w).1 = (copy2 src dst w').1.
Proof.
  intros Hfs. rewrite !copy2_run, <- Hfs.
  destruct (fs w !! src) as [[| c] |]; try reflexivity.
  simpl. destruct (bool_decide _); [reflexivity |].
  destruct (check_writable _ _); reflexivity.
Qed.

Lemma json_dump_run (layout : Layout) (p : Path) (w : World) :
  json_dump layout p w =
  match check_writable (fs w) p with
  | Raise e => (Raise e, w)
  | Ok _ =>
    (Ok tt, {| fs := <[p := File (Json (doc_of_layout layout))]> (fs w);
               trace := (trace w ++ [Dump p])%list |})
  end.
Proof.
  unfold json_dump, io_bind, get_fs, io_lift, put_fs, emit. simpl.
  destruct (check_writable _ _); reflexivity.
Qed.

Lemma json_load_run (p : Path) (w : World) :
  json_load p w =
  match fs w !! p with
  | None => (Raise FileNotFoundError, w)
  | Some Dir => (Raise IsADirectoryError, w)
  | Some (File Other) => (Raise JSONDecodeError, w)
  | Some (File (Json d)) =>
    (Ok d, {| fs := fs w; trace := (trace w ++ [Load p])%list |})
  end.
Proof.
  unfold json_load, io_bind, get_fs, io_raise, emit, io_ret. simpl.
  destruct (fs w !! p) as [[| [d |]] |]; reflexivity.
Qed.

Lemma exists_in_true m (p : Path) : exists_in m p = true ↔ is_Some (m !! p).
Proof.
  unfold exists_in. destruct (m !! p); split; intros H;
    first [done | eauto | by destruct H].
Qed.

Lemma layout_path_of_current m :
  is_Some (m !! current_layout_path) → layout_path_of m = current_layout_path.
Proof. intros H. unfold layout_path_of. by apply exists_in_true in H as ->. Qed.

Lemma layout_path_of_initial m :
  m !! current_layout_path = None → layout_path_of m = initial_layout_path.
Proof. intros H. unfold layout_path_of, exists_in. by rewrite H. Qed.

Lemma copy2_cases (src dst : Path) (w : World) r0 w0 :
  copy2 src dst w = (r0, w0) →
  (∃ e, r0 = Raise e ∧ w0 = w)
  ∨ (∃ c, fs w !! src = Some (File c) ∧ r0 = Ok tt ∧
          w0 = {| fs := <[copy_target (fs w) src dst := File c]> (fs w);
                  trace := (trace w ++ [Copy src (copy_target (fs w) src dst)])%list |}).
Proof.
  rewrite copy2_run.
  destruct (fs w !! src) as [[| c] |]; try (intros H; inversion H; eauto; fail).
  simpl. destruct (bool_decide _); [intros H; inversion H; eauto |].
  destruct (check_writable _ _) as [[] | e]; intros H; inversion H; eauto.
Qed.

Ltac io_step :=
  cbn -[copy2 json_load json_dump _reorganize_blocks initialized layout_path_of
        exists_in copy_target check_writable improvement count_placed before_backup];
  repeat match goal with
  | |- context [if exists_in ?m current_layout_path
                then current_layout_path else initial_layout_path] =>
    change (if exists_in m current_layout_path
            then current_layout_path else initial_layout_path)
      with (layout_path_of m)
  end.

(** Every run of [grid_reorganize] is one of the seven cases. *)
Lemma grid_reorganize_outcome (now_iso now_stamp : string) m r w :
  grid_reorganize now_iso now_stamp (start m) = (r, w) →
  outcome now_iso now_stamp m r w.
Proof.
  unfold grid_reorganize, is_initialized, path_exists.
  unfold io_bind, get_fs, io_ret, _log_error, _log_info, _log_success, emit, io_lift, start.
  io_step.
  change (exists_in m gridfile_dir && exists_in m ai_dir && exists_in m config_path)
    with (initialized m).
  destruct (initialized m) eqn:Hinit; io_step.
  2: { intros H. inversion H. by apply NotInitialized. }
  unfold exists_in at 1.
  destruct (m !! layout_path_of m) as [n |] eqn:Hp; io_step.
  2: { intros H. inversion H. by apply LayoutNotFound. }
  rewrite json_load_run. io_step. rewrite Hp.
  destruct n as [| [d |]].
  { intros H. inversion H. apply LoadFailed; auto. }
  2: { intros H. inversion H. apply LoadFailed; auto. }
  io_step.
  destruct (_reorganize_blocks (get_blocks d) (get_zones d) (get_grid_size d))
    as [new_blocks | e] eqn:Hre.
  2: { intros H. inversion H. by eapply PlacementFailed. }
  unfold exists_in. rewrite Hp.
  match goal with
  | |- context [copy2 ?p ?b ?w0] =>
    pose proof (copy2_result p b w0 (start m) eq_refl) as Hcopy;
    destruct (copy2 p b w0) as [r0 w1] eqn:Hc
  end.
  simpl in Hcopy.
  apply copy2_cases in Hc as [(e & -> & ->) | (c & Hsrc & -> & ->)].
  { intros H. inversion H. by eapply BackupFailed. }
  simpl in Hsrc. rewrite Hp in Hsrc. inversion Hsrc; subst c. clear Hsrc.
  rewrite json_dump_run. simpl fs. simpl trace.
  destruct (check_writable _ current_layout_path) as [[] | e] eqn:Hw.
  - intros H. inversion H. by eapply Reorganized.
  - intros H. inversion H. by eapply SaveFailed.
Qed.

Ltac run_cases :=
  match goal with
  | |- context [grid_reorganize ?i ?s (start ?m)] =>
    let Hrun := fresh "Hrun" in
    destruct (grid_reorganize i s (start m)) as [r w] eqn:Hrun;
    apply grid_reorganize_outcome in Hrun;
    destruct Hrun; simpl fst; simpl snd; simpl trace; simpl fs
  end.

(** ** Loading the layout to reorganise *)

(** C7. A reorganisation reads the current layout when that file
    exists, and never the initial one then; it reads the initial layout
    when the current one is absent.  When neither file exists it returns
    the failure indicator, reads, copies and writes no file and leaves
    the file system as it was; in an initialised project what it
    reports then is that no layout file was found. *)
Theorem reorganize_layout_choice (now_iso now_stamp : string)
    (m : gmap (list string) node) :
  let run := grid_reorganize now_iso now_stamp (start m) in
  (initialized m = true →
     (∀ d, m !! current_layout_path = Some (File (Json d)) →
           loads (trace run.2) = [current_layout_path])
     ∧ (is_Some (m !! current_layout_path) →
           initial_layout_path ∉ loads (trace run.2))
     ∧ (∀ d, m !! current_layout_path = None →
             m !! initial_layout_path = Some (File (Json d)) →
             loads (trace run.2) = [initial_layout_path]))
  ∧ (m !! current_layout_path = None → m !! initial_layout_path = None →
       run.1 = Ok false
       ∧ fs run.2 = m
       ∧ loads (trace run.2) = []
       ∧ copies (trace run.2) = []
       ∧ dumps (trace run.2) = []
       ∧ (initialized m = true →
            trace run.2 = [Print Info MsgReorganizing;
                           Print Error MsgLayoutNotFound])).
Proof.
  intros run. subst run.
  pose proof (layout_path_of_current m) as Hcur.
  pose proof (layout_path_of_initial m) as Hini.
  split; [intros Hi; split; [| split] |].
  - intros d0 Hc. specialize (Hcur (ex_intro _ _ Hc)).
    run_cases; rewrite ?Hcur in *;
      first [congruence | reflexivity | destruct Hpath; congruence].
  - intros Hc. specialize (Hcur Hc).
    run_cases; rewrite ?Hcur in *; simpl; try apply not_elem_of_nil;
      intros Hin%list_elem_of_singleton; discriminate.
  - intros d0 Hc Hc'. specialize (Hini Hc).
    run_cases; rewrite ?Hini in *;
      first [congruence | reflexivity | destruct Hpath; congruence].
  - intros Hc Hc'. specialize (Hini Hc).
    run_cases; rewrite ?Hini in *;
      first [ congruence
            | destruct Hpath; congruence
            | repeat split; first [reflexivity | congruence] ].
Qed.

Lemma reorganize_layout_choice_witness :
  let run := grid_reorganize "2024-05-01T10:00:00" "20240501-100000"
               (start project_fs) in
  (project_fs !! current_layout_path = None
   ∧ project_fs !! initial_layout_path = None
   ∧ initialized project_fs = true)
  ∧ run.1 = Ok false
  ∧ fs run.2 = project_fs
  ∧ loads (trace run.2) = []
  ∧ copies (trace run.2) = []
  ∧ dumps (trace run.2) = []
  ∧ (initialized project_fs = true →
       trace run.2 = [Print Info MsgReorganizing; Print Error MsgLayoutNotFound]).
Proof.
  intros run. split; [repeat split; reflexivity |].
  exact (proj2 (reorganize_layout_choice "2024-05-01T10:00:00" "20240501-100000"
                  project_fs) eq_refl eq_refl).
Defined.

(** ** Backup before overwrite *)

Lemma copy_target_backup m (p : Path) (now_stamp : string) :
  copy_target m p (backup_path now_stamp) = backup_path now_stamp
  ∨ copy_target m p (backup_path now_stamp) =
      (backup_path now_stamp ++ [List.last p ""])%list.
Proof. unfold copy_target. destruct (m !! _) as [[| c] |]; auto. Qed.

Lemma copy_target_not_current m (p : Path) (now_stamp : string) :
  copy_target m p (backup_path now_stamp) ≠ current_layout_path.
Proof.
  destruct (copy_target_backup m p now_stamp) as [-> | ->]; discriminate.
Qed.

(** C8. A run of the reorganisation that writes the current layout has
    written it once, as the step that directly follows the completed
    copy of the prior layout file (the current one when it exists) to a
    file named after the time stamp in the backup directory, and that
    copy holds the content the prior file had; and when this copy cannot
    be made the run changes no file and writes no layout. *)
Theorem backup_before_overwrite (now_iso now_stamp : string)
    (m : gmap (list string) node) :
  let run := grid_reorganize now_iso now_stamp (start m) in
  let p := layout_path_of m in
  let dst := copy_target m p (backup_path now_stamp) in
  (current_layout_path ∈ dumps (trace run.2) →
     ∃ c msg,
       trace run.2 =
         (before_backup p ++
          [Copy p dst; Dump current_layout_path; Print Success msg])%list
       ∧ m !! p = Some (File c)
       ∧ fs run.2 !! dst = Some (File c)
       ∧ backup_path now_stamp `prefix_of` dst
       ∧ (m !! backup_path now_stamp ≠ Some Dir → dst = backup_path now_stamp)
       ∧ (is_Some (m !! current_layout_path) → p = current_layout_path))
  ∧ (∀ e, (copy2 p (backup_path now_stamp) (start m)).1 = Raise e →
       fs run.2 = m ∧ dumps (trace run.2) = []).
Proof.
  intros run p dst. subst run p dst. split.
  - run_cases; simpl; intros Hin;
      try (apply elem_of_nil in Hin; contradiction).
    exists (Json d), (improvement (count_placed (get_blocks d))
                        (count_placed new_blocks) (len (get_blocks d))).
    split; [reflexivity |]. split; [assumption |]. split; [| split; [| split]].
    + rewrite lookup_insert_ne by (apply not_eq_sym, copy_target_not_current).
      apply lookup_insert_eq.
    + destruct (copy_target_backup m (layout_path_of m) now_stamp) as [-> | ->];
        [reflexivity | by apply prefix_app_r].
    + intros Hnd. unfold copy_target.
      destruct (m !! backup_path now_stamp) as [[| c] |]; congruence.
    + apply layout_path_of_current.
  - intros e He. run_cases; try (split; reflexivity); congruence.
Qed.

Lemma backup_before_overwrite_witness :
  let m1 := project_with_current empty_doc in
  let m2 := project_without_backups empty_doc in
  let run1 := grid_reorganize "2024-05-01T10:00:00" "20240501-100000" (start m1) in
  let run2 := grid_reorganize "2024-05-01T10:00:00" "20240501-100000" (start m2) in
  (current_layout_path ∈ dumps (trace run1.2)
   ∧ fs run1.2 !! backup_path "20240501-100000" = Some (File (Json empty_doc)))
  ∧ ((copy2 current_layout_path (backup_path "20240501-100000") (start m2)).1
       = Raise FileNotFoundError
     ∧ fs run2.2 = m2 ∧ dumps (trace run2.2) = []).
Proof.
  intros m1 m2 run1 run2.
  assert (Hin : current_layout_path ∈ dumps (trace run1.2)).
  { vm_compute. constructor. }
  split.
  - split; [exact Hin |].
    destruct (proj1 (backup_before_overwrite
                "2024-05-01T10:00:00" "20240501-100000" m1) Hin)
      as (c & msg & _ & Hc & Hdst & _).
    vm_compute in Hc. inversion Hc; subst c. exact Hdst.
  - split; [reflexivity |].
    exact (proj2 (backup_before_overwrite
                    "2024-05-01T10:00:00" "20240501-100000" m2)
             FileNotFoundError eq_refl).
Defined.

(** ** Statistics of the layouts produced *)

Lemma imap_unplaced {A} (f : nat → A → Block) (l : list A) :
  (∀ i a, b_placed (f i a) = false) →
  filter (fun b => b_placed b = true) (imap f l) = [].
Proof.
  revert f. induction l as [| a l IH]; intros f Hf; [reflexivity |].
  simpl. rewrite filter_cons_False by (rewrite Hf; discriminate).
  apply IH. intros i b. apply Hf.
Qed.

Lemma initial_layout_unplaced config clock now_iso files :
  count_placed (blocks (_create_initial_grid_layout config clock now_iso files)) = 0.
Proof.
  unfold count_placed, _create_initial_grid_layout. simpl.
  rewrite imap_unplaced; [reflexivity |]. intros i f. reflexivity.
Qed.

(** C5. In every layout produced by a fresh build or by a
    reorganisation, and in every layout file these write, [total_files]
    is the length of the list of blocks and [placed_files] is the number
    of its blocks with [placed = true]. *)
Theorem stats_conserved :
  (∀ config clock now_iso files,
     conserved (_create_initial_grid_layout config clock now_iso files))
  ∧ (∀ now_iso grid_size zones new_blocks,
       conserved (new_layout_of now_iso grid_size zones new_blocks))
  ∧ (∀ debug_mode config clock now_iso globbed m p,
       let run := _scan_and_organize_files debug_mode config clock now_iso globbed
                    (start m) in
       p ∈ dumps (trace run.2) →
       ∃ l, fs run.2 !! p = Some (File (Json (doc_of_layout l))) ∧ conserved l)
  ∧ (∀ now_iso now_stamp m p,
       let run := grid_reorganize now_iso now_stamp (start m) in
       p ∈ dumps (trace run.2) →
       ∃ l, fs run.2 !! p = Some (File (Json (doc_of_layout l))) ∧ conserved l).
Proof.
  assert (Hfresh : ∀ config clock now_iso files,
            conserved (_create_initial_grid_layout config clock now_iso files)).
  { intros. split; [reflexivity |]. rewrite initial_layout_unplaced. reflexivity. }
  split; [exact Hfresh |]. split; [| split].
  - intros. split; reflexivity.
  - intros debug_mode config clock now_iso globbed m p run. subst run.
    unfold _scan_and_organize_files, io_bind, _log_info, _log_debug, emit, io_ret, start.
    rewrite json_dump_run. simpl fs.
    destruct (check_writable m initial_layout_path) as [[] | e]; simpl.
    + destruct debug_mode; simpl; intros Hin%list_elem_of_singleton; subst p;
        (eexists; split; [apply lookup_insert_eq | apply Hfresh]).
    + intros Hin. apply elem_of_nil in Hin. contradiction.
  - intros now_iso now_stamp m p run. subst run.
    run_cases; simpl; intros Hin; try (apply elem_of_nil in Hin; contradiction).
    apply list_elem_of_singleton in Hin. subst p.
    eexists. split; [apply lookup_insert_eq |]. split; reflexivity.
Qed.

Lemma stats_conserved_witness :
  let run := grid_reorganize "2024-05-01T10:00:00" "20240501-100000"
               (start (project_with_current (doc_with_blocks thirty_active))) in
  current_layout_path ∈ dumps (trace run.2)
  ∧ ∃ l, fs run.2 !! current_layout_path = Some (File (Json (doc_of_layout l)))
         ∧ conserved l.
Proof.
  intros run.
  assert (Hin : current_layout_path ∈ dumps (trace run.2)).
  { vm_compute. constructor. }
  split; [exact Hin |].
  exact (proj2 (proj2 (proj2 stats_conserved))
           "2024-05-01T10:00:00" "20240501-100000"
           (project_with_current (doc_with_blocks thirty_active))
           current_layout_path Hin).
Defined.

(** ** Documents with missing keys *)

(** C9, as the code has it.  A layout document without ["grid_size"],
    ["zones"] and ["blocks"] is reorganised without any error: the run
    returns success, prints no error, and saves a layout made of the
    default grid, the default zones and no block. *)
Lemma missing_keys_not_reported :
  let run := grid_reorganize "2024-05-01T10:00:00" "20240501-100000"
               (start (project_with_current empty_doc)) in
  doc_grid_size empty_doc = None
  ∧ doc_zones empty_doc = None
  ∧ doc_blocks empty_doc = None
  ∧ run.1 = Ok true
  ∧ trace run.2 =
      (before_backup current_layout_path ++
       [Copy current_layout_path (backup_path "20240501-100000");
        Dump current_layout_path; Print Success MsgReorganized])%list
  ∧ fs run.2 !! current_layout_path =
      Some (File (Json (doc_of_layout
        (new_layout_of "2024-05-01T10:00:00" default_grid_size default_zones [])))).
Proof. vm_compute. repeat split; reflexivity. Qed.

(** C9, amended.  When the document loaded for a reorganisation lacks
    ["grid_size"], ["zones"] or ["blocks"], the missing key is replaced
    by its default (the 12 by 8 grid, the three zones of the default
    configuration, the empty list); provided the zones in use have
    non-negative origins or there is no block, and the backup and the
    current layout can be written, the run succeeds and saves the layout
    computed from these values. *)
Theorem missing_keys_defaulted (now_iso now_stamp : string)
    (m : gmap (list string) node) (d : Doc) :
  initialized m = true →
  m !! layout_path_of m = Some (File (Json d)) →
  get_blocks d = [] ∨ map_Forall (fun _ zone => zone_nonneg zone) (get_zones d) →
  (copy2 (layout_path_of m) (backup_path now_stamp) (start m)).1 = Ok tt →
  check_writable
    (<[copy_target m (layout_path_of m) (backup_path now_stamp) := File (Json d)]> m)
    current_layout_path = Ok tt →
  let run := grid_reorganize now_iso now_stamp (start m) in
  (doc_grid_size d = None → get_grid_size d = default_grid_size)
  ∧ (doc_zones d = None →
       get_zones d = default_zones
       ∧ map_Forall (fun _ zone => zone_nonneg zone) (get_zones d))
  ∧ (doc_blocks d = None → get_blocks d = [])
  ∧ run.1 = Ok true
  ∧ ∃ new_blocks,
      _reorganize_blocks (get_blocks d) (get_zones d) (get_grid_size d) = Ok new_blocks
      ∧ fs run.2 !! current_layout_path =
          Some (File (Json (doc_of_layout
            (new_layout_of now_iso (get_grid_size d) (get_zones d) new_blocks)))).
Proof.
  intros Hi Hp Hz Hc Hs run. subst run.
  split; [by unfold get_grid_size; intros -> |].
  split; [unfold get_zones; intros ->; split; [reflexivity | apply default_zones_nonneg] |].
  split; [by unfold get_blocks; intros -> |].
  assert (Htotal : ∃ nb, _reorganize_blocks (get_blocks d) (get_zones d)
                           (get_grid_size d) = Ok nb).
  { destruct Hz as [-> | Hz]; [eexists; apply reorganize_blocks_nil |].
    by apply reorganize_blocks_total. }
  destruct Htotal as [nb Hnb].
  run_cases; try congruence; try (destruct Hpath; congruence).
  assert (d0 = d) by congruence. subst d0.
  split; [reflexivity |]. exists new_blocks. split; [assumption |].
  apply lookup_insert_eq.
Qed.

Lemma missing_keys_defaulted_witness :
  let m := project_with_current empty_doc in
  let run := grid_reorganize "2024-05-01T10:00:00" "20240501-100000" (start m) in
  initialized m = true
  ∧ run.1 = Ok true
  ∧ ∃ new_blocks,
      _reorganize_blocks [] default_zones default_grid_size = Ok new_blocks
      ∧ fs run.2 !! current_layout_path =
          Some (File (Json (doc_of_layout
            (new_layout_of "2024-05-01T10:00:00" default_grid_size default_zones
               new_blocks)))).
Proof.
  intros m run. split; [reflexivity |].
  exact (proj2 (proj2 (proj2
    (missing_keys_defaulted "2024-05-01T10:00:00" "20240501-100000" m empty_doc
       eq_refl eq_refl (or_introl eq_refl) eq_refl eq_refl)))).
Defined.

(** ** The fresh build *)

(** C3, as the code has it.  The fresh build of a project with one file
    modified just now, under the default configuration, classifies the
    file [active]; the zone [active] of the layout has 24 cells, all
    free; yet the block is not placed and has no position, and the
    layout counts no placed file. *)
Lemma fresh_build_places_nothing :
  let l := _create_initial_grid_layout default_config (fun _ => 0)
             "1970-01-01T00:00:00" [sample_file "main.py" ".py"] in
  b_category <$> blocks l = ["active"]
  ∧ zones l !! dict_get category_to_zone "active" "archive" =
      Some {| zone_x := 0; zone_y := 0; zone_w := 6; zone_h := 4 |}
  ∧ b_placed <$> blocks l = [false]
  ∧ b_position <$> blocks l = [None]
  ∧ placed_files (stats l) = 0.
Proof. vm_compute. repeat split; reflexivity. Qed.

(** C3, amended.  A fresh build lists one block per scanned file, in
    scan order, with the type and the category given by the classifier,
    [placed = false] and no position; it records [placed_files = 0] and
    the grid and zones of the configuration.  It neither groups the
    blocks by category nor calls the zone placer. *)
Theorem fresh_build_unplaced (config : Config) (clock : nat → Z) (now_iso : string)
    (files : list FileEntry) :
  let l := _create_initial_grid_layout config clock now_iso files in
  length (blocks l) = length files
  ∧ b_path <$> blocks l = rel_path <$> files
  ∧ (∀ i f, files !! i = Some f →
       ∃ b, blocks l !! i = Some b
            ∧ b_type b = fi_type (_analyze_file (clock i) f)
            ∧ b_category b = fi_category (_analyze_file (clock i) f)
            ∧ b_placed b = false
            ∧ b_position b = None)
  ∧ placed_files (stats l) = 0
  ∧ grid_size l = cfg_grid_size config
  ∧ zones l = cfg_zones config.
Proof.
  intros l. subst l. unfold _create_initial_grid_layout. simpl.
  split; [apply length_imap |]. split; [| split; [| repeat split]].
  - generalize clock. induction files as [| f files IH]; intros clock0; [reflexivity |].
    simpl. f_equal. apply (IH (clock0 ∘ S)).
  - intros i f Hf. eexists. rewrite list_lookup_imap, Hf. simpl.
    split; [reflexivity |]. repeat split; reflexivity.
Qed.

Lemma fresh_build_unplaced_witness :
  let files := [sample_file "main.py" ".py"; sample_file "README.md" ".md"] in
  let l := _create_initial_grid_layout default_config (fun _ => 0)
             "1970-01-01T00:00:00" files in
  files !! 1%nat = Some (sample_file "README.md" ".md")
  ∧ ∃ b, blocks l !! 1%nat = Some b
         ∧ b_type b = fi_type (_analyze_file 0 (sample_file "README.md" ".md"))
         ∧ b_category b = fi_category (_analyze_file 0 (sample_file "README.md" ".md"))
         ∧ b_placed b = false
         ∧ b_position b = None.
Proof.
  intros files l. split; [reflexivity |].
  exact (proj1 (proj2 (proj2
    (fresh_build_unplaced default_config (fun _ => 0) "1970-01-01T00:00:00" files)))
    1%nat (sample_file "README.md" ".md") eq_refl).
Defined.

(** ** The defect of [_reorganize_blocks]: placed blocks are lost *)

(** C1, on the code.  A prior layout with a single block of category
    [active], under the default zones and grid: the placer takes the
    cell (0, 0) for it, and the list returned by the reorganisation is
    empty, so the block does not appear in the new layout at all. *)
Theorem reorganize_loses_placed_block :
  let b := sample_block "main.py" "active" in
  (∃ grid,
      place_group default_zones "active" [unplace b] (new_grid default_grid_size)
        = Ok ([], grid)
      ∧ grid !! 0%nat ≫= (.!! 0%nat) = Some true)
  ∧ _reorganize_blocks [b] default_zones default_grid_size = Ok [].
Proof.
  intros b. split; [| reflexivity].
  eexists. split; [vm_compute; reflexivity | reflexivity].
Qed.

(** C2, on the code.  Grid 12 by 8, the zone [active] of 6 by 4 cells at
    the origin, thirty blocks of category [active]: the loops visit the
    24 cells of the zone row by row, and the reorganisation returns six
    blocks only, the last six of the input, all with [placed = false]
    and no position; the 24 blocks that received a position are not in
    the list. *)
Theorem thirty_active_blocks :
  zone_cells {| zone_x := 0; zone_y := 0; zone_w := 6; zone_h := 4 |} =
    [(0, 0); (1, 0); (2, 0); (3, 0); (4, 0); (5, 0);
     (0, 1); (1, 1); (2, 1); (3, 1); (4, 1); (5, 1);
     (0, 2); (1, 2); (2, 2); (3, 2); (4, 2); (5, 2);
     (0, 3); (1, 3); (2, 3); (3, 3); (4, 3); (5, 3)]
  ∧ length thirty_active = 30%nat
  ∧ _reorganize_blocks thirty_active active_zone_only default_grid_size =
      Ok (drop 24 thirty_active)
  ∧ length (drop 24 thirty_active) = 6%nat
  ∧ Forall (fun b => b_placed b = false ∧ b_position b = None)
      (drop 24 thirty_active).
Proof.
  split; [reflexivity |]. split; [reflexivity |].
  split; [vm_compute; reflexivity |]. split; [reflexivity |].
  apply (reorganize_blocks_unplaced thirty_active active_zone_only default_grid_size).
  vm_compute. reflexivity.
Qed.

(** C6, on the code.  Two reorganisations in a row of a project whose
    current layout has thirty blocks of category [active], nothing else
    changing in between: both succeed; the first writes statistics with
    six files, the second statistics with none. *)
Theorem reorganize_twice_stats :
  let m0 := project_with_current (doc_with_blocks thirty_active) in
  let run1 := grid_reorganize "2024-05-01T10:00:00" "20240501-100000" (start m0) in
  let run2 := grid_reorganize "2024-05-01T10:05:00" "20240501-100500"
                (start (fs run1.2)) in
  run1.1 = Ok true
  ∧ run2.1 = Ok true
  ∧ current_stats (fs run1.2) =
      Some {| total_files := 6; placed_files := 0;
              by_category := [("active", 6)]; by_type := [("code", 6)] |}
  ∧ current_stats (fs run2.2) =
      Some {| total_files := 0; placed_files := 0;
              by_category := []; by_type := [] |}
  ∧ current_stats (fs run1.2) ≠ current_stats (fs run2.2).
Proof.
  intros m0 run1 run2.
  assert (H1 : current_stats (fs run1.2) =
      Some {| total_files := 6; placed_files := 0;
              by_category := [("active", 6)]; by_type := [("code", 6)] |})
    by (vm_compute; reflexivity).
  assert (H2 : current_stats (fs run2.2) =
      Some {| total_files := 0; placed_files := 0;
              by_category := []; by_type := [] |})
    by (vm_compute; reflexivity).
  split; [vm_compute; reflexivity |]. split; [vm_compute; reflexivity |].
  split; [exact H1 |]. split; [exact H2 |].
  rewrite H1, H2. discriminate.
Qed.

(** * Further properties *)

(** ** First fit *)

Lemma cell_free_mark_ne (grid : Grid) (c c' : Z * Z) :
  0 ≤ c.1 → 0 ≤ c.2 → 0 ≤ c'.1 → 0 ≤ c'.2 → c ≠ c' →
  cell_free (mark grid c) c' = cell_free grid c'.
Proof.
  destruct c as [x y], c' as [x' y']. simpl. intros Hx Hy Hx' Hy' Hne.
  unfold cell_free, mark. simpl. f_equal.
  destruct (grid !! Z.to_nat y) as [row |] eqn:Hrow; [| reflexivity].
  destruct (decide (Z.to_nat y = Z.to_nat y')) as [Heq | Hney].
  - rewrite <- Heq, Hrow.
    rewrite list_lookup_insert_eq by (eapply lookup_lt_Some, Hrow).
    rewrite list_lookup_insert_ne; [reflexivity |].
    intros Hxx. apply Hne. f_equal; lia.
  - rewrite list_lookup_insert_ne by assumption. reflexivity.
Qed.

Lemma rect_mark (w : nat) (grid : Grid) (c : Z * Z) :
  rect w grid → rect w (mark grid c).
Proof.
  intros Hrect. unfold mark.
  destruct (grid !! Z.to_nat c.2) as [row |] eqn:Hrow; [| assumption].
  apply Forall_insert; [assumption |]. rewrite length_insert.
  eapply (Forall_lookup_1 _ _ _ _ Hrect Hrow).
Qed.

Lemma filter_free_mark (grid : Grid) (c : Z * Z) (cells : list (Z * Z)) :
  0 ≤ c.1 → 0 ≤ c.2 → c ∉ cells →
  Forall (fun c : Z * Z => 0 ≤ c.1 ∧ 0 ≤ c.2) cells →
  filter (fun c' => cell_free (mark grid c) c' = true) cells =
  filter (fun c' => cell_free grid c' = true) cells.
Proof.
  intros Hx Hy Hnin Hcells. induction Hcells as [| c' cells [Hx' Hy'] _ IH]; [reflexivity |].
  apply not_elem_of_cons in Hnin as [Hne Hnin].
  rewrite !filter_cons, cell_free_mark_ne, IH by auto. reflexivity.
Qed.

Lemma cell_free_nonneg (grid : Grid) (x y : Z) :
  0 ≤ x → 0 ≤ y →
  cell_free grid (x, y) =
  match grid !! Z.to_nat y with
  | Some row => match row !! Z.to_nat x with
                | Some occupied => negb occupied
                | None => false
                end
  | None => false
  end.
Proof.
  intros Hx Hy. unfold cell_free. simpl.
  destruct (Z.leb_spec 0 x); [| lia]. destruct (Z.leb_spec 0 y); [| lia]. reflexivity.
Qed.

(** The loop of the placer over distinct cells with non-negative
    coordinates: the free cells among them are taken in order, one block
    each, until the blocks or the cells run out. *)
Lemma place_loop_first_fit (w : nat) (cells : list (Z * Z)) : ∀ blocks grid,
  rect w grid →
  Forall (fun c : Z * Z => 0 ≤ c.1 ∧ 0 ≤ c.2) cells →
  NoDup cells →
  let free := filter (fun c => cell_free grid c = true) cells in
  let k := (length blocks `min` length free)%nat in
  place_loop cells blocks grid = Ok (drop k blocks, foldl mark grid (take k free)).
Proof.
  induction cells as [| [x y] cells IH]; intros blocks grid Hrect Hcells Hnd; simpl.
  - rewrite Nat.min_0_r. reflexivity.
  - apply Forall_cons in Hcells as [[Hx Hy] Hcells]. simpl in Hx, Hy.
    apply NoDup_cons in Hnd as [Hnin Hnd].
    pose proof (cell_free_nonneg grid x y Hx Hy) as Hfree.
    destruct (Z.leb_spec (len grid) y) as [Hyge | Hylt].
    { rewrite (lookup_ge_None_2 grid) in Hfree by (unfold len in Hyge; lia).
      rewrite filter_cons_False by (rewrite Hfree; discriminate). by apply IH. }
    destruct (getitem_nonneg grid 0) as (row0 & -> & Hrow0); [lia | lia |]. simpl.
    destruct (getitem_nonneg grid y) as (row & Hgy & Hrow); [lia | lia |].
    assert (Hlen0 : length row0 = w) by (eapply (Forall_lookup_1 _ _ _ _ Hrect Hrow0)).
    assert (Hlen : length row = w) by (eapply (Forall_lookup_1 _ _ _ _ Hrect Hrow)).
    rewrite Hrow in Hfree.
    destruct (Z.leb_spec (len row0) x) as [Hxge | Hxlt].
    { rewrite (lookup_ge_None_2 row) in Hfree by (unfold len in Hxge; lia).
      rewrite filter_cons_False by (rewrite Hfree; discriminate). by apply IH. }
    rewrite Hgy. simpl.
    assert (Hxrow : x < len row) by (unfold len in *; lia).
    destruct (getitem_nonneg row x) as (occupied & -> & Hocc); [lia | lia |]. simpl.
    rewrite Hocc in Hfree.
    destruct occupied; simpl in Hfree.
    { rewrite filter_cons_False by (rewrite Hfree; discriminate). by apply IH. }
    rewrite filter_cons_True by assumption.
    destruct blocks as [| block blocks]; [reflexivity |].
    rewrite setitem_nonneg by lia. simpl.
    rewrite setitem_nonneg by lia. simpl.
    assert (Hmark : <[Z.to_nat y := <[Z.to_nat x := true]> row]> grid = mark grid (x, y)).
    { unfold mark. simpl. by rewrite Hrow. }
    rewrite Hmark.
    rewrite (IH blocks (mark grid (x, y))); [| by apply rect_mark | assumption | assumption].
    rewrite filter_free_mark by auto. reflexivity.
Qed.

Lemma zone_cells_nonneg (zone : Zone) :
  zone_nonneg zone → Forall (fun c : Z * Z => 0 ≤ c.1 ∧ 0 ≤ c.2) (zone_cells zone).
Proof.
  intros [Hx Hy]. apply Forall_forall. intros [x y] Hc.
  apply elem_of_zone_cells in Hc. simpl. lia.
Qed.

Lemma zone_cells_NoDup (zone : Zone) : NoDup (zone_cells zone).
Proof.
  unfold zone_cells. apply NoDup_bind.
  - intros y1 y2 c _ _ H1 H2.
    apply list_elem_of_bind in H1 as (x1 & H1 & _).
    apply list_elem_of_bind in H2 as (x2 & H2 & _).
    apply list_elem_of_singleton in H1, H2. congruence.
  - intros y _. apply NoDup_bind.
    + intros x1 x2 c _ _ H1 H2. apply list_elem_of_singleton in H1, H2. congruence.
    + intros x _. apply NoDup_singleton.
    + apply NoDup_seqZ.
  - apply NoDup_seqZ.
Qed.

Lemma bind_const_length {A B} (f : A → list B) (n : nat) (l : list A) :
  (∀ a, length (f a) = n) → length (l ≫= f) = (length l * n)%nat.
Proof.
  intros Hf. induction l as [| a l IH]; [reflexivity |].
  rewrite bind_cons, length_app, Hf, IH. simpl. lia.
Qed.

Lemma zone_cells_length (zone : Zone) :
  length (zone_cells zone) = (Z.to_nat (zone_h zone) * Z.to_nat (zone_w zone))%nat.
Proof.
  unfold zone_cells, range.
  rewrite (bind_const_length _ (Z.to_nat (zone_w zone))).
  - rewrite length_seqZ. f_equal. lia.
  - intros y. rewrite (bind_const_length _ 1%nat) by reflexivity.
    rewrite length_seqZ. lia.
Qed.

Lemma cell_free_new_grid (gs : GridSize) (x y : Z) :
  0 ≤ x < grid_width gs → 0 ≤ y < grid_height gs →
  cell_free (new_grid gs) (x, y) = true.
Proof.
  intros Hx Hy. rewrite cell_free_nonneg by lia. unfold new_grid, range.
  rewrite list_lookup_fmap, lookup_seqZ_lt by lia. simpl.
  rewrite list_lookup_fmap, lookup_seqZ_lt by lia. reflexivity.
Qed.

Lemma cell_free_inside (grid : Grid) (w : nat) (c : Z * Z) :
  rect w grid → cell_free grid c = true →
  0 ≤ c.1 < Z.of_nat w ∧ 0 ≤ c.2 < len grid.
Proof.
  destruct c as [x y]. unfold cell_free. simpl. intros Hrect H.
  destruct (Z.leb_spec 0 x); [| discriminate].
  destruct (Z.leb_spec 0 y); [| discriminate]. simpl in H.
  destruct (grid !! Z.to_nat y) as [row |] eqn:Hrow; [| discriminate].
  destruct (row !! Z.to_nat x) as [occ |] eqn:Hocc; [| discriminate].
  apply lookup_lt_Some in Hocc.
  pose proof (Forall_lookup_1 _ _ _ _ Hrect Hrow) as Hlen. simpl in Hlen.
  apply lookup_lt_Some in Hrow. unfold len. lia.
Qed.

Lemma place_zone_first_fit (w : nat) (blocks : list Block) (zone : Zone)
    (grid : Grid) :
  rect w grid → zone_nonneg zone →
  let free := filter (fun c => cell_free grid c = true) (zone_cells zone) in
  let k := (length blocks `min` length free)%nat in
  _place_blocks_in_zone blocks zone grid =
    Ok (drop k blocks, foldl mark grid (take k free)).
Proof.
  intros Hrect Hz. apply (place_loop_first_fit w); [assumption | |].
  - by apply zone_cells_nonneg.
  - apply zone_cells_NoDup.
Qed.

(** The placer is first fit in row-major order: on a grid whose rows
    have equal length, for a zone whose origin is not negative,
    [_place_blocks_in_zone] returns; of the cells of the zone that lie
    inside the grid and are free, taken row by row, it marks the first
    [k] and removes the first [k] blocks of the list, where [k] is the
    smaller of the number of blocks and the number of those cells. *)
Theorem place_blocks_first_fit (w : nat) (blocks : list Block) (zone : Zone)
    (grid : Grid) :
  rect w grid → zone_nonneg zone →
  let free := filter (fun c => cell_free grid c = true) (zone_cells zone) in
  let k := (length blocks `min` length free)%nat in
  _place_blocks_in_zone blocks zone grid =
    Ok (drop k blocks, foldl mark grid (take k free))
  ∧ rect w (foldl mark grid (take k free)).
Proof.
  intros Hrect Hz free k. split; [by apply (place_zone_first_fit w) |].
  generalize (take k free). clear free k. intros cells. revert grid Hrect.
  induction cells as [| c cells IH]; intros grid Hrect; [assumption |].
  simpl. by apply IH, rect_mark.
Qed.

Lemma place_blocks_first_fit_witness :
  let zone := {| zone_x := 10; zone_y := 6; zone_w := 4; zone_h := 4 |} in
  let blocks := [sample_block "a.py" "active"; sample_block "b.py" "active";
                 sample_block "c.py" "active"; sample_block "d.py" "active";
                 sample_block "e.py" "active"] in
  (rect 12 (new_grid default_grid_size) ∧ zone_nonneg zone)
  ∧ _place_blocks_in_zone blocks zone (new_grid default_grid_size) =
      Ok ([sample_block "e.py" "active"],
          foldl mark (new_grid default_grid_size) [(10, 6); (11, 6); (10, 7); (11, 7)]).
Proof.
  intros zone blocks.
  assert (Hrect : rect 12 (new_grid default_grid_size))
    by exact (new_grid_rect default_grid_size).
  assert (Hz : zone_nonneg zone) by (unfold zone_nonneg; simpl; lia).
  split; [split; assumption |].
  exact (proj1 (place_blocks_first_fit 12 blocks zone (new_grid default_grid_size)
                  Hrect Hz)).
Defined.

Lemma place_zone_capacity (blocks : list Block) (zone : Zone) (gs : GridSize) :
  zone_inside zone gs →
  _place_blocks_in_zone blocks zone (new_grid gs) =
    Ok (drop (Z.to_nat (zone_w zone * zone_h zone)) blocks,
        foldl mark (new_grid gs) (take (length blocks) (zone_cells zone))).
Proof.
  intros (Hx & Hy & Hw & Hh & Hxw & Hyh).
  rewrite (place_zone_first_fit _ blocks zone (new_grid gs) (new_grid_rect gs))
    by (split; assumption).
  rewrite (filter_all _ (zone_cells zone)).
  2: { apply Forall_forall. intros [x y] Hc. apply elem_of_zone_cells in Hc.
       apply cell_free_new_grid; lia. }
  assert (Hlen : length (zone_cells zone) = Z.to_nat (zone_w zone * zone_h zone)).
  { rewrite zone_cells_length. lia. }
  rewrite <- Hlen. f_equal. f_equal.
  - destruct (Nat.le_ge_cases (length blocks) (length (zone_cells zone))) as [Hle | Hge].
    + rewrite Nat.min_l, !drop_ge by lia. reflexivity.
    + rewrite Nat.min_r by lia. reflexivity.
  - destruct (Nat.le_ge_cases (length blocks) (length (zone_cells zone))) as [Hle | Hge].
    + rewrite Nat.min_l by lia. reflexivity.
    + rewrite Nat.min_r, !take_ge by lia. reflexivity.
Qed.

(** On a fresh grid a zone that lies inside the grid has all its cells
    free: the placer marks one cell per block, row by row, and leaves in
    the list the blocks beyond the first [width * height]. *)
Theorem place_blocks_capacity (blocks : list Block) (zone : Zone) (gs : GridSize) :
  zone_inside zone gs →
  _place_blocks_in_zone blocks zone (new_grid gs) =
    Ok (drop (Z.to_nat (zone_w zone * zone_h zone)) blocks,
        foldl mark (new_grid gs) (take (length blocks) (zone_cells zone))).
Proof. apply place_zone_capacity. Qed.

Lemma place_blocks_capacity_witness :
  let zone := {| zone_x := 6; zone_y := 0; zone_w := 6; zone_h := 4 |} in
  zone_inside zone default_grid_size
  ∧ _place_blocks_in_zone thirty_active zone (new_grid default_grid_size) =
      Ok (drop 24 thirty_active,
          foldl mark (new_grid default_grid_size) (take 30 (zone_cells zone))).
Proof.
  intros zone.
  assert (Hin : zone_inside zone default_grid_size)
    by (unfold zone_inside; simpl; lia).
  split; [exact Hin |].
  exact (place_blocks_capacity thirty_active zone default_grid_size Hin).
Defined.

(** ** Zones that place nothing, zones that raise *)

Lemma zone_cells_empty (zone : Zone) :
  zone_w zone ≤ 0 ∨ zone_h zone ≤ 0 → zone_cells zone = [].
Proof.
  unfold zone_cells, range. intros [Hw | Hh].
  - induction (seqZ (zone_y zone) _) as [| y ys IH]; [reflexivity |].
    rewrite bind_cons, IH, (seqZ_nil (zone_x zone)) by lia. reflexivity.
  - rewrite (seqZ_nil (zone_y zone)) by lia. reflexivity.
Qed.

(** What the placer leaves untouched.  A zone without cells (a width or
    a height that is not positive) changes neither the list nor the
    grid, wherever it lies.  The same holds, on a grid whose rows have
    equal length, for a zone of non-negative origin that starts right of
    or below the grid, and for an empty list of blocks. *)
Theorem place_blocks_nothing (w : nat) (blocks : list Block) (zone : Zone)
    (grid : Grid) :
  (zone_w zone ≤ 0 ∨ zone_h zone ≤ 0 →
     _place_blocks_in_zone blocks zone grid = Ok (blocks, grid))
  ∧ (rect w grid → zone_nonneg zone →
     Z.of_nat w ≤ zone_x zone ∨ len grid ≤ zone_y zone →
     _place_blocks_in_zone blocks zone grid = Ok (blocks, grid))
  ∧ (rect w grid → zone_nonneg zone →
     _place_blocks_in_zone [] zone grid = Ok ([], grid)).
Proof.
  split; [| split].
  - intros Hempty. unfold _place_blocks_in_zone.
    rewrite zone_cells_empty by assumption. reflexivity.
  - intros Hrect Hz Hout.
    rewrite (place_zone_first_fit w) by assumption.
    rewrite (filter_none _ (zone_cells zone)).
    + simpl. rewrite Nat.min_0_r. reflexivity.
    + apply Forall_forall. intros [x y] Hc Hfree.
      apply elem_of_zone_cells in Hc.
      apply (cell_free_inside grid w) in Hfree; [| assumption]. simpl in Hfree. lia.
  - intros Hrect Hz. rewrite (place_zone_first_fit w) by assumption. reflexivity.
Qed.

Lemma place_blocks_nothing_witness :
  let grid := new_grid default_grid_size in
  let blocks := [sample_block "a.py" "active"] in
  _place_blocks_in_zone blocks
    {| zone_x := -3; zone_y := -3; zone_w := 0; zone_h := 5 |} grid = Ok (blocks, grid)
  ∧ _place_blocks_in_zone blocks
      {| zone_x := 12; zone_y := 0; zone_w := 6; zone_h := 4 |} grid = Ok (blocks, grid)
  ∧ _place_blocks_in_zone []
      {| zone_x := 0; zone_y := 0; zone_w := 6; zone_h := 4 |} grid = Ok ([], grid).
Proof.
  intros grid blocks.
  assert (Hrect : rect 12 grid) by exact (new_grid_rect default_grid_size).
  split; [| split].
  - apply (proj1 (place_blocks_nothing 12 blocks _ grid)). simpl. lia.
  - apply (proj1 (proj2 (place_blocks_nothing 12 blocks _ grid)));
      [assumption | unfold zone_nonneg; simpl; lia | simpl; lia].
  - apply (proj2 (proj2 (place_blocks_nothing 12 blocks _ grid)));
      [assumption | unfold zone_nonneg; simpl; lia].
Defined.






(** ** What [_reorganize_blocks] returns *)

Lemma merge_group_append (cb : Groups) (k : string) (b : Block) :
  merge_groups (group_append cb k b) ≡ₚ merge_groups cb ++ [b].
Proof.
  induction cb as [| [c l] cb IH]; [reflexivity |]. simpl.
  destruct (String.eqb c k).
  - rewrite !merge_groups_cons. simpl. rewrite <- !app_assoc.
    apply Permutation_app_head, Permutation_app_comm.
  - rewrite !merge_groups_cons, IH. simpl. by rewrite app_assoc.
Qed.

Lemma merge_fold (blocks : list Block) : ∀ acc : Groups,
  merge_groups (fold_left (fun cb block => group_append cb (b_category block) block)
                  blocks acc) ≡ₚ merge_groups acc ++ blocks.
Proof.
  induction blocks as [| b blocks IH]; intros acc; simpl.
  - by rewrite app_nil_r.
  - rewrite IH, merge_group_append, <- app_assoc. reflexivity.
Qed.

(** Grouping keeps every block, once. *)
Lemma merge_categorize (blocks : list Block) :
  merge_groups (categorize blocks) ≡ₚ blocks.
Proof. unfold categorize. rewrite merge_fold. reflexivity. Qed.

Lemma place_groups_sublist zones (cb cb' : Groups) grid grid' :
  place_groups zones cb grid = Ok (cb', grid') →
  merge_groups cb' `sublist_of` merge_groups cb.
Proof.
  intros H. apply place_groups_shape in H.
  induction H as [| [c l] [c' l'] cb cb' [Hc Hl] _ IH]; [reflexivity |].
  rewrite !merge_groups_cons. simpl in *.
  apply sublist_app; [| assumption]. destruct Hl as [k ->]. apply sublist_inserts_l.
  reflexivity.
Qed.

Lemma place_groups_select_shape (Q : string → Prop) `{!∀ c, Decision (Q c)}
    (cb cb' : Groups) :
  Forall2 (fun g g' : string * list Block => g'.1 = g.1 ∧ g'.2 `suffix_of` g.2) cb cb' →
  Forall2 (fun g g' : string * list Block => g'.1 = g.1 ∧ g'.2 `suffix_of` g.2)
    (filter (fun g : string * list Block => Q g.1) cb)
    (filter (fun g : string * list Block => Q g.1) cb').
Proof.
  induction 1 as [| [c l] [c' l'] cb cb' [Hc Hl] _ IH]; [constructor |].
  simpl in *. subst c'. rewrite !filter_cons. simpl.
  destruct (decide (Q c)); [constructor; [split |]; auto | assumption].
Qed.

Lemma reorganize_blocks_submseteq (blocks : list Block) (zones : gmap string Zone)
    (grid_size : GridSize) (new_blocks : list Block) :
  _reorganize_blocks blocks zones grid_size = Ok new_blocks →
  new_blocks ⊆+ unplace <$> blocks.
Proof.
  unfold _reorganize_blocks. cbv zeta. intros H.
  destruct (place_groups zones (unplace_all (categorize blocks)) (new_grid grid_size))
    as [[cb' grid'] |] eqn:Hp; simpl in H; [| discriminate].
  inversion H; subst new_blocks. simpl.
  etrans; [apply sublist_submseteq; eapply place_groups_sublist, Hp |].
  rewrite merge_groups_unplace_all.
  apply Permutation_submseteq, fmap_Permutation, merge_categorize.
Qed.

Lemma reorganize_blocks_length (blocks : list Block) (zones : gmap string Zone)
    (grid_size : GridSize) (new_blocks : list Block) :
  _reorganize_blocks blocks zones grid_size = Ok new_blocks →
  (length new_blocks ≤ length blocks)%nat.
Proof.
  intros H. rewrite <- (length_fmap unplace blocks).
  by eapply submseteq_length, reorganize_blocks_submseteq.
Qed.

(** The list returned by [_reorganize_blocks]: for every category, its
    blocks of that category are a final segment of the blocks of that
    category of the input, in the order of the input and reset to
    unplaced; no block is invented or returned twice. *)
Theorem reorganize_returns_tails (blocks : list Block) (zones : gmap string Zone)
    (grid_size : GridSize) (new_blocks : list Block) :
  _reorganize_blocks blocks zones grid_size = Ok new_blocks →
  (∀ c, filter (fun b => b_category b = c) new_blocks
        `suffix_of` unplace <$> filter (fun b => b_category b = c) blocks)
  ∧ new_blocks ⊆+ unplace <$> blocks
  ∧ (length new_blocks ≤ length blocks)%nat.
Proof.
  unfold _reorganize_blocks. cbv zeta. intros H.
  destruct (place_groups zones (unplace_all (categorize blocks)) (new_grid grid_size))
    as [[cb' grid'] |] eqn:Hp; simpl in H; [| discriminate].
  inversion H; subst new_blocks. clear H. simpl.
  assert (Hk : keyed cb').
  { eapply place_groups_keyed; [exact Hp |]. apply keyed_unplace_all, keyed_categorize. }
  assert (Hsub : merge_groups cb' ⊆+ unplace <$> blocks).
  { etrans; [apply sublist_submseteq; eapply place_groups_sublist, Hp |].
    rewrite merge_groups_unplace_all.
    apply Permutation_submseteq, fmap_Permutation, merge_categorize. }
  split; [| split; [exact Hsub |]].
  - intros c.
    rewrite_sel_back (merge_groups_select (fun k => k = c) cb' Hk).
    pose proof (place_groups_select_shape (fun k => k = c) _ _
                  (place_groups_shape _ _ _ _ _ Hp)) as Hshape.
    cbv beta in Hshape.
    pose proof (unplace_all_select (fun k => k = c) (categorize blocks)) as E1.
    pose proof (categorize_select (fun k => k = c) blocks) as E2.
    cbv beta in E1, E2. rewrite E1, E2 in Hshape. clear E1 E2.
    assert (Hone : Forall (fun b => b_category b = c)
                     (filter (fun b => b_category b = c) blocks)).
    { apply Forall_forall. intros b Hb. by apply list_elem_of_filter in Hb as [Hb _]. }
    destruct (filter (fun b => b_category b = c) blocks) as [| b0 l0] eqn:Hf.
    + inversion Hshape as [Hnil |]. reflexivity.
    + apply Forall_cons in Hone as [Hb0 Hl0].
      unfold categorize in Hshape. simpl in Hshape. rewrite Hb0 in Hshape.
      rewrite fold_one_category in Hshape by assumption.
      inversion Hshape as [| g g' cb1 cb1' [_ Hsuf] Hrest Heq1 Heq2]; subst.
      inversion Hrest; subst. rewrite merge_groups_cons. simpl.
      unfold merge_groups. simpl. rewrite app_nil_r. exact Hsuf.
  - rewrite <- (length_fmap unplace blocks). by apply submseteq_length.
Qed.

Lemma reorganize_returns_tails_witness :
  let blocks := [sample_block "a.py" "active"; sample_block "r.md" "resources";
                 sample_block "b.py" "active"] in
  _reorganize_blocks blocks zones_without_active default_grid_size =
    Ok [sample_block "a.py" "active"; sample_block "b.py" "active"]
  ∧ filter (fun b => b_category b = "resources")
      [sample_block "a.py" "active"; sample_block "b.py" "active"]
    `suffix_of` unplace <$> filter (fun b => b_category b = "resources") blocks.
Proof.
  intros blocks.
  assert (H : _reorganize_blocks blocks zones_without_active default_grid_size =
              Ok [sample_block "a.py" "active"; sample_block "b.py" "active"])
    by reflexivity.
  split; [exact H |].
  exact (proj1 (reorganize_returns_tails _ _ _ _ H) "resources").
Defined.

Lemma categorize_one (c : string) (b : Block) (blocks : list Block) :
  Forall (fun b => b_category b = c) (b :: blocks) →
  categorize (b :: blocks) = [(c, b :: blocks)].
Proof.
  intros H. apply Forall_cons in H as [Hb H]. unfold categorize. simpl.
  rewrite Hb. by rewrite fold_one_category.
Qed.

(** Blocks of one category whose zone lies inside the grid: the
    reorganisation returns the blocks beyond the first [width * height],
    in order and unplaced, and nothing else. *)
Theorem reorganize_one_category (blocks : list Block) (zones : gmap string Zone)
    (grid_size : GridSize) (c : string) (zone : Zone) :
  Forall (fun b => b_category b = c) blocks →
  zones !! dict_get category_to_zone c "archive" = Some zone →
  zone_inside zone grid_size →
  _reorganize_blocks blocks zones grid_size =
    Ok (unplace <$> drop (Z.to_nat (zone_w zone * zone_h zone)) blocks).
Proof.
  intros Hc Hzone Hin. destruct blocks as [| b blocks].
  { rewrite drop_nil. reflexivity. }
  unfold _reorganize_blocks. cbv zeta. rewrite (categorize_one c) by assumption.
  simpl. unfold place_group. rewrite Hzone.
  rewrite (place_zone_capacity _ zone grid_size Hin). simpl.
  unfold merge_groups. simpl. rewrite app_nil_r.
  rewrite (fmap_drop unplace _ (b :: blocks)). reflexivity.
Qed.

Lemma reorganize_one_category_witness :
  let zone := {| zone_x := 0; zone_y := 4; zone_w := 12; zone_h := 4 |} in
  let blocks := (fun b => sample_block (b_path b) "completed") <$> thirty_active in
  (Forall (fun b => b_category b = "completed") blocks
   ∧ default_zones !! dict_get category_to_zone "completed" "archive" = Some zone
   ∧ zone_inside zone default_grid_size)
  ∧ _reorganize_blocks blocks default_zones default_grid_size = Ok [].
Proof.
  intros zone blocks.
  assert (H1 : Forall (fun b => b_category b = "completed") blocks).
  { apply Forall_fmap, Forall_forall. intros b _. reflexivity. }
  assert (H2 : zone_inside zone default_grid_size) by (unfold zone_inside; simpl; lia).
  split; [split; [exact H1 | split; [reflexivity | exact H2]] |].
  exact (reorganize_one_category blocks default_zones default_grid_size
           "completed" zone H1 eq_refl H2).
Defined.




(** With zones of non-negative origin [_reorganize_blocks] never raises:
    it returns a list for every list of blocks and every grid size,
    also an empty or a negative one. *)
Theorem reorganize_never_raises (blocks : list Block) (zones : gmap string Zone)
    (grid_size : GridSize) :
  map_Forall (fun _ zone => zone_nonneg zone) zones →
  is_ok (_reorganize_blocks blocks zones grid_size) = true.
Proof.
  intros Hz. destruct (reorganize_blocks_total blocks zones grid_size Hz) as [nb ->].
  reflexivity.
Qed.

Lemma reorganize_never_raises_witness :
  map_Forall (fun _ zone => zone_nonneg zone) default_zones
  ∧ is_ok (_reorganize_blocks thirty_active default_zones
             {| grid_width := -1; grid_height := 3 |}) = true.
Proof.
  split; [exact default_zones_nonneg |].
  exact (reorganize_never_raises thirty_active default_zones
           {| grid_width := -1; grid_height := 3 |} default_zones_nonneg).
Defined.

(** ** The counters of the statistics *)

Lemma count_of_incr (counts : Counts) (k k' : string) :
  count_of (count_incr counts k') k =
  count_of counts k + (if decide (k' = k) then 1 else 0).
Proof.
  induction counts as [| [k0 n] counts IH]; simpl.
  - destruct (String.eqb_spec k' k); destruct (decide (k' = k)); try contradiction; lia.
  - destruct (String.eqb_spec k0 k') as [-> | Hne]; simpl.
    + destruct (String.eqb_spec k' k); destruct (decide (k' = k)); try contradiction; lia.
    + destruct (String.eqb_spec k0 k) as [-> | Hne']; [| apply IH].
      destruct (decide (k' = k)); [congruence | lia].
Qed.

Lemma count_total_incr (counts : Counts) (k : string) :
  count_total (count_incr counts k) = count_total counts + 1.
Proof.
  unfold count_total. induction counts as [| [k0 n] counts IH]; simpl; [lia |].
  destruct (String.eqb k0 k); simpl; lia.
Qed.

Lemma keys_incr (counts : Counts) (k : string) :
  (count_incr counts k).*1 =
  if decide (k ∈ counts.*1) then counts.*1 else (counts.*1 ++ [k])%list.
Proof.
  induction counts as [| [k0 n] counts IH].
  - destruct (decide (k ∈ ([] : Counts).*1)) as [H | _];
      [by apply elem_of_nil in H | reflexivity].
  - cbn [count_incr]. destruct (String.eqb_spec k0 k) as [-> | Hne].
    + destruct (decide (k ∈ ((k, n) :: counts).*1)) as [_ | H]; [reflexivity |].
      exfalso. apply H. apply list_elem_of_here.
    + rewrite !fmap_cons, IH. cbn [fst].
      destruct (decide (k ∈ counts.*1)) as [Hin | Hnin];
        destruct (decide (k ∈ k0 :: counts.*1)) as [H | H].
      * reflexivity.
      * exfalso. apply H. by apply list_elem_of_further.
      * apply elem_of_cons in H as [Heq | Hin]; [congruence | contradiction].
      * reflexivity.
Qed.

Lemma count_by_fold (key : Block → string) (blocks : list Block) : ∀ acc : Counts,
  let counts := fold_left (fun counts block => count_incr counts (key block)) blocks acc in
  (∀ k, count_of counts k = count_of acc k + len (filter (fun b => key b = k) blocks))
  ∧ count_total counts = count_total acc + len blocks
  ∧ (NoDup acc.*1 → NoDup counts.*1)
  ∧ (∀ k, k ∈ counts.*1 ↔ k ∈ acc.*1 ∨ k ∈ key <$> blocks).
Proof.
  induction blocks as [| b blocks IH]; intros acc; simpl.
  - split; [| split; [| split]].
    + intros k. unfold len. simpl. lia.
    + unfold len. simpl. lia.
    + auto.
    + intros k. split; [auto |]. intros [H | H]; [assumption | by apply elem_of_nil in H].
  - destruct (IH (count_incr acc (key b))) as (H1 & H2 & H3 & H4).
    split; [| split; [| split]].
    + intros k. rewrite H1, count_of_incr, filter_cons.
      destruct (decide (key b = k)); unfold len; simpl; lia.
    + rewrite H2, count_total_incr. unfold len. simpl. lia.
    + intros Hnd. apply H3. rewrite keys_incr.
      destruct (decide (key b ∈ acc.*1)); [assumption |].
      apply NoDup_app. split; [assumption |]. split; [| apply NoDup_singleton].
      intros k Hk Hk'%list_elem_of_singleton. by subst.
    + intros k. rewrite H4, keys_incr.
      destruct (decide (key b ∈ acc.*1)) as [Hin | Hnin]; rewrite ?elem_of_app,
        ?list_elem_of_singleton, elem_of_cons; split; intros H; try tauto.
      destruct H as [H | [-> | H]]; tauto.
Qed.

(** The counter dictionaries of the statistics, as the counting loops
    build them: the keys are the values that occur among the blocks,
    each once; the value under a key is the number of blocks that carry
    it; a key that does not occur is absent; the values add up to the
    number of blocks. *)
Theorem count_by_counts (key : Block → string) (blocks : list Block) :
  NoDup (count_by key blocks).*1
  ∧ (∀ k, k ∈ (count_by key blocks).*1 ↔ k ∈ key <$> blocks)
  ∧ (∀ k, count_of (count_by key blocks) k = len (filter (fun b => key b = k) blocks))
  ∧ Forall (fun p : string * Z =>
              p.2 = len (filter (fun b => key b = p.1) blocks) ∧ 1 ≤ p.2)
      (count_by key blocks)
  ∧ count_total (count_by key blocks) = len blocks.
Proof.
  destruct (count_by_fold key blocks []) as (H1 & H2 & H3 & H4).
  fold (count_by key blocks) in H1, H2, H3, H4.
  assert (Hnd : NoDup (count_by key blocks).*1) by (apply H3; constructor).
  assert (Hcount : ∀ k, count_of (count_by key blocks) k =
                        len (filter (fun b => key b = k) blocks)).
  { intros k. rewrite H1. simpl. lia. }
  split; [exact Hnd |]. split; [| split; [exact Hcount | split]].
  - intros k. rewrite H4. split; [intros [H | H]; [by apply elem_of_nil in H | done] | auto].
  - apply Forall_forall. intros [k n] Hin. simpl.
    assert (Hn : count_of (count_by key blocks) k = n).
    { clear -Hnd Hin. induction (count_by key blocks) as [| [k0 n0] counts IH]; simpl in *.
      - by apply elem_of_nil in Hin.
      - apply NoDup_cons in Hnd as [Hnin Hnd].
        apply elem_of_cons in Hin as [Heq | Hin].
        + inversion Heq; subst. by rewrite String.eqb_refl.
        + destruct (String.eqb_spec k0 k) as [-> | _]; [| auto].
          exfalso. apply Hnin. apply list_elem_of_fmap. by exists (k, n). }
    rewrite Hcount in Hn. split; [by rewrite Hn |].
    assert (Hk : k ∈ key <$> blocks).
    { assert (Hk : k ∈ (count_by key blocks).*1)
        by (apply list_elem_of_fmap; by exists (k, n)).
      apply H4 in Hk as [Hk | Hk]; [by apply elem_of_nil in Hk | exact Hk]. }
    apply list_elem_of_fmap in Hk as (b & -> & Hb).
    assert (Hbf : b ∈ filter (fun b0 => key b0 = key b) blocks)
      by (by apply list_elem_of_filter).
    rewrite <- Hn. unfold len.
    destruct (filter (fun b0 => key b0 = key b) blocks); [by apply elem_of_nil in Hbf |].
    simpl. lia.
  - rewrite H2. reflexivity.
Qed.

(** ** The files a scan ignores *)

Lemma append_cons (x : ascii) (a b : string) : String x a ++ b = String x (a ++ b).
Proof. reflexivity. Qed.

Lemma append_nil (s : string) : "" ++ s = s.
Proof. reflexivity. Qed.

Lemma prefix_app (p s : string) :
  String.prefix p s = true ↔ ∃ post, s = p ++ post.
Proof.
  revert s. induction p as [| a p IH]; intros s.
  - split; [intros _; by exists s | by destruct s].
  - destruct s as [| b s]; cbn [String.prefix].
    + split; [discriminate | intros [post H]; rewrite append_cons in H; discriminate].
    + destruct (Ascii.ascii_dec a b) as [-> | Hne].
      * rewrite IH. split; intros [post H]; exists post; rewrite append_cons in *;
          [by rewrite H | by inversion H].
      * split; [discriminate |].
        intros [post H]. rewrite append_cons in H. inversion H; congruence.
Qed.

(** [p in s] holds exactly when [s] is some text, then [p], then some text. *)
Lemma contains_app (p s : string) :
  Str.contains p s = true ↔ ∃ pre post, s = pre ++ p ++ post.
Proof.
  induction s as [| b s IH]; cbn [Str.contains].
  - rewrite orb_false_r, prefix_app. split.
    + intros [post H]. exists "", post. exact H.
    + intros (pre & post & H). destruct pre; [by exists post |].
      rewrite append_cons in H. discriminate.
  - rewrite orb_true_iff, prefix_app, IH. split.
    + intros [[post H] | (pre & post & H)].
      * exists "", post. exact H.
      * exists (String b pre), post. rewrite append_cons. by rewrite H.
    + intros (pre & post & H). destruct pre as [| a pre].
      * left. by exists post.
      * right. rewrite append_cons in H. inversion H. by exists pre, post.
Qed.

Lemma string_app_assoc (a b c : string) : (a ++ b) ++ c = a ++ b ++ c.
Proof.
  induction a as [| x a IH]; [reflexivity |].
  rewrite !append_cons. by rewrite IH.
Qed.

(** A file is ignored exactly when one of the nine patterns occurs
    somewhere in the text of its path, as part of any component of the
    path; hence a path stays ignored whatever is put before or after
    it: below an ignored directory everything is ignored, and so is
    every file of a project whose own path contains a pattern. *)
Theorem should_ignore_substring (f : FileEntry) :
  (_should_ignore_file f = true ↔
     ∃ pattern pre post,
       pattern ∈ ignore_patterns ∧ str_path f = pre ++ pattern ++ post)
  ∧ ∀ f' before after,
      str_path f' = before ++ str_path f ++ after →
      _should_ignore_file f = true → _should_ignore_file f' = true.
Proof.
  assert (Hiff : ∀ g, _should_ignore_file g = true ↔
            ∃ pattern pre post,
              pattern ∈ ignore_patterns ∧ str_path g = pre ++ pattern ++ post).
  { intros g. unfold _should_ignore_file. rewrite existsb_exists. split.
    - intros (pattern & Hin & Hc). apply contains_app in Hc as (pre & post & Hc).
      exists pattern, pre, post. split; [by apply list_elem_of_In | exact Hc].
    - intros (pattern & pre & post & Hin & Hc). exists pattern.
      split; [by apply list_elem_of_In |]. apply contains_app. eauto. }
  split; [apply Hiff |].
  intros f' before after Hpath Hf. apply Hiff in Hf as (pattern & pre & post & Hin & Hc).
  apply Hiff. exists pattern, (before ++ pre), (post ++ after). split; [exact Hin |].
  rewrite Hpath, Hc, !string_app_assoc. reflexivity.
Qed.

Lemma should_ignore_substring_witness :
  let dir := sample_file "node_modules" "" in
  let f := {| str_path := str_path dir ++ "/left-pad/index.js";
              rel_path := "node_modules/left-pad/index.js"; fname := "index.js";
              ext := ".js"; st_size := 1; st_mtime := 0; mtime_iso := "" |} in
  (str_path f = "" ++ str_path dir ++ "/left-pad/index.js"
   ∧ _should_ignore_file dir = true)
  ∧ _should_ignore_file f = true.
Proof.
  intros dir f. split; [split; reflexivity |].
  exact (proj2 (should_ignore_substring dir) f "" "/left-pad/index.js" eq_refl eq_refl).
Defined.

(** ** The fresh build on the file system *)




(** ** More on the runs of [grid_reorganize] *)

Lemma exists_in_insert m (p q : Path) (n : node) :
  p ≠ q → exists_in (<[q := n]> m) p = exists_in m p.
Proof. intros Hne. unfold exists_in. by rewrite lookup_insert_ne. Qed.

(** What a reorganisation leaves alone: every path but [current.json]
    and the file of the backup keeps its content, whatever the outcome;
    in particular the initial layout and the configuration are never
    modified, and an initialised project stays initialised. *)
Theorem reorganize_frame (now_iso now_stamp : string) (m : gmap (list string) node) :
  let run := grid_reorganize now_iso now_stamp (start m) in
  let dst := copy_target m (layout_path_of m) (backup_path now_stamp) in
  Forall (fun p => fs run.2 !! p = m !! p)
    [initial_layout_path; config_path; gridfile_dir; ai_dir;
     [".gridfile"; "layouts"]; [".gridfile"; "backups"]]
  ∧ initialized (fs run.2) = initialized m
  ∧ ∀ p, p ≠ current_layout_path → p ≠ dst → fs run.2 !! p = m !! p.
Proof.
  intros run dst. subst run dst.
  assert (Hframe : ∀ p, p ≠ current_layout_path →
            p ≠ copy_target m (layout_path_of m) (backup_path now_stamp) →
            (grid_reorganize now_iso now_stamp (start m)).2.(fs) !! p = m !! p).
  { intros p Hp Hd. run_cases; try reflexivity.
    - by rewrite lookup_insert_ne.
    - by rewrite !lookup_insert_ne. }
  assert (Hfixed : Forall (fun p =>
            (grid_reorganize now_iso now_stamp (start m)).2.(fs) !! p = m !! p)
            [initial_layout_path; config_path; gridfile_dir; ai_dir;
             [".gridfile"; "layouts"]; [".gridfile"; "backups"]]).
  { repeat constructor; apply Hframe; try discriminate;
      destruct (copy_target_backup m (layout_path_of m) now_stamp) as [-> | ->];
      discriminate. }
  split; [exact Hfixed |]. split; [| exact Hframe].
  apply Forall_cons in Hfixed as [_ Hfixed].
  apply Forall_cons in Hfixed as [Hc Hfixed].
  apply Forall_cons in Hfixed as [Hg Hfixed].
  apply Forall_cons in Hfixed as [Ha _].
  unfold initialized, exists_in. by rewrite Hc, Hg, Ha.
Qed.

(** As long as one of [.gridfile], [.ai] and [.gridfile/config.json] is
    missing, a reorganisation only prints that the project is not
    initialised and returns the failure indicator: it reads and writes
    nothing, also when layout files are there. *)
Theorem reorganize_not_initialized (now_iso now_stamp : string)
    (m : gmap (list string) node) :
  m !! gridfile_dir = None ∨ m !! ai_dir = None ∨ m !! config_path = None →
  grid_reorganize now_iso now_stamp (start m) =
    (Ok false, {| fs := m; trace := [Print Error MsgNotInitialized] |}).
Proof.
  intros Hmissing.
  assert (Hinit : initialized m = false).
  { unfold initialized, exists_in.
    destruct Hmissing as [-> | [-> | ->]]; simpl;
      rewrite ?andb_false_r; reflexivity. }
  run_cases; congruence.
Qed.

Lemma reorganize_not_initialized_witness :
  let m := delete ai_dir (project_with_current (doc_with_blocks thirty_active)) in
  m !! ai_dir = None
  ∧ grid_reorganize "2024-05-01T10:00:00" "20240501-100000" (start m) =
      (Ok false, {| fs := m; trace := [Print Error MsgNotInitialized] |}).
Proof.
  intros m. split; [reflexivity |].
  exact (reorganize_not_initialized "2024-05-01T10:00:00" "20240501-100000" m
           (or_intror (or_introl eq_refl))).
Defined.

(** A layout path that cannot be opened is fatal: when the chosen
    layout path is a directory, the reorganisation raises after its
    first message and changes nothing.  It does not fall back to the
    initial layout when the current one is there but unreadable. *)
Theorem reorganize_unreadable_layout (now_iso now_stamp : string)
    (m : gmap (list string) node) :
  initialized m = true →
  let run := grid_reorganize now_iso now_stamp (start m) in
  (m !! layout_path_of m = Some Dir →
     run = (Raise IsADirectoryError,
            {| fs := m; trace := [Print Info MsgReorganizing] |}))
  ∧ (is_Some (m !! current_layout_path) → layout_path_of m = current_layout_path)
  ∧ (m !! current_layout_path = Some Dir →
     run = (Raise IsADirectoryError,
            {| fs := m; trace := [Print Info MsgReorganizing] |})).
Proof.
  intros Hinit run. subst run.
  assert (Hload : ∀ r w, grid_reorganize now_iso now_stamp (start m) = (r, w) →
            m !! layout_path_of m = Some Dir →
            (r, w) = (Raise IsADirectoryError,
                      {| fs := m; trace := [Print Info MsgReorganizing] |})).
  { intros r w.
    unfold grid_reorganize, is_initialized, path_exists.
    unfold io_bind, get_fs, io_ret, _log_error, _log_info, _log_success, emit,
      io_lift, start.
    io_step.
    change (exists_in m gridfile_dir && exists_in m ai_dir && exists_in m config_path)
      with (initialized m).
    rewrite Hinit. io_step. unfold exists_in at 1.
    destruct (m !! layout_path_of m) as [n |] eqn:Hp; io_step.
    2: { intros _. discriminate. }
    rewrite json_load_run. io_step. rewrite Hp.
    destruct n as [| [d |]]; intros H Hn; inversion Hn; by rewrite <- H. }
  destruct (grid_reorganize now_iso now_stamp (start m)) as [r w] eqn:Hrun.
  pose proof (Hload r w eq_refl) as H1.
  split; [exact H1 |]. split; [apply layout_path_of_current |].
  intros Hcur. apply H1. rewrite layout_path_of_current; [exact Hcur |].
  rewrite Hcur. eauto.
Qed.

Lemma reorganize_unreadable_layout_witness :
  let m := <[initial_layout_path := File (Json (doc_with_blocks thirty_active))]>
             (<[current_layout_path := Dir]> project_fs) in
  (initialized m = true ∧ m !! current_layout_path = Some Dir)
  ∧ grid_reorganize "2024-05-01T10:00:00" "20240501-100000" (start m) =
      (Raise IsADirectoryError, {| fs := m; trace := [Print Info MsgReorganizing] |}).
Proof.
  intros m. split; [split; reflexivity |].
  exact (proj2 (proj2 (reorganize_unreadable_layout
           "2024-05-01T10:00:00" "20240501-100000" m eq_refl)) eq_refl).
Defined.

Lemma unplaced_count (blocks : list Block) :
  Forall (fun b => b_placed b = false ∧ b_position b = None) blocks →
  count_placed blocks = 0.
Proof.
  intros H. unfold count_placed. rewrite filter_none; [reflexivity |].
  eapply Forall_impl; [exact H |]. intros b [Hb _]. rewrite Hb. discriminate.
Qed.

(** The layout a reorganisation saves: it keeps the grid size and the
    zones of the layout read (or their defaults), carries the version
    ["1.0.0"] and the time stamp of the run; none of its blocks is
    placed, so that it counts no placed file, and it never has more
    blocks than the layout read; the final message reports as many
    placed blocks as that count. *)
Theorem reorganize_saved_layout (now_iso now_stamp : string)
    (m : gmap (list string) node) :
  let run := grid_reorganize now_iso now_stamp (start m) in
  current_layout_path ∈ dumps (trace run.2) →
  ∃ d l,
    m !! layout_path_of m = Some (File (Json d))
    ∧ fs run.2 !! current_layout_path = Some (File (Json (doc_of_layout l)))
    ∧ version l = "1.0.0" ∧ timestamp l = now_iso
    ∧ grid_size l = get_grid_size d ∧ zones l = get_zones d
    ∧ _reorganize_blocks (get_blocks d) (get_zones d) (get_grid_size d) = Ok (blocks l)
    ∧ Forall (fun b => b_placed b = false ∧ b_position b = None) (blocks l)
    ∧ placed_files (stats l) = 0
    ∧ total_files (stats l) ≤ len (get_blocks d)
    ∧ last (trace run.2) =
        Some (Print Success
                (improvement (count_placed (get_blocks d)) 0 (len (get_blocks d)))).
Proof.
  intros run. subst run.
  run_cases; simpl; intros Hin; try (apply elem_of_nil in Hin; contradiction).
  pose proof (reorganize_blocks_unplaced _ _ _ _ Hplace) as Hun.
  pose proof (unplaced_count _ Hun) as Hzero.
  exists d. eexists. split; [exact Hpath |]. split; [apply lookup_insert_eq |].
  simpl. repeat split; try assumption.
  - pose proof (reorganize_blocks_length _ _ _ _ Hplace) as Hlen.
    unfold len. lia.
  - by rewrite Hzero.
Qed.

Lemma reorganize_saved_layout_witness :
  let m := project_with_current (doc_with_blocks thirty_active) in
  let run := grid_reorganize "2024-05-01T10:00:00" "20240501-100000" (start m) in
  current_layout_path ∈ dumps (trace run.2)
  ∧ ∃ d l,
      m !! layout_path_of m = Some (File (Json d))
      ∧ fs run.2 !! current_layout_path = Some (File (Json (doc_of_layout l)))
      ∧ version l = "1.0.0" ∧ timestamp l = "2024-05-01T10:00:00"
      ∧ grid_size l = get_grid_size d ∧ zones l = get_zones d
      ∧ _reorganize_blocks (get_blocks d) (get_zones d) (get_grid_size d) = Ok (blocks l)
      ∧ Forall (fun b => b_placed b = false ∧ b_position b = None) (blocks l)
      ∧ placed_files (stats l) = 0
      ∧ total_files (stats l) ≤ len (get_blocks d)
      ∧ last (trace run.2) =
          Some (Print Success
                  (improvement (count_placed (get_blocks d)) 0 (len (get_blocks d)))).
Proof.
  intros m run.
  assert (Hin : current_layout_path ∈ dumps (trace run.2)).
  { vm_compute. constructor. }
  split; [exact Hin |].
  exact (reorganize_saved_layout "2024-05-01T10:00:00" "20240501-100000" m Hin).
Defined.

Lemma copy_target_not_setup m (p : Path) (now_stamp : string) :
  copy_target m p (backup_path now_stamp) ∉ [gridfile_dir; ai_dir; config_path].
Proof.
  destruct (copy_target_backup m p now_stamp) as [-> | ->];
    intros H; repeat (apply elem_of_cons in H as [H | H]; [discriminate |]);
    by apply elem_of_nil in H.
Qed.

Lemma initialized_insert m (p : Path) (n : node) :
  p ∉ [gridfile_dir; ai_dir; config_path] →
  initialized (<[p := n]> m) = initialized m.
Proof.
  intros Hp. unfold initialized.
  rewrite !exists_in_insert; [reflexivity | | |];
    intros Heq; apply Hp; rewrite <- Heq; repeat constructor.
Qed.

(** Two reorganisations in a row.  After a successful run the current
    layout is the layout that run saved, and the next run starts from
    it: it is initialised, finds the file, reads [current.json] and
    nothing else; if it saves a layout in turn, the backup it makes
    holds the layout saved by the first run. *)
Theorem reorganize_chain (now_iso1 now_stamp1 now_iso2 now_stamp2 : string)
    (m : gmap (list string) node) (w1 : World) :
  grid_reorganize now_iso1 now_stamp1 (start m) = (Ok true, w1) →
  let run2 := grid_reorganize now_iso2 now_stamp2 (start (fs w1)) in
  ∃ l1,
    fs w1 !! current_layout_path = Some (File (Json (doc_of_layout l1)))
    ∧ initialized (fs w1) = true
    ∧ layout_path_of (fs w1) = current_layout_path
    ∧ run2.1 ≠ Ok false
    ∧ loads (trace run2.2) = [current_layout_path]
    ∧ (current_layout_path ∈ dumps (trace run2.2) →
         fs run2.2 !! copy_target (fs w1) current_layout_path (backup_path now_stamp2)
           = Some (File (Json (doc_of_layout l1)))).
Proof.
  intros H1 run2. subst run2.
  apply grid_reorganize_outcome in H1. inversion H1; subst. clear H1.
  set (m1 := <[current_layout_path := _]> _).
  assert (Hcur : m1 !! current_layout_path =
            Some (File (Json (doc_of_layout
              (new_layout_of now_iso1 (get_grid_size d) (get_zones d) new_blocks)))))
    by apply lookup_insert_eq.
  assert (Hi1 : initialized m1 = true).
  { subst m1. rewrite !initialized_insert; [assumption | apply copy_target_not_setup |].
    intros H; repeat (apply elem_of_cons in H as [H | H]; [discriminate |]);
      by apply elem_of_nil in H. }
  assert (Hp1 : layout_path_of m1 = current_layout_path).
  { apply layout_path_of_current. rewrite Hcur. eauto. }
  eexists. split; [exact Hcur |]. split; [exact Hi1 |]. split; [exact Hp1 |].
  simpl fs. fold m1.
  run_cases; rewrite ?Hp1 in *; try congruence; try (destruct Hpath0; congruence).
  all: split; [discriminate |]; split; [reflexivity |].
  all: simpl; intros Hin; try (apply elem_of_nil in Hin; contradiction).
  rewrite lookup_insert_ne by (apply not_eq_sym, copy_target_not_current).
  rewrite lookup_insert_eq. congruence.
Qed.

Lemma reorganize_chain_witness :
  let m := project_with_current (doc_with_blocks thirty_active) in
  let w1 := (grid_reorganize "2024-05-01T10:00:00" "20240501-100000" (start m)).2 in
  let run2 := grid_reorganize "2024-05-01T10:05:00" "20240501-100500" (start (fs w1)) in
  grid_reorganize "2024-05-01T10:00:00" "20240501-100000" (start m) = (Ok true, w1)
  ∧ ∃ l1,
      fs w1 !! current_layout_path = Some (File (Json (doc_of_layout l1)))
      ∧ initialized (fs w1) = true
      ∧ layout_path_of (fs w1) = current_layout_path
      ∧ run2.1 ≠ Ok false
      ∧ loads (trace run2.2) = [current_layout_path]
      ∧ (current_layout_path ∈ dumps (trace run2.2) →
           fs run2.2 !! copy_target (fs w1) current_layout_path
                          (backup_path "20240501-100500")
             = Some (File (Json (doc_of_layout l1)))).
Proof.
  intros m w1 run2.
  assert (H1 : grid_reorganize "2024-05-01T10:00:00" "20240501-100000" (start m)
               = (Ok true, w1)) by (vm_compute; reflexivity).
  split; [exact H1 |].
  exact (reorganize_chain "2024-05-01T10:00:00" "20240501-100000"
           "2024-05-01T10:05:00" "20240501-100500" m w1 H1).
Defined.

(** ** Categories that share a zone *)













(** ** From the classifier to the zones *)

Lemma category_by_age_range (days : Z) :
  category_by_age days ∈ ["active"; "pending"; "archive"].
Proof.
  unfold category_by_age.
  destruct (days <? 7); [repeat constructor |].
  destruct (days <? 30); repeat constructor.
Qed.

Lemma analyze_file_category_range (now : Z) (f : FileEntry) :
  fi_category (_analyze_file now f) ∈ ["active"; "pending"; "archive"; "resources"].
Proof.
  unfold _analyze_file, special_category. cbn [fi_category].
  pose proof (category_by_age_range (timedelta_days now (st_mtime f))) as H.
  do 3 (match goal with |- context [if ?b then _ else _] => destruct b end;
        [repeat constructor |]).
  apply elem_of_cons in H as [-> | H]; [repeat constructor |].
  apply elem_of_cons in H as [-> | H]; [repeat constructor |].
  apply list_elem_of_singleton in H as ->. repeat constructor.
Qed.

(** The classifier only produces the four categories and the eight
    types, and each of the four categories is a key of the
    category-to-zone table: in a fresh layout built under the default
    configuration every block leads to a zone that exists and lies
    inside the grid, so that no group is skipped and no placement can
    raise when this layout is reorganised. *)
Theorem fresh_blocks_have_zones (clock : nat → Z) (now_iso : string)
    (files : list FileEntry) :
  let l := _create_initial_grid_layout default_config clock now_iso files in
  Forall (fun b =>
            b_category b ∈ ["active"; "pending"; "archive"; "resources"]
            ∧ b_type b ∈ ["code"; "document"; "config"; "image"; "web"; "database";
                          "archive"; "unknown"]
            ∧ is_Some (category_to_zone !! b_category b)
            ∧ ∃ zone, zones l !! dict_get category_to_zone (b_category b) "archive"
                        = Some zone
                      ∧ zone_inside zone (grid_size l))
    (blocks l)
  ∧ is_ok (_reorganize_blocks (blocks l) (zones l) (grid_size l)) = true.
Proof.
  intros l. subst l. split.
  - apply Forall_forall. intros b Hb. simpl in Hb.
    apply list_elem_of_lookup in Hb as [i Hb]. rewrite list_lookup_imap in Hb.
    destruct (files !! i) as [f |]; simpl in Hb; inversion Hb. subst b. clear Hb.
    cbn [b_category b_type block_of_file zones grid_size _create_initial_grid_layout
         default_config cfg_zones cfg_grid_size].
    pose proof (analyze_file_category_range (clock i) f) as Hc.
    split; [exact Hc |]. split.
    { unfold _analyze_file, file_type_of. simpl.
      repeat (match goal with |- context [if ?b then _ else _] => destruct b end;
              [repeat constructor |]).
      repeat constructor. }
    repeat (apply elem_of_cons in Hc as [-> | Hc]);
      try (by apply elem_of_nil in Hc);
      (split; [vm_compute; eauto |]);
      (eexists; split; [vm_compute; reflexivity |]);
      unfold zone_inside; simpl; lia.
  - destruct (reorganize_blocks_total
                (blocks (_create_initial_grid_layout default_config clock now_iso files))
                default_zones default_grid_size default_zones_nonneg) as [nb Hnb].
    simpl in *. by rewrite Hnb.
Qed.

(** ** The user service *)

Lemma mem_elem_of (x : string) (l : list string) : Str.mem x l = true ↔ x ∈ l.
Proof.
  unfold Str.mem. rewrite existsb_exists. split.
  - intros (y & Hin & Heq). apply String.eqb_eq in Heq. subst. by apply list_elem_of_In.
  - intros Hin. exists x. split; [by apply list_elem_of_In | apply String.eqb_refl].
Qed.

Lemma find_email_Some (e : string) (users : list Auth.User) (u : Auth.User) :
  Auth.find_email e users = Some u → u ∈ users ∧ Auth.email u = e.
Proof.
  induction users as [| v users IH]; simpl; [discriminate |].
  destruct (String.eqb_spec (Auth.email v) e) as [Heq | Hne].
  - intros H. inversion H; subst. split; [apply list_elem_of_here | reflexivity].
  - intros H. destruct (IH H) as [Hin He]. split; [by apply list_elem_of_further | exact He].
Qed.

Lemma find_email_None (e : string) (users : list Auth.User) :
  Auth.find_email e users = None ↔ e ∉ Auth.email <$> users.
Proof.
  induction users as [| v users IH]; simpl.
  - split; [intros _; apply not_elem_of_nil | reflexivity].
  - destruct (String.eqb_spec (Auth.email v) e) as [Heq | Hne].
    + split; [discriminate |]. intros H. exfalso. apply H. rewrite Heq. apply list_elem_of_here.
    + rewrite IH, not_elem_of_cons. split; [intros H; split; [congruence | exact H] | tauto].
Qed.

Lemma find_email_unique (e : string) (users : list Auth.User) (u : Auth.User) :
  NoDup (Auth.email <$> users) → u ∈ users → Auth.email u = e →
  Auth.find_email e users = Some u.
Proof.
  induction users as [| v users IH]; simpl; intros Hnd Hin He.
  - by apply elem_of_nil in Hin.
  - apply NoDup_cons in Hnd as [Hnin Hnd].
    apply elem_of_cons in Hin as [-> | Hin].
    + by rewrite He, String.eqb_refl.
    + destruct (String.eqb_spec (Auth.email v) e) as [Heq | Hne]; [| by apply IH].
      exfalso. apply Hnin. rewrite Heq, <- He. by apply list_elem_of_fmap_2.
Qed.

Lemma setitem_values (db : Auth.Db) (k : string) (v u : Auth.User) :
  u ∈ Auth.values (Auth.dict_setitem db k v) → u ∈ Auth.values db ∨ u = v.
Proof.
  unfold Auth.values. induction db as [| [k' v'] db IH]; simpl.
  - intros H%list_elem_of_singleton. by right.
  - destruct (String.eqb k' k); simpl; intros [-> | H]%elem_of_cons.
    + by right.
    + left. by apply list_elem_of_further.
    + left. apply list_elem_of_here.
    + destruct (IH H) as [Hin | ->]; [left; by apply list_elem_of_further | by right].
Qed.

Lemma setitem_value_in (db : Auth.Db) (k : string) (v : Auth.User) :
  v ∈ Auth.values (Auth.dict_setitem db k v).
Proof.
  unfold Auth.values. induction db as [| [k' v'] db IH]; simpl.
  - apply list_elem_of_here.
  - destruct (String.eqb k' k); simpl;
      [apply list_elem_of_here | by apply list_elem_of_further].
Qed.

Lemma setitem_emails_NoDup (db : Auth.Db) (k : string) (v : Auth.User) :
  NoDup (Auth.email <$> Auth.values db) →
  Auth.email v ∉ Auth.email <$> Auth.values db →
  NoDup (Auth.email <$> Auth.values (Auth.dict_setitem db k v)).
Proof.
  unfold Auth.values. induction db as [| [k' v'] db IH]; simpl; intros Hnd Hnin.
  - apply NoDup_singleton.
  - apply NoDup_cons in Hnd as [Hv' Hnd]. apply not_elem_of_cons in Hnin as [Hne Hnin].
    destruct (String.eqb k' k); simpl; apply NoDup_cons; split; auto.
    intros Hin. apply list_elem_of_fmap in Hin as (u & Hu & Hin).
    apply (setitem_values db k v u) in Hin as [Hin | ->]; [| congruence].
    apply Hv'. rewrite Hu. by apply list_elem_of_fmap_2.
Qed.

Lemma hash_injective (p p' : string) :
  Auth._hash_password p = Auth._hash_password p' → p = p'.
Proof. unfold Auth._hash_password. intros H. by inversion H. Qed.

(** No two users share an email address: [create_user] keeps this
    true whatever it is given and whatever id is drawn, also an id that
    is already in use. *)
Theorem create_user_unique_emails (uuid username email password : string)
    (db : Auth.Db) :
  NoDup (Auth.email <$> Auth.values db) →
  NoDup (Auth.email <$> Auth.values (Auth.create_user uuid username email password db).2).
Proof.
  intros Hnd. unfold Auth.create_user.
  destruct (Str.mem email (Auth.email <$> Auth.values db)) eqn:Hmem; [exact Hnd |].
  simpl. apply setitem_emails_NoDup; [exact Hnd |]. simpl.
  intros Hin. apply mem_elem_of in Hin. congruence.
Qed.

Lemma create_user_unique_emails_witness :
  let db := (Auth.create_user "id-1" "ann" "ann@example.com" "pw" []).2 in
  NoDup (Auth.email <$> Auth.values db)
  ∧ NoDup (Auth.email <$>
             Auth.values (Auth.create_user "id-1" "bob" "bob@example.com" "pw2" db).2).
Proof.
  intros db.
  assert (Hnd : NoDup (Auth.email <$> Auth.values db)) by (apply NoDup_singleton).
  split; [exact Hnd |].
  exact (create_user_unique_emails "id-1" "bob" "bob@example.com" "pw2" db Hnd).
Defined.

Lemma create_user_round_trip_aux (uuid username email password : string)
    (db : Auth.Db) :
  let r := Auth.create_user uuid username email password db in
  (email ∈ Auth.email <$> Auth.values db → r = (Auth.ValueError Auth.EmailInUse, db))
  ∧ (email ∉ Auth.email <$> Auth.values db →
       ∃ u, r.1 = Auth.Return u
            ∧ Auth.username u = username ∧ Auth.email u = email
            ∧ Auth.is_active u = true ∧ Auth.id u = uuid
            ∧ Auth.get_user_by_email email r.2 = Some u
            ∧ ∀ p, Auth.verify_password p (Auth.hashed_password u) = true ↔ p = password).
Proof.
  intros r. subst r. unfold Auth.create_user. split.
  - intros Hin. apply mem_elem_of in Hin. by rewrite Hin.
  - intros Hnin.
    destruct (Str.mem email (Auth.email <$> Auth.values db)) eqn:Hmem.
    { apply mem_elem_of in Hmem. contradiction. }
    eexists. split; [reflexivity |]. simpl. repeat split.
    + unfold Auth.get_user_by_email.
      match goal with |- Auth.find_email _ (Auth.values (Auth.dict_setitem _ _ ?v)) = _ =>
        set (nu := v) end.
      destruct (Auth.find_email email (Auth.values (Auth.dict_setitem db uuid nu)))
        as [u |] eqn:Hfind.
      * apply find_email_Some in Hfind as [Hin He].
        apply setitem_values in Hin as [Hin | ->]; [| reflexivity].
        exfalso. apply Hnin. rewrite <- He. by apply list_elem_of_fmap_2.
      * apply find_email_None in Hfind. exfalso. apply Hfind.
        apply (list_elem_of_fmap_2' Auth.email _ nu); [apply setitem_value_in | reflexivity].
    + unfold Auth.verify_password. intros H%String.eqb_eq. by apply hash_injective.
    + intros ->. apply String.eqb_refl.
Qed.

(** Creating a user and finding it again.  [create_user] raises
    [ValueError] exactly when a stored user has the email address, and
    then leaves the users as they are.  Otherwise it returns an active
    user with the given name and address and the id drawn, who is then
    the user found under the address, and whose stored hash is verified
    by the password given and by no other. *)
Theorem create_user_round_trip (uuid username email password : string)
    (db : Auth.Db) :
  let r := Auth.create_user uuid username email password db in
  (email ∈ Auth.email <$> Auth.values db → r = (Auth.ValueError Auth.EmailInUse, db))
  ∧ (email ∉ Auth.email <$> Auth.values db →
       ∃ u, r.1 = Auth.Return u
            ∧ Auth.username u = username ∧ Auth.email u = email
            ∧ Auth.is_active u = true ∧ Auth.id u = uuid
            ∧ Auth.get_user_by_email email r.2 = Some u
            ∧ ∀ p, Auth.verify_password p (Auth.hashed_password u) = true ↔ p = password).
Proof. apply create_user_round_trip_aux. Qed.

Lemma create_user_round_trip_witness :
  let r := Auth.create_user "id-1" "testuser" "test@example.com" "password123" [] in
  ("test@example.com" ∉ Auth.email <$> Auth.values [])
  ∧ ∃ u, r.1 = Auth.Return u
         ∧ Auth.username u = "testuser" ∧ Auth.email u = "test@example.com"
         ∧ Auth.is_active u = true ∧ Auth.id u = "id-1"
         ∧ Auth.get_user_by_email "test@example.com" r.2 = Some u
         ∧ ∀ p, Auth.verify_password p (Auth.hashed_password u) = true
                ↔ p = "password123".
Proof.
  intros r.
  assert (Hnin : "test@example.com" ∉ Auth.email <$> Auth.values [])
    by apply not_elem_of_nil.
  split; [exact Hnin |].
  exact (proj2 (create_user_round_trip "id-1" "testuser" "test@example.com"
                  "password123" []) Hnin).
Defined.

(** [get_user_by_email]: a user returned is a stored user with that
    address; [None] is returned exactly when no stored user has it; and
    as long as no two users share an address, every stored user is the
    one found under its address. *)
Theorem get_user_by_email_found (email : string) (db : Auth.Db) :
  (∀ u, Auth.get_user_by_email email db = Some u →
        u ∈ Auth.values db ∧ Auth.email u = email)
  ∧ (Auth.get_user_by_email email db = None ↔ email ∉ Auth.email <$> Auth.values db)
  ∧ (NoDup (Auth.email <$> Auth.values db) →
     Forall (fun u => Auth.get_user_by_email (Auth.email u) db = Some u)
       (Auth.values db)).
Proof.
  unfold Auth.get_user_by_email. split; [| split].
  - intros u. apply find_email_Some.
  - apply find_email_None.
  - intros Hnd. apply Forall_forall. intros u Hu. by apply find_email_unique.
Qed.

Lemma setitem_fresh (db : Auth.Db) (k : string) (v : Auth.User) :
  k ∉ db.*1 → Auth.dict_setitem db k v = (db ++ [(k, v)])%list.
Proof.
  induction db as [| [k' v'] db IH]; simpl; intros Hk; [reflexivity |].
  apply not_elem_of_cons in Hk as [Hne Hk].
  destruct (String.eqb_spec k' k) as [-> | _]; [contradiction |]. by rewrite IH.
Qed.

Lemma setitem_replaces (db : Auth.Db) (k : string) (v u0 : Auth.User) :
  NoDup db.*1 → NoDup (Auth.email <$> Auth.values db) →
  (k, u0) ∈ db → Auth.email v ∉ Auth.email <$> Auth.values db →
  Auth.email u0 ∉ Auth.email <$> Auth.values (Auth.dict_setitem db k v).
Proof.
  unfold Auth.values. induction db as [| [k' v'] db IH]; simpl; intros Hk He Hin Hv.
  - by apply elem_of_nil in Hin.
  - apply NoDup_cons in Hk as [Hk' Hk]. apply NoDup_cons in He as [He' He].
    apply not_elem_of_cons in Hv as [Hvv' Hv].
    destruct (String.eqb_spec k' k) as [-> | Hkk]; simpl.
    + assert (u0 = v') as ->.
      { apply elem_of_cons in Hin as [Heq | Hin]; [by inversion Heq |].
        exfalso. apply Hk'. apply list_elem_of_fmap. by exists (k, u0). }
      apply not_elem_of_cons. split; [congruence | exact He'].
    + apply elem_of_cons in Hin as [Heq | Hin]; [inversion Heq; congruence |].
      apply not_elem_of_cons. split; [| by apply IH].
      intros Heq. apply He'. rewrite <- Heq.
      apply list_elem_of_fmap. exists u0. split; [reflexivity |].
      apply list_elem_of_fmap. by exists (k, u0).
Qed.

(** The other users when one is created.  With an id that is not yet
    a key, the new user is added after the others, who are found under
    their addresses as before.  With an id that is already a key, the
    user stored under that id is replaced: nobody is found under the
    address of that user any more. *)
Theorem create_user_other_users (uuid username email password : string)
    (db : Auth.Db) :
  email ∉ Auth.email <$> Auth.values db →
  let db' := (Auth.create_user uuid username email password db).2 in
  (uuid ∉ db.*1 →
     (∃ u, db' = (db ++ [(uuid, u)])%list)
     ∧ ∀ e, e ≠ email → Auth.get_user_by_email e db' = Auth.get_user_by_email e db)
  ∧ (NoDup db.*1 → NoDup (Auth.email <$> Auth.values db) →
     ∀ u0, (uuid, u0) ∈ db →
       Auth.get_user_by_email (Auth.email u0) db = Some u0
       ∧ Auth.get_user_by_email (Auth.email u0) db' = None
       ∧ length db' = length db).
Proof.
  intros Hnin db'. subst db'. unfold Auth.create_user.
  destruct (Str.mem email (Auth.email <$> Auth.values db)) eqn:Hmem.
  { apply mem_elem_of in Hmem. contradiction. }
  simpl. split.
  - intros Hfresh. rewrite setitem_fresh by assumption. split; [eauto |].
    intros e He. unfold Auth.get_user_by_email, Auth.values.
    rewrite fmap_app. simpl. induction (db.*2) as [| u us IH]; simpl.
    + destruct (String.eqb_spec email e); [congruence | reflexivity].
    + destruct (String.eqb (Auth.email u) e); [reflexivity | exact IH].
  - intros Hk He u0 Hin. split; [| split].
    + unfold Auth.get_user_by_email. apply find_email_unique; [assumption | | reflexivity].
      apply list_elem_of_fmap. by exists (uuid, u0).
    + unfold Auth.get_user_by_email. apply find_email_None.
      by apply setitem_replaces.
    + clear -Hin. induction db as [| [k' v'] db IH]; simpl.
      * by apply elem_of_nil in Hin.
      * destruct (String.eqb_spec k' uuid) as [-> | Hne]; [reflexivity |].
        simpl. f_equal. apply IH.
        apply elem_of_cons in Hin as [Heq | Hin]; [inversion Heq; congruence | exact Hin].
Qed.

Lemma create_user_other_users_witness :
  let db := (Auth.create_user "id-1" "ann" "ann@example.com" "pw" []).2 in
  let db' := (Auth.create_user "id-1" "bob" "bob@example.com" "pw2" db).2 in
  ("bob@example.com" ∉ Auth.email <$> Auth.values db)
  ∧ Auth.get_user_by_email "ann@example.com" db' = None
  ∧ length db' = length db.
Proof.
  intros db db'.
  assert (Hnin : "bob@example.com" ∉ Auth.email <$> Auth.values db).
  { intros H%list_elem_of_singleton. discriminate. }
  split; [exact Hnin |].
  assert (Hk : NoDup db.*1) by apply NoDup_singleton.
  assert (He : NoDup (Auth.email <$> Auth.values db)) by apply NoDup_singleton.
  destruct (proj2 (create_user_other_users "id-1" "bob" "bob@example.com" "pw2" db Hnin)
              Hk He _ (list_elem_of_here _ _)) as (_ & Hgone & Hlen).
  split; [exact Hgone | exact Hlen].
Defined.

(** ** The views of the web front end *)

(** Registering and then logging in.  A registration with an address
    that is not in use redirects to the login page and flashes the
    success message; a login with that address then greets the user by
    name when the password is the one registered, and flashes the
    message of bad credentials for any other password.  Logging in does
    not change the users. *)
Theorem register_then_login (uuid username email password attempt : string)
    (form1 form2 : gmap string string) (st : App.State) :
  email ∉ Auth.email <$> Auth.values (App.db st) →
  form1 !! "username" = Some username → form1 !! "email" = Some email →
  form1 !! "password" = Some password →
  form2 !! "email" = Some email → form2 !! "password" = Some attempt →
  let r1 := App.register uuid {| App.method := App.POST; App.form := form1 |} st in
  let r2 := App.login {| App.method := App.POST; App.form := form2 |} r1.2 in
  r1.1 = App.Redirect "login"
  ∧ App.flashed r1.2 = (App.flashed st ++ [(App.Registered, App.success)])%list
  ∧ r2.1 = App.Redirect "login"
  ∧ App.db r2.2 = App.db r1.2
  ∧ App.flashed r2.2 =
      (App.flashed r1.2 ++
       [if decide (attempt = password)
        then (App.Welcome username, App.success)
        else (App.BadCredentials, App.error)])%list.
Proof.
  intros Hnin Hu He Hp He2 Hp2 r1 r2. subst r1 r2.
  unfold App.register. simpl. rewrite Hu, He, Hp.
  destruct (proj2 (create_user_round_trip_aux uuid username email password (App.db st))
              Hnin) as (u & Hr & Hname & Hmail & _ & _ & Hfind & Hverify).
  destruct (Auth.create_user uuid username email password (App.db st))
    as [[u' | e] db'] eqn:Hc; simpl in Hr; inversion Hr; subst u'. simpl in Hfind.
  simpl. split; [reflexivity |]. split; [reflexivity |].
  unfold App.login. simpl. rewrite He2, Hp2, Hfind.
  destruct (Auth.verify_password attempt (Auth.hashed_password u)) eqn:Hv.
  - apply Hverify in Hv. rewrite decide_True by assumption. rewrite Hname.
    repeat split; reflexivity.
  - rewrite decide_False; [repeat split; reflexivity |].
    intros Heq. apply Hverify in Heq. congruence.
Qed.

Lemma register_then_login_witness :
  let form1 : gmap string string :=
    {[ "username" := "testuser"; "email" := "test@example.com";
       "password" := "password123" ]} in
  let form2 : gmap string string :=
    {[ "email" := "test@example.com"; "password" := "wrongpassword" ]} in
  let st := {| App.db := []; App.flashed := [] |} in
  let r1 := App.register "id-1" {| App.method := App.POST; App.form := form1 |} st in
  let r2 := App.login {| App.method := App.POST; App.form := form2 |} r1.2 in
  ("test@example.com" ∉ Auth.email <$> Auth.values (App.db st))
  ∧ r1.1 = App.Redirect "login"
  ∧ App.flashed r2.2 =
      [(App.Registered, App.success); (App.BadCredentials, App.error)].
Proof.
  intros form1 form2 st r1 r2.
  assert (Hnin : "test@example.com" ∉ Auth.email <$> Auth.values (App.db st))
    by apply not_elem_of_nil.
  split; [exact Hnin |].
  destruct (register_then_login "id-1" "testuser" "test@example.com" "password123"
              "wrongpassword" form1 form2 st Hnin eq_refl eq_refl eq_refl eq_refl eq_refl)
    as (H1 & H2 & _ & _ & H5).
  split; [exact H1 |]. fold r1 in H2. fold r1 r2 in H5. rewrite H5, H2. reflexivity.
Defined.

(** What a registration refuses.  A request by [GET] shows the form; a
    [POST] without one of the three fields is answered with the response
    400; a [POST] with an address already in use redirects back to the
    form and flashes the text of the error.  None of them changes the
    users, and the first two flash nothing. *)
Theorem register_refused (uuid : string) (request : App.Request) (st : App.State) :
  let r := App.register uuid request st in
  (App.method request = App.GET →
     r = (App.RenderTemplate "register.html" None, st))
  ∧ (App.method request = App.POST →
     App.form request !! "username" = None ∨ App.form request !! "email" = None
     ∨ App.form request !! "password" = None →
     r = (App.BadRequest, st))
  ∧ (App.method request = App.POST →
     ∀ username email password,
       App.form request !! "username" = Some username →
       App.form request !! "email" = Some email →
       App.form request !! "password" = Some password →
       email ∈ Auth.email <$> Auth.values (App.db st) →
       r = (App.Redirect "register",
            App.flash (App.Failed Auth.EmailInUse) App.error st)).
Proof.
  intros r. subst r. unfold App.register. split; [| split].
  - intros ->. reflexivity.
  - intros -> Hmissing.
    destruct (App.form request !! "username") as [u |]; [| reflexivity].
    destruct (App.form request !! "email") as [e |]; [| reflexivity].
    destruct (App.form request !! "password") as [p |]; [| reflexivity].
    destruct Hmissing as [H | [H | H]]; discriminate.
  - intros -> username email password -> -> -> Hin.
    unfold Auth.create_user. apply mem_elem_of in Hin. rewrite Hin.
    destruct st. reflexivity.
Qed.

Lemma register_refused_witness :
  let st := (App.register "id-1"
               {| App.method := App.POST;
                  App.form := {[ "username" := "ann"; "email" := "ann@example.com";
                                 "password" := "pw" ]} |}
               {| App.db := []; App.flashed := [] |}).2 in
  let request := {| App.method := App.POST;
                    App.form := {[ "username" := "eve"; "email" := "ann@example.com";
                                   "password" := "pw2" ]} |} in
  ("ann@example.com" ∈ Auth.email <$> Auth.values (App.db st))
  ∧ App.register "id-2" request st =
      (App.Redirect "register", App.flash (App.Failed Auth.EmailInUse) App.error st).
Proof.
  intros st request.
  assert (Hin : "ann@example.com" ∈ Auth.email <$> Auth.values (App.db st))
    by apply list_elem_of_here.
  split; [exact Hin |].
  exact (proj2 (proj2 (register_refused "id-2" request st)) eq_refl
           "eve" "ann@example.com" "pw2" eq_refl eq_refl eq_refl Hin).
Defined.

(** A login never changes the users, and a failed login tells nothing
    about the reason: for an unknown address and for a wrong password
    the answer and the message flashed are the same. *)
Theorem login_failure_uniform (request : App.Request) (st : App.State)
    (email password : string) :
  App.db (App.login request st).2 = App.db st
  ∧ (App.method request = App.POST →
     App.form request !! "email" = Some email →
     App.form request !! "password" = Some password →
     (∀ u, Auth.get_user_by_email email (App.db st) = Some u →
           Auth.hashed_password u ≠ Auth._hash_password password) →
     App.login request st =
       (App.Redirect "login", App.flash App.BadCredentials App.error st)).
Proof.
  split.
  - unfold App.login. destruct (App.method request); [reflexivity |].
    destruct (App.form request !! "email") as [e |]; [| reflexivity].
    destruct (App.form request !! "password") as [p |]; [| reflexivity].
    destruct (Auth.get_user_by_email e (App.db st)) as [u |]; [| reflexivity].
    destruct (Auth.verify_password p (Auth.hashed_password u)); reflexivity.
  - intros Hm He Hp Hbad. unfold App.login. rewrite Hm, He, Hp.
    destruct (Auth.get_user_by_email email (App.db st)) as [u |] eqn:Hu; [| reflexivity].
    destruct (Auth.verify_password password (Auth.hashed_password u)) eqn:Hv;
      [| reflexivity].
    apply String.eqb_eq in Hv. exfalso. by apply (Hbad u).
Qed.

Lemma login_failure_uniform_witness :
  let st := {| App.db := []; App.flashed := [] |} in
  let request := {| App.method := App.POST;
                    App.form := {[ "email" := "nobody@example.com";
                                   "password" := "pw" ]} |} in
  App.login request st =
    (App.Redirect "login", App.flash App.BadCredentials App.error st).
Proof.
  intros st request.
  apply (proj2 (login_failure_uniform request st "nobody@example.com" "pw"));
    try reflexivity.
  intros u Hu. discriminate.
Defined.

(** ** The grid view *)

Lemma grid_view_run (st : App.State) (m : gmap (list string) node) :
  App.grid_view st (start m) =
  match m !! layout_path_of m with
  | None =>
    (Ok (App.Redirect "login", App.flash App.NoLayout App.error st), start m)
  | Some Dir => (Raise IsADirectoryError, start m)
  | Some (File Other) => (Raise JSONDecodeError, start m)
  | Some (File (Json d)) =>
    (Ok (App.RenderTemplate "grid.html" (Some d), st),
     {| fs := m; trace := [Load (layout_path_of m)] |})
  end.
Proof.
  unfold App.grid_view, path_exists.
  unfold io_bind, get_fs, io_ret, start. io_step.
  unfold exists_in at 1.
  destruct (m !! layout_path_of m) as [[| [d |]] |] eqn:Hp; io_step;
    rewrite ?json_load_run; io_step; rewrite ?Hp; reflexivity.
Qed.

(** The grid view chooses its layout file as the reorganisation does,
    the current layout when it is there and the initial one otherwise.
    It never writes: the file system is left as it is.  It renders the
    document of the chosen file as it stands; without any layout file it
    flashes an error and redirects to the login page; a chosen path that
    is a directory makes it raise. *)
Theorem grid_view_reads (st : App.State) (m : gmap (list string) node) :
  let run := App.grid_view st (start m) in
  fs run.2 = m
  ∧ dumps (trace run.2) = [] ∧ copies (trace run.2) = []
  ∧ match m !! layout_path_of m with
    | None =>
      run.1 = Ok (App.Redirect "login", App.flash App.NoLayout App.error st)
      ∧ loads (trace run.2) = []
    | Some (File (Json d)) =>
      run.1 = Ok (App.RenderTemplate "grid.html" (Some d), st)
      ∧ loads (trace run.2) = [layout_path_of m]
    | Some Dir => run.1 = Raise IsADirectoryError
    | Some (File Other) => True
    end.
Proof.
  intros run. subst run. rewrite grid_view_run.
  destruct (m !! layout_path_of m) as [[| [d |]] |]; repeat split; reflexivity.
Qed.

(** After a successful reorganisation the grid view renders the layout
    that the reorganisation has just saved. *)
Theorem grid_view_after_reorganize (now_iso now_stamp : string)
    (m : gmap (list string) node) (w1 : World) (st : App.State) :
  grid_reorganize now_iso now_stamp (start m) = (Ok true, w1) →
  ∃ l, fs w1 !! current_layout_path = Some (File (Json (doc_of_layout l)))
       ∧ (App.grid_view st (start (fs w1))).1 =
           Ok (App.RenderTemplate "grid.html" (Some (doc_of_layout l)), st).
Proof.
  intros H1. apply grid_reorganize_outcome in H1. inversion H1; subst. clear H1.
  set (m1 := <[current_layout_path := _]> _).
  assert (Hcur : m1 !! current_layout_path =
            Some (File (Json (doc_of_layout
              (new_layout_of now_iso (get_grid_size d) (get_zones d) new_blocks)))))
    by apply lookup_insert_eq.
  eexists. split; [exact Hcur |]. simpl fs. fold m1.
  assert (Hp1 : layout_path_of m1 = current_layout_path).
  { apply layout_path_of_current. rewrite Hcur. eauto. }
  rewrite grid_view_run, Hp1, Hcur. reflexivity.
Qed.

Lemma grid_view_after_reorganize_witness :
  let m := project_with_current (doc_with_blocks thirty_active) in
  let st := {| App.db := []; App.flashed := [] |} in
  let w1 := (grid_reorganize "2024-05-01T10:00:00" "20240501-100000" (start m)).2 in
  grid_reorganize "2024-05-01T10:00:00" "20240501-100000" (start m) = (Ok true, w1)
  ∧ ∃ l, fs w1 !! current_layout_path = Some (File (Json (doc_of_layout l)))
         ∧ (App.grid_view st (start (fs w1))).1 =
             Ok (App.RenderTemplate "grid.html" (Some (doc_of_layout l)), st).
Proof.
  intros m st w1.
  assert (H1 : grid_reorganize "2024-05-01T10:00:00" "20240501-100000" (start m)
               = (Ok true, w1)) by (vm_compute; reflexivity).
  split; [exact H1 |].
  exact (grid_view_after_reorganize "2024-05-01T10:00:00" "20240501-100000" m w1 st H1).
Defined.

(** ** The feature ledgers *)

Lemma length_append_md (n : string) :
  String.length (n ++ ".md") = S (S (S (String.length n))).
Proof.
  induction n as [| c n IH]; [reflexivity |].
  rewrite append_cons. simpl. by rewrite IH.
Qed.

Lemma substring_append (n s : string) :
  String.substring 0 (String.length n) (n ++ s) = n.
Proof.
  induction n as [| c n IH].
  - rewrite append_nil. simpl. by destruct s.
  - rewrite append_cons. simpl. by rewrite IH.
Qed.

Lemma substring_skip (n s : string) :
  String.substring (String.length n) (String.length s) (n ++ s) = s.
Proof.
  induction n as [| c n IH].
  - rewrite append_nil. simpl. induction s as [| c s IHs]; [reflexivity |].
    simpl. by rewrite IHs.
  - rewrite append_cons. simpl. exact IH.
Qed.

Lemma endswith_md (n : string) : Str.endswith (n ++ ".md") ".md" = true.
Proof.
  unfold Str.endswith. rewrite length_append_md.
  change (String.length ".md") with 3%nat.
  replace (S (S (S (String.length n))) - 3)%nat with (String.length n) by lia.
  change 3%nat with (String.length ".md") at 2.
  rewrite substring_skip. reflexivity.
Qed.

Lemma append_md_inj (a b : string) : a ++ ".md" = b ++ ".md" → a = b.
Proof.
  revert b. induction a as [| c a IH]; intros [| c' b] H.
  - reflexivity.
  - apply (f_equal String.length) in H. rewrite append_nil, length_append_md in H.
    simpl in H. lia.
  - apply (f_equal String.length) in H. rewrite append_nil, length_append_md in H.
    simpl in H. lia.
  - rewrite !append_cons in H. inversion H. f_equal. by apply IH.
Qed.

Lemma md_stem_append (n : string) : n ≠ "" → Ledger.md_stem (n ++ ".md") = n.
Proof.
  intros Hn. unfold Ledger.md_stem.
  destruct (String.eqb (n ++ ".md") ".md") eqn:E.
  - apply String.eqb_eq in E. change ".md" with ("" ++ ".md") in E at 2.
    apply append_md_inj in E. contradiction.
  - rewrite length_append_md.
    replace (S (S (S (String.length n))) - 3)%nat with (String.length n) by lia.
    apply substring_append.
Qed.

Lemma parent_ledger_in (dir : Path) (n : string) :
  parent (Ledger.ledger_in dir n) = dir.
Proof. unfold parent, Ledger.ledger_in. apply removelast_last. Qed.

Lemma walk_mono (m m' : gmap (list string) Ledger.entry) (dir rest : Path) :
  (∀ k, m !! k = Some Ledger.Folder → m' !! k = Some Ledger.Folder) →
  Ledger.walk m dir rest = Ledger.Returns tt →
  Ledger.walk m' dir rest = Ledger.Returns tt.
Proof.
  intros Hm. revert dir. induction rest as [| c rest IH]; intros dir H; [reflexivity |].
  simpl in *. destruct (m !! (dir ++ [c])%list) as [[| t] |] eqn:E; try discriminate.
  rewrite (Hm _ E). by apply IH.
Qed.

Lemma walk_app (m : gmap (list string) Ledger.entry) (dir a b : Path) :
  Ledger.walk m dir (a ++ b) = Ledger.Returns tt →
  Ledger.walk m dir a = Ledger.Returns tt.
Proof.
  revert dir. induction a as [| c a IH]; intros dir H; [reflexivity |].
  simpl in *. destruct (m !! (dir ++ [c])%list) as [[| t] |]; try discriminate.
  by apply IH.
Qed.

Lemma present_frame (m m' : gmap (list string) Ledger.entry) (p : Path) :
  (∀ k, m !! k = Some Ledger.Folder → m' !! k = Some Ledger.Folder) →
  (is_Some (m !! p) → is_Some (m' !! p)) →
  Ledger.present m p = true → Ledger.present m' p = true.
Proof.
  intros Hm Hp. unfold Ledger.present, Ledger.stat.
  destruct (Ledger.walk m [] (parent p)) as [[] | e] eqn:Hw; [| discriminate].
  rewrite (walk_mono m m' _ _ Hm Hw).
  destruct (m !! p) as [x |] eqn:E; [| discriminate].
  destruct Hp as [y Hy]; [eauto |]. by rewrite Hy.
Qed.

Lemma elem_of_glob_md (m : gmap (list string) Ledger.entry) (dir : Path) (n : string) :
  Ledger.walk m [] dir = Ledger.Returns tt →
  n ∈ Ledger.glob_md m dir ↔
  is_Some (m !! (dir ++ [n])%list) ∧ Str.endswith n ".md" = true.
Proof.
  intros Hw. unfold Ledger.glob_md. rewrite Hw. rewrite list_elem_of_omap. split.
  - intros ([k x] & Hin & Hf). apply elem_of_map_to_list in Hin. simpl in Hf.
    unfold Ledger.child_of in Hf. destruct (last k) as [name |]; [| discriminate].
    case_bool_decide as Hk; [| discriminate].
    destruct (Str.endswith name ".md") eqn:He; [| discriminate].
    inversion Hf; subst. split; [eauto | exact He].
  - intros [[x Hx] He]. exists ((dir ++ [n])%list, x). split.
    + by apply elem_of_map_to_list.
    + simpl. unfold Ledger.child_of. rewrite last_snoc.
      rewrite bool_decide_eq_true_2 by reflexivity. by rewrite He.
Qed.

Lemma ledger_path_length (dir : Path) (n : string) :
  length (Ledger.ledger_in dir n) = S (length dir).
Proof. unfold Ledger.ledger_in. rewrite length_app. simpl. lia. Qed.

Lemma ready_insert_text (m : gmap (list string) Ledger.entry) (p : Path) (t : string) :
  Ledger.ready m → m !! p ≠ Some Ledger.Folder →
  Ledger.ready (<[p := Ledger.Text t]> m).
Proof.
  intros (Hi & Ha & Hr & Hd) Hp.
  assert (Hm : ∀ k, m !! k = Some Ledger.Folder →
                    <[p := Ledger.Text t]> m !! k = Some Ledger.Folder).
  { intros k Hk. rewrite lookup_insert_ne; [exact Hk | congruence]. }
  assert (Hs : ∀ q, is_Some (m !! q) → is_Some (<[p := Ledger.Text t]> m !! q)).
  { intros q Hq. destruct (decide (p = q)) as [-> | Hne].
    - rewrite lookup_insert_eq. eauto.
    - by rewrite lookup_insert_ne. }
  repeat split.
  - unfold Ledger.initialized in *.
    apply andb_true_iff in Hi as [Hi H3]. apply andb_true_iff in Hi as [H1 H2].
    rewrite !(present_frame m _ _ Hm (Hs _)); done.
  - by apply (walk_mono m).
  - by apply (walk_mono m).
  - destruct (decide (p = Ledger.dashboard_path)) as [-> | Hne].
    + rewrite lookup_insert_eq. discriminate.
    + by rewrite lookup_insert_ne.
Qed.

Lemma ready_delete_ledger (m : gmap (list string) Ledger.entry) (n : string) :
  Ledger.ready m → m !! Ledger.ledger_in Ledger.active_dir n ≠ Some Ledger.Folder →
  Ledger.ready (delete (Ledger.ledger_in Ledger.active_dir n) m).
Proof.
  intros (Hi & Ha & Hr & Hd) Hp. set (p := Ledger.ledger_in Ledger.active_dir n) in *.
  assert (Hm : ∀ k, m !! k = Some Ledger.Folder → delete p m !! k = Some Ledger.Folder).
  { intros k Hk. rewrite lookup_delete_ne; [exact Hk | congruence]. }
  assert (Hs : ∀ q, length q ≠ 4%nat → is_Some (m !! q) → is_Some (delete p m !! q)).
  { intros q Hq Hsome. rewrite lookup_delete_ne; [exact Hsome |].
    intros <-. apply Hq. apply ledger_path_length. }
  repeat split.
  - unfold Ledger.initialized in *.
    apply andb_true_iff in Hi as [Hi H3]. apply andb_true_iff in Hi as [H1 H2].
    rewrite !(present_frame m (delete p m) _ Hm); try done; apply Hs; discriminate.
  - by apply (walk_mono m).
  - by apply (walk_mono m).
  - rewrite lookup_delete_ne; [exact Hd |]. intros Heq.
    apply (f_equal length) in Heq. subst p. rewrite ledger_path_length in Heq.
    discriminate.
Qed.

Lemma present_ledger (m : gmap (list string) Ledger.entry) (dir : Path) (n : string) :
  Ledger.walk m [] dir = Ledger.Returns tt →
  Ledger.stat m (Ledger.ledger_in dir n) =
    match m !! Ledger.ledger_in dir n with
    | Some e => Ledger.Returns e
    | None => Ledger.Raises Ledger.FileNotFoundError
    end.
Proof. intros Hw. unfold Ledger.stat. by rewrite parent_ledger_in, Hw. Qed.

Ltac ledger_step :=
  unfold Ledger.bind;
  cbn [Ledger.get_files Ledger.put_files Ledger.ret Ledger.raise
       Ledger.log Ledger.files Ledger.console negb].

Section LedgerRuns.

Variable ledger_content : string → string → Z → Z → string.
Variable dashboard_content : list string → Z → Z → string.
Variable archive_info : Z → string.

Lemma update_dashboard_run (debug_mode : bool) (t1 t2 : Z)
    (m : gmap (list string) Ledger.entry) (out : list (Ledger.severity * Ledger.line)) :
  Ledger.ready m →
  Ledger._update_active_dashboard dashboard_content debug_mode t1 t2
    {| Ledger.files := m; Ledger.console := out |} =
  (Ledger.Returns tt,
   {| Ledger.files :=
        <[Ledger.dashboard_path :=
            Ledger.Text (dashboard_content (Ledger.active_features m) t1 t2)]> m;
      Ledger.console :=
        (out ++ if debug_mode then [(Ledger.debug, Ledger.DashboardUpdated)] else [])%list
   |}).
Proof.
  intros (Hi & Ha & Hr & Hd).
  apply (walk_app m [] [".ai"; "ledgers"] ["active"]) in Ha.
  unfold Ledger._update_active_dashboard, Ledger.write_text, Ledger.bind,
    Ledger.get_files, Ledger._log_debug.
  cbn [Ledger.files]. change (parent Ledger.dashboard_path) with [".ai"; "ledgers"].
  rewrite Ha.
  destruct (m !! Ledger.dashboard_path) as [[| t] |] eqn:E; [congruence | |];
    destruct debug_mode; cbn; by rewrite ?app_nil_r.
Qed.

Lemma create_feature_run (debug_mode : bool) (t1 t2 t3 t4 : Z)
    (feature_name description : string) (skip : bool)
    (m : gmap (list string) Ledger.entry) :
  Ledger.ready m →
  let name := if negb skip then Ledger.replace_dash feature_name else feature_name in
  let path := Ledger.ledger_in Ledger.active_dir name in
  Ledger.create_feature ledger_content dashboard_content debug_mode t1 t2 t3 t4
    feature_name description skip (Ledger.start m) =
  match m !! path with
  | Some _ =>
    (Ledger.Returns (Some path),
     {| Ledger.files := m;
        Ledger.console := [(Ledger.warning, Ledger.AlreadyExists name)] |})
  | None =>
    let m1 := <[path := Ledger.Text (ledger_content name description t1 t2)]> m in
    (Ledger.Returns (Some path),
     {| Ledger.files :=
          <[Ledger.dashboard_path :=
              Ledger.Text (dashboard_content (Ledger.active_features m1) t3 t4)]> m1;
        Ledger.console :=
          ([(Ledger.info, Ledger.Starting name)]
           ++ (if debug_mode then [(Ledger.debug, Ledger.DashboardUpdated)] else [])
           ++ [(Ledger.success, Ledger.Created name path)])%list |})
  end.
Proof.
  intros Hready name path. pose proof Hready as (Hi & Ha & Hr & Hd).
  assert (Hstat := present_ledger m Ledger.active_dir name Ha). fold path in Hstat.
  assert (Hpar : parent path = Ledger.active_dir) by apply parent_ledger_in.
  unfold Ledger.create_feature, Ledger.is_initialized, Ledger.path_exists, Ledger.start.
  ledger_step. rewrite Hi. ledger_step. fold name. fold path.
  unfold Ledger.present. rewrite Hstat.
  destruct (m !! path) as [e |] eqn:Hp; ledger_step; [reflexivity |].
  unfold Ledger.write_text. ledger_step. rewrite Hpar, Ha, Hp. ledger_step.
  rewrite update_dashboard_run.
  2: { apply ready_insert_text; [exact Hready | by rewrite Hp]. }
  ledger_step. by rewrite <- app_assoc.
Qed.

Lemma list_features_run (include_archived : bool) (m : gmap (list string) Ledger.entry) :
  Ledger.initialized m = true →
  Ledger.list_features include_archived (Ledger.start m) =
  (Ledger.Returns (Ledger.features_of m include_archived), Ledger.start m).
Proof.
  intros Hi. unfold Ledger.list_features, Ledger.is_initialized, Ledger.start.
  ledger_step. rewrite Hi. reflexivity.
Qed.

End LedgerRuns.

Lemma write_text_run (p : Path) (text : string) (m : gmap (list string) Ledger.entry)
    (out : list (Ledger.severity * Ledger.line)) :
  Ledger.walk m [] (parent p) = Ledger.Returns tt →
  Ledger.write_text p text {| Ledger.files := m; Ledger.console := out |} =
  match m !! p with
  | Some Ledger.Folder =>
    (Ledger.Raises Ledger.IsADirectoryError,
     {| Ledger.files := m; Ledger.console := out |})
  | _ =>
    (Ledger.Returns tt,
     {| Ledger.files := <[p := Ledger.Text text]> m; Ledger.console := out |})
  end.
Proof.
  intros Hw. unfold Ledger.write_text. ledger_step. rewrite Hw.
  by destruct (m !! p) as [[| c] |].
Qed.

Lemma unlink_run (p : Path) (content : string) (m : gmap (list string) Ledger.entry)
    (out : list (Ledger.severity * Ledger.line)) :
  Ledger.stat m p = Ledger.Returns (Ledger.Text content) →
  Ledger.unlink p {| Ledger.files := m; Ledger.console := out |} =
  (Ledger.Returns tt, {| Ledger.files := delete p m; Ledger.console := out |}).
Proof. intros Hs. unfold Ledger.unlink. ledger_step. by rewrite Hs. Qed.

Section LedgerArchive.

Variable dashboard_content : list string → Z → Z → string.
Variable archive_info : Z → string.

Lemma archive_feature_run (debug_mode : bool) (t1 t2 t3 : Z) (feature_name : string)
    (m : gmap (list string) Ledger.entry) :
  Ledger.ready m →
  let name := Ledger.replace_dash feature_name in
  let act := Ledger.ledger_in Ledger.active_dir name in
  let arc := Ledger.ledger_in Ledger.archived_dir name in
  Ledger.archive_feature dashboard_content archive_info debug_mode t1 t2 t3
    feature_name (Ledger.start m) =
  match m !! act with
  | None =>
    (Ledger.Returns false,
     {| Ledger.files := m;
        Ledger.console := [(Ledger.error, Ledger.FeatureNotFound name)] |})
  | Some Ledger.Folder =>
    (Ledger.Raises Ledger.IsADirectoryError,
     {| Ledger.files := m;
        Ledger.console := [(Ledger.info, Ledger.Archiving name)] |})
  | Some (Ledger.Text content) =>
    match m !! arc with
    | Some Ledger.Folder =>
      (Ledger.Raises Ledger.IsADirectoryError,
       {| Ledger.files := m;
          Ledger.console := [(Ledger.info, Ledger.Archiving name)] |})
    | _ =>
      let m2 := delete act (<[arc := Ledger.Text (content ++ archive_info t1)]> m) in
      (Ledger.Returns true,
       {| Ledger.files :=
            <[Ledger.dashboard_path :=
                Ledger.Text (dashboard_content (Ledger.active_features m2) t2 t3)]> m2;
          Ledger.console :=
            ([(Ledger.info, Ledger.Archiving name)]
             ++ (if debug_mode then [(Ledger.debug, Ledger.DashboardUpdated)] else [])
             ++ [(Ledger.success, Ledger.Archived name)])%list |})
    end
  end.
Proof.
  intros Hready name act arc. pose proof Hready as (Hi & Ha & Hr & Hd).
  assert (Hstat := present_ledger m Ledger.active_dir name Ha). fold act in Hstat.
  assert (Hpar : parent arc = Ledger.archived_dir) by apply parent_ledger_in.
  assert (Hne : act ≠ arc).
  { unfold act, arc, Ledger.ledger_in. simpl. congruence. }
  unfold Ledger.archive_feature, Ledger.is_initialized, Ledger.path_exists, Ledger.start.
  ledger_step. rewrite Hi. ledger_step. fold name. fold act. fold arc.
  unfold Ledger.present. rewrite Hstat.
  destruct (m !! act) as [[| content] |] eqn:Hact; ledger_step; [| | reflexivity].
  - unfold Ledger.read_text. ledger_step. rewrite Hstat, ?Hact. reflexivity.
  - unfold Ledger.read_text. ledger_step. rewrite Hstat, ?Hact. ledger_step.
    rewrite write_text_run by (by rewrite Hpar).
    destruct (m !! arc) as [[| old] |] eqn:Harc; [reflexivity | |].
    all: set (m1 := <[arc := Ledger.Text (content ++ archive_info t1)]> m).
    all: assert (Hready1 : Ledger.ready m1)
           by (apply ready_insert_text; [exact Hready | by rewrite Harc]).
    all: assert (Hact1 : m1 !! act = Some (Ledger.Text content))
           by (unfold m1; by rewrite lookup_insert_ne).
    all: rewrite (unlink_run act content)
           by (unfold act; rewrite present_ledger by apply Hready1;
               fold act; by rewrite Hact1).
    all: rewrite update_dashboard_run
           by (apply ready_delete_ledger; [exact Hready1 | fold act; by rewrite Hact1]).
    all: ledger_step; by rewrite <- app_assoc.
Qed.

End LedgerArchive.

Lemma glob_md_present (m : gmap (list string) Ledger.entry) (dir : Path) (n : string) :
  n ∈ Ledger.glob_md m dir →
  is_Some (m !! (dir ++ [n])%list) ∧ Str.endswith n ".md" = true.
Proof.
  destruct (Ledger.walk m [] dir) as [[] | e] eqn:Hw.
  - by apply elem_of_glob_md.
  - unfold Ledger.glob_md. rewrite Hw. by intros ?%elem_of_nil.
Qed.

Lemma active_listed (m : gmap (list string) Ledger.entry) (b : bool) (n : string) :
  Ledger.walk m [] Ledger.active_dir = Ledger.Returns tt →
  is_Some (m !! Ledger.ledger_in Ledger.active_dir n) →
  n ≠ "" → n ≠ "_active" →
  {| Ledger.f_name := n; Ledger.f_status := "active";
     Ledger.f_path := Ledger.ledger_in Ledger.active_dir n |} ∈ Ledger.features_of m b.
Proof.
  intros Hw Hsome Hn Hact. unfold Ledger.features_of. apply elem_of_app. left.
  apply list_elem_of_fmap. exists (n ++ ".md"). split.
  - by rewrite md_stem_append.
  - apply list_elem_of_In, filter_In. split.
    + apply list_elem_of_In, elem_of_glob_md; [exact Hw |].
      split; [exact Hsome | apply endswith_md].
    + apply negb_true_iff, String.eqb_neq. intros Heq.
      change "_active.md" with ("_active" ++ ".md") in Heq.
      by apply append_md_inj in Heq.
Qed.

Lemma archived_listed (m : gmap (list string) Ledger.entry) (n : string) :
  Ledger.walk m [] Ledger.archived_dir = Ledger.Returns tt →
  is_Some (m !! Ledger.ledger_in Ledger.archived_dir n) →
  n ≠ "" →
  {| Ledger.f_name := n; Ledger.f_status := "archived";
     Ledger.f_path := Ledger.ledger_in Ledger.archived_dir n |}
    ∈ Ledger.features_of m true.
Proof.
  intros Hw Hsome Hn. unfold Ledger.features_of. apply elem_of_app. right.
  apply list_elem_of_fmap. exists (n ++ ".md"). split.
  - by rewrite md_stem_append.
  - apply elem_of_glob_md; [exact Hw |]. split; [exact Hsome | apply endswith_md].
Qed.

Lemma listed_present (m : gmap (list string) Ledger.entry) (b : bool)
    (f : Ledger.Feature) :
  f ∈ Ledger.features_of m b → is_Some (m !! Ledger.f_path f).
Proof.
  unfold Ledger.features_of. intros [H | H]%elem_of_app.
  - apply list_elem_of_fmap in H as (n & -> & Hn).
    apply list_elem_of_In, filter_In in Hn as [Hn _].
    apply list_elem_of_In, glob_md_present in Hn as [Hn _]. exact Hn.
  - destruct b; [| by apply elem_of_nil in H].
    apply list_elem_of_fmap in H as (n & -> & Hn).
    apply glob_md_present in Hn as [Hn _]. exact Hn.
Qed.

Lemma ledger_in_dashboard (dir : Path) (n : string) :
  length dir = 3%nat → Ledger.ledger_in dir n ≠ Ledger.dashboard_path.
Proof.
  intros Hl Heq. apply (f_equal length) in Heq.
  rewrite ledger_path_length, Hl in Heq. discriminate.
Qed.

(** Starting a feature.  In a project that is ready, [create_feature]
    returns the path of the ledger of the normalised name.  Without
    such a ledger it writes one with the text for this name and
    description and rewrites the dashboard, leaving every other path as
    it is; a ledger that is there is kept and nothing is written.
    Afterwards the feature is listed as active under its name and
    path, and starting it again only warns. *)
Theorem create_feature_listed
    (ledger_content : string → string → Z → Z → string)
    (dashboard_content : list string → Z → Z → string)
    (debug_mode : bool) (t1 t2 t3 t4 : Z) (feature_name description : string)
    (skip : bool) (m : gmap (list string) Ledger.entry) :
  Ledger.ready m →
  Ledger.single_component feature_name →
  let name := if negb skip then Ledger.replace_dash feature_name else feature_name in
  let path := Ledger.ledger_in Ledger.active_dir name in
  name ≠ "" → name ≠ "_active" →
  let run := Ledger.create_feature ledger_content dashboard_content debug_mode
               t1 t2 t3 t4 feature_name description skip (Ledger.start m) in
  run.1 = Ledger.Returns (Some path)
  ∧ Ledger.files run.2 !! path =
      Some (default (Ledger.Text (ledger_content name description t1 t2)) (m !! path))
  ∧ (∀ q, q ≠ path → q ≠ Ledger.dashboard_path → Ledger.files run.2 !! q = m !! q)
  ∧ (is_Some (m !! path) → Ledger.files run.2 = m)
  ∧ (∃ features,
       (Ledger.list_features false (Ledger.start (Ledger.files run.2))).1
         = Ledger.Returns features
       ∧ {| Ledger.f_name := name; Ledger.f_status := "active";
            Ledger.f_path := path |} ∈ features)
  ∧ ∀ debug_mode' t1' t2' t3' t4' description',
      Ledger.create_feature ledger_content dashboard_content debug_mode'
        t1' t2' t3' t4' feature_name description' skip
        (Ledger.start (Ledger.files run.2)) =
      (Ledger.Returns (Some path),
       {| Ledger.files := Ledger.files run.2;
          Ledger.console := [(Ledger.warning, Ledger.AlreadyExists name)] |}).
Proof.
  intros Hready _ name path Hname Hactive run.
  pose proof (create_feature_run ledger_content dashboard_content debug_mode
                t1 t2 t3 t4 feature_name description skip m Hready) as Hrun.
  cbv zeta in Hrun. fold name in Hrun. fold path in Hrun. fold run in Hrun.
  assert (Hdash : path ≠ Ledger.dashboard_path) by by apply ledger_in_dashboard.
  assert (Hfinal : Ledger.ready (Ledger.files run.2)
                   ∧ Ledger.files run.2 !! path =
                       Some (default (Ledger.Text (ledger_content name description t1 t2))
                               (m !! path))
                   ∧ (∀ q, q ≠ path → q ≠ Ledger.dashboard_path →
                           Ledger.files run.2 !! q = m !! q)
                   ∧ (is_Some (m !! path) → Ledger.files run.2 = m)).
  { destruct (m !! path) as [e |] eqn:Hp; rewrite Hrun; cbn [fst snd Ledger.files].
    - repeat split; [apply Hready.. | exact Hp].
    - split; [| split; [| split]].
      + apply ready_insert_text.
        * apply ready_insert_text; [exact Hready | by rewrite Hp].
        * rewrite lookup_insert_ne by done. apply Hready.
      + rewrite lookup_insert_ne by done. by rewrite lookup_insert_eq.
      + intros q Hq1 Hq2. by rewrite !lookup_insert_ne.
      + by intros [? ?]. }
  destruct Hfinal as (Hready' & Hpath & Hframe & Hkept).
  split; [by destruct (m !! path); rewrite Hrun |].
  split; [exact Hpath |]. split; [exact Hframe |]. split; [exact Hkept |]. split.
  - eexists. split.
    + rewrite list_features_run by apply Hready'. reflexivity.
    + apply active_listed; [apply Hready' | fold path; rewrite Hpath; eauto | done | done].
  - intros debug_mode' t1' t2' t3' t4' description'.
    rewrite (create_feature_run _ _ _ _ _ _ _ _ _ _ _ Hready').
    cbv zeta. fold name. fold path. by rewrite Hpath.
Qed.

Lemma create_feature_listed_witness :
  let m := Ledger.fresh_project in
  let run := Ledger.create_feature Ledger.sample_ledger Ledger.sample_dashboard false
               1 2 3 4 "user-login" "Sign in" false (Ledger.start m) in
  Ledger.ready m
  ∧ run.1 = Ledger.Returns (Some [".ai"; "ledgers"; "active"; "user_login.md"])
  ∧ Ledger.files run.2 !! [".ai"; "ledgers"; "active"; "user_login.md"]
      = Some (Ledger.Text "# user_login: Sign in").
Proof.
  intros m run.
  assert (Hready : Ledger.ready m).
  { repeat split; try reflexivity. vm_compute. discriminate. }
  split; [exact Hready |].
  destruct (create_feature_listed Ledger.sample_ledger Ledger.sample_dashboard false
              1 2 3 4 "user-login" "Sign in" false m Hready eq_refl
              ltac:(discriminate) ltac:(discriminate)) as (H1 & H2 & _).
  split; [exact H1 | exact H2].
Defined.

Lemma ledger_in_inj (dir : Path) (a b : string) :
  Ledger.ledger_in dir a = Ledger.ledger_in dir b → a = b.
Proof.
  unfold Ledger.ledger_in. intros H. apply app_inj_tail in H as [_ H].
  by apply append_md_inj.
Qed.

Lemma ledger_in_dirs (a b : string) :
  Ledger.ledger_in Ledger.active_dir a ≠ Ledger.ledger_in Ledger.archived_dir b.
Proof. unfold Ledger.ledger_in. simpl. congruence. Qed.

Lemma replace_dash_changes (s : string) :
  Str.contains "-" s = true → Ledger.replace_dash s ≠ s.
Proof.
  induction s as [| c s IH]; cbn [Str.contains String.prefix]; [discriminate |].
  intros H Heq. simpl in Heq. injection Heq as Hc Hs.
  apply orb_true_iff in H as [H | H].
  - destruct (ascii_dec "-" c) as [<- | Hne]; [discriminate Hc | discriminate H].
  - by apply IH.
Qed.

(** Archiving a feature.  In a project that is ready, a feature whose
    ledger is among the active ones is archived: the call returns
    [True], the ledger is gone from the active ones and the archived
    ledger holds its text followed by the archive note, replacing an
    archived ledger of that name; but for the dashboard every other
    path is as before.  Afterwards the feature is listed as archived
    and no longer as active, and archiving it again only reports that
    it is not found. *)
Theorem archive_feature_moves
    (dashboard_content : list string → Z → Z → string) (archive_info : Z → string)
    (debug_mode : bool) (t1 t2 t3 : Z) (feature_name content : string)
    (m : gmap (list string) Ledger.entry) :
  Ledger.ready m →
  Ledger.single_component feature_name →
  let name := Ledger.replace_dash feature_name in
  let act := Ledger.ledger_in Ledger.active_dir name in
  let arc := Ledger.ledger_in Ledger.archived_dir name in
  name ≠ "" →
  m !! act = Some (Ledger.Text content) →
  m !! arc ≠ Some Ledger.Folder →
  let run := Ledger.archive_feature dashboard_content archive_info debug_mode
               t1 t2 t3 feature_name (Ledger.start m) in
  run.1 = Ledger.Returns true
  ∧ Ledger.files run.2 !! act = None
  ∧ Ledger.files run.2 !! arc = Some (Ledger.Text (content ++ archive_info t1))
  ∧ (∀ q, q ≠ act → q ≠ arc → q ≠ Ledger.dashboard_path →
          Ledger.files run.2 !! q = m !! q)
  ∧ (∃ features,
       (Ledger.list_features true (Ledger.start (Ledger.files run.2))).1
         = Ledger.Returns features
       ∧ {| Ledger.f_name := name; Ledger.f_status := "archived";
            Ledger.f_path := arc |} ∈ features
       ∧ ∀ f, f ∈ features → Ledger.f_path f ≠ act)
  ∧ ∀ debug_mode' t1' t2' t3',
      Ledger.archive_feature dashboard_content archive_info debug_mode'
        t1' t2' t3' feature_name (Ledger.start (Ledger.files run.2)) =
      (Ledger.Returns false,
       {| Ledger.files := Ledger.files run.2;
          Ledger.console := [(Ledger.error, Ledger.FeatureNotFound name)] |}).
Proof.
  intros Hready _ name act arc Hname Hact Harc run.
  pose proof (archive_feature_run dashboard_content archive_info debug_mode
                t1 t2 t3 feature_name m Hready) as Hrun.
  cbv zeta in Hrun. fold name in Hrun. fold act in Hrun. fold arc in Hrun.
  fold run in Hrun. rewrite Hact in Hrun.
  assert (Hda : act ≠ Ledger.dashboard_path) by by apply ledger_in_dashboard.
  assert (Hdr : arc ≠ Ledger.dashboard_path) by by apply ledger_in_dashboard.
  assert (Hne : act ≠ arc) by apply ledger_in_dirs.
  set (m1 := <[arc := Ledger.Text (content ++ archive_info t1)]> m).
  assert (Hready1 : Ledger.ready m1).
  { apply ready_insert_text; [exact Hready | exact Harc]. }
  assert (Hact1 : m1 !! act = Some (Ledger.Text content)).
  { unfold m1. by rewrite lookup_insert_ne. }
  assert (Hready2 : Ledger.ready (delete act m1)).
  { apply ready_delete_ledger; [exact Hready1 | fold act; by rewrite Hact1]. }
  assert (Hfiles : run =
            (Ledger.Returns true,
             {| Ledger.files :=
                  <[Ledger.dashboard_path :=
                      Ledger.Text (dashboard_content
                                     (Ledger.active_features (delete act m1)) t2 t3)]>
                    (delete act m1);
                Ledger.console :=
                  ([(Ledger.info, Ledger.Archiving name)]
                   ++ (if debug_mode
                       then [(Ledger.debug, Ledger.DashboardUpdated)] else [])
                   ++ [(Ledger.success, Ledger.Archived name)])%list |})).
  { rewrite Hrun. destruct (m !! arc) as [[| old] |]; [done | done | done]. }
  clear Hrun. rewrite Hfiles. cbn [fst snd Ledger.files].
  set (final := <[Ledger.dashboard_path := _]> (delete act m1)).
  assert (Hready' : Ledger.ready final).
  { apply ready_insert_text; [exact Hready2 | apply Hready2]. }
  assert (Hgone : final !! act = None).
  { unfold final. rewrite lookup_insert_ne by done. apply lookup_delete_eq. }
  assert (Hthere : final !! arc = Some (Ledger.Text (content ++ archive_info t1))).
  { unfold final. rewrite lookup_insert_ne by done. rewrite lookup_delete_ne by done.
    apply lookup_insert_eq. }
  split; [reflexivity |]. split; [exact Hgone |]. split; [exact Hthere |]. split.
  { intros q Hq1 Hq2 Hq3. unfold final, m1.
    rewrite lookup_insert_ne by done. rewrite lookup_delete_ne by done.
    by rewrite lookup_insert_ne. }
  split.
  - eexists. split; [| split].
    + rewrite list_features_run by apply Hready'. reflexivity.
    + apply archived_listed; [apply Hready' | fold arc; rewrite Hthere; eauto | done].
    + intros f Hf Heq. apply listed_present in Hf. rewrite Heq, Hgone in Hf.
      by destruct Hf.
  - intros debug_mode' t1' t2' t3'.
    rewrite (archive_feature_run _ _ _ _ _ _ _ _ Hready').
    cbv zeta. fold name. fold act. by rewrite Hgone.
Qed.

Lemma archive_feature_moves_witness :
  let m := <[[".ai"; "ledgers"; "active"; "user_login.md"] := Ledger.Text "# user_login"]>
             Ledger.fresh_project in
  let run := Ledger.archive_feature Ledger.sample_dashboard Ledger.sample_archive_info
               false 1 2 3 "user-login" (Ledger.start m) in
  Ledger.ready m
  ∧ run.1 = Ledger.Returns true
  ∧ Ledger.files run.2 !! [".ai"; "ledgers"; "active"; "user_login.md"] = None
  ∧ Ledger.files run.2 !! [".ai"; "ledgers"; "archived"; "user_login.md"]
      = Some (Ledger.Text "# user_login (archived)").
Proof.
  intros m run.
  assert (Hready : Ledger.ready m).
  { repeat split; try reflexivity. vm_compute. discriminate. }
  split; [exact Hready |].
  destruct (archive_feature_moves Ledger.sample_dashboard Ledger.sample_archive_info
              false 1 2 3 "user-login" "# user_login" m Hready eq_refl
              ltac:(discriminate) eq_refl ltac:(vm_compute; discriminate))
    as (H1 & H2 & H3 & _).
  split; [exact H1 |]. split; [exact H2 | exact H3].
Defined.

(** A feature started with [skip_dash_conversion] under a name with a
    dash cannot be archived under that name: [archive_feature] always
    replaces the dashes, looks for another ledger, reports that the
    feature is not found and changes nothing (unless a ledger of the
    name with underscores happens to be there); the feature stays
    listed as active. *)
Theorem archive_misses_dashed_name
    (ledger_content : string → string → Z → Z → string)
    (dashboard_content : list string → Z → Z → string) (archive_info : Z → string)
    (debug_mode debug_mode' : bool) (t1 t2 t3 t4 t5 t6 t7 : Z)
    (feature_name description : string) (m : gmap (list string) Ledger.entry) :
  Ledger.ready m →
  Ledger.single_component feature_name →
  Str.contains "-" feature_name = true →
  m !! Ledger.ledger_in Ledger.active_dir (Ledger.replace_dash feature_name) = None →
  let path := Ledger.ledger_in Ledger.active_dir feature_name in
  let run1 := Ledger.create_feature ledger_content dashboard_content debug_mode
                t1 t2 t3 t4 feature_name description true (Ledger.start m) in
  let run2 := Ledger.archive_feature dashboard_content archive_info debug_mode'
                t5 t6 t7 feature_name (Ledger.start (Ledger.files run1.2)) in
  run1.1 = Ledger.Returns (Some path)
  ∧ is_Some (Ledger.files run1.2 !! path)
  ∧ run2 = (Ledger.Returns false,
            {| Ledger.files := Ledger.files run1.2;
               Ledger.console :=
                 [(Ledger.error,
                   Ledger.FeatureNotFound (Ledger.replace_dash feature_name))] |})
  ∧ ∃ features,
      (Ledger.list_features true (Ledger.start (Ledger.files run2.2))).1
        = Ledger.Returns features
      ∧ {| Ledger.f_name := feature_name; Ledger.f_status := "active";
           Ledger.f_path := path |} ∈ features.
Proof.
  intros Hready _ Hdash Htwin path run1 run2.
  assert (Hname : feature_name ≠ "") by (intros ->; discriminate Hdash).
  assert (Hactive : feature_name ≠ "_active") by (intros ->; discriminate Hdash).
  pose proof (create_feature_run ledger_content dashboard_content debug_mode
                t1 t2 t3 t4 feature_name description true m Hready) as Hrun.
  cbv zeta in Hrun. cbn [negb] in Hrun. fold path in Hrun. fold run1 in Hrun.
  assert (Hdp : path ≠ Ledger.dashboard_path) by by apply ledger_in_dashboard.
  set (act := Ledger.ledger_in Ledger.active_dir (Ledger.replace_dash feature_name)) in *.
  assert (Hda : act ≠ Ledger.dashboard_path) by by apply ledger_in_dashboard.
  assert (Hne : act ≠ path).
  { intros Heq. apply ledger_in_inj in Heq. by apply replace_dash_changes in Heq. }
  assert (Hfinal : run1.1 = Ledger.Returns (Some path)
                   ∧ Ledger.ready (Ledger.files run1.2)
                   ∧ is_Some (Ledger.files run1.2 !! path)
                   ∧ Ledger.files run1.2 !! act = None).
  { destruct (m !! path) as [e |] eqn:Hp; rewrite Hrun; cbn [fst snd Ledger.files].
    - split; [reflexivity |]. split; [exact Hready |]. split; [rewrite Hp; eauto | done].
    - split; [reflexivity |]. split; [| split].
      + apply ready_insert_text.
        * apply ready_insert_text; [exact Hready | by rewrite Hp].
        * rewrite lookup_insert_ne by done. apply Hready.
      + rewrite lookup_insert_ne by done. rewrite lookup_insert_eq. eauto.
      + by rewrite !lookup_insert_ne. }
  destruct Hfinal as (Hret & Hready' & Hpath & Hact).
  assert (Hrun2 : run2 =
            (Ledger.Returns false,
             {| Ledger.files := Ledger.files run1.2;
                Ledger.console :=
                  [(Ledger.error,
                    Ledger.FeatureNotFound (Ledger.replace_dash feature_name))] |})).
  { unfold run2. rewrite (archive_feature_run _ _ _ _ _ _ _ _ Hready').
    cbv zeta. fold act. by rewrite Hact. }
  split; [exact Hret |]. split; [exact Hpath |]. split; [exact Hrun2 |].
  rewrite Hrun2. cbn [snd Ledger.files]. eexists. split.
  - rewrite list_features_run by apply Hready'. reflexivity.
  - apply active_listed; [apply Hready' | exact Hpath | done | done].
Qed.

Lemma archive_misses_dashed_name_witness :
  let m := Ledger.fresh_project in
  let run1 := Ledger.create_feature Ledger.sample_ledger Ledger.sample_dashboard false
                1 2 3 4 "user-login" "Sign in" true (Ledger.start m) in
  let run2 := Ledger.archive_feature Ledger.sample_dashboard Ledger.sample_archive_info
                false 5 6 7 "user-login" (Ledger.start (Ledger.files run1.2)) in
  Ledger.ready m
  ∧ run1.1 = Ledger.Returns (Some [".ai"; "ledgers"; "active"; "user-login.md"])
  ∧ run2 = (Ledger.Returns false,
            {| Ledger.files := Ledger.files run1.2;
               Ledger.console :=
                 [(Ledger.error, Ledger.FeatureNotFound "user_login")] |}).
Proof.
  intros m run1 run2.
  assert (Hready : Ledger.ready m).
  { repeat split; try reflexivity. vm_compute. discriminate. }
  split; [exact Hready |].
  destruct (archive_misses_dashed_name Ledger.sample_ledger Ledger.sample_dashboard
              Ledger.sample_archive_info false false 1 2 3 4 5 6 7
              "user-login" "Sign in" m Hready eq_refl eq_refl eq_refl)
    as (H1 & _ & H3 & _).
  split; [exact H1 | exact H3].
Defined.
